(** * eve-elastic: the Elasticsearch data layer of Eve, embedded in Rocq

    A shallow embedding of [eve_elastic/elastic.py]: the query builder
    ([find], [set_filters], [_build_query_string]), the result normaliser
    ([parse_date], [format_doc], [_parse_hits], [ElasticCursor]), index
    resolution ([_resource_index], [_get_index_prefix]) and the document
    operations ([update], [replace], [remove]).

    Python values are a small universe of JSON-like data; dictionaries are
    association lists in insertion order, as Python's [dict] keeps them.
    Exceptions are the [Raise] arm of a result type, threaded with a bind. *)

From Stdlib Require Import String Ascii List ZArith Lia Bool.
Import ListNotations.

Open Scope string_scope.
Open Scope list_scope.

Set Warnings "-register-all".

(** ** Python values *)

Inductive value : Type :=
| VNone
| VBool (b : bool)
| VInt (z : Z)
| VStr (s : string)
| VDate (t : Z)                       (* a [datetime], kept as a timestamp *)
| VList (l : list value)
| VDict (d : list (string * value)).

Definition dict := list (string * value).

(** ** Exceptions and the result monad *)

Inductive es_class : Type :=
| TransportError
| ConnectionError
| NotFoundError
| ConflictError
| RequestError.

(** [issubclass]: every engine exception derives from [TransportError]. *)
Definition es_isinstance (c base : es_class) : bool :=
  match base, c with
  | TransportError, _ => true
  | ConnectionError, ConnectionError => true
  | NotFoundError, NotFoundError => true
  | ConflictError, ConflictError => true
  | RequestError, RequestError => true
  | _, _ => false
  end.

Inductive exn : Type :=
| TypeError
| AttributeError
| KeyError
| ValueError
| IndexError
| AssertionError
| ParserError                          (* arrow.parser.ParserError *)
| ParseError                           (* eve.io.mongo.parser.ParseError *)
| InvalidSearchString
| HTTPException (code : Z)             (* flask.abort *)
| EsError (c : es_class) (status_code : Z) (error : string).

Inductive result (A : Type) : Type :=
| Ok (a : A)
| Raise (e : exn).
Arguments Ok {A} a.
Arguments Raise {A} e.

Definition bind {A B : Type} (m : result A) (k : A -> result B) : result B :=
  match m with
  | Ok a => k a
  | Raise e => Raise e
  end.

Declare Scope py_scope.
Notation "x <- m ;; k" := (bind m (fun x => k))
  (at level 61, m at next level, right associativity) : py_scope.
Notation "' pat <- m ;; k" := (bind m (fun x => match x with pat => k end))
  (at level 61, pat pattern, m at next level, right associativity) : py_scope.
Open Scope py_scope.

Definition returns {A : Type} (m : result A) : Prop := exists a, m = Ok a.

(** ** Strings *)

Definition dquote : ascii := ascii_of_nat 34.

(** [str.isspace] on the code points below 256. *)
Definition is_space (c : ascii) : bool :=
  let n := nat_of_ascii c in
  (((9 <=? n) && (n <=? 13)) || ((28 <=? n) && (n <=? 32))
   || (n =? 133) || (n =? 160))%nat.

Fixpoint lstrip_with (p : ascii -> bool) (s : string) : string :=
  match s with
  | EmptyString => EmptyString
  | String c s' => if p c then lstrip_with p s' else s
  end.

Fixpoint rstrip_with (p : ascii -> bool) (s : string) : string :=
  match s with
  | EmptyString => EmptyString
  | String c s' =>
      match rstrip_with p s' with
      | EmptyString => if p c then EmptyString else String c EmptyString
      | r => String c r
      end
  end.

Definition strip_with (p : ascii -> bool) (s : string) : string :=
  rstrip_with p (lstrip_with p s).

(** [s.strip()] and [s.strip(ch)]. *)
Definition strip (s : string) : string := strip_with is_space s.
Definition strip_char (ch : ascii) (s : string) : string :=
  strip_with (Ascii.eqb ch) s.

Definition startswith_char (ch : ascii) (s : string) : bool :=
  match s with
  | String c _ => Ascii.eqb c ch
  | EmptyString => false
  end.

Fixpoint endswith_char (ch : ascii) (s : string) : bool :=
  match s with
  | EmptyString => false
  | String c EmptyString => Ascii.eqb c ch
  | String _ s' => endswith_char ch s'
  end.

(** [sub in s] on strings. *)
Fixpoint str_contains (sub s : string) : bool :=
  if String.prefix sub s then true
  else match s with
       | EmptyString => false
       | String _ s' => str_contains sub s'
       end.

(** [s.replace(old, '')] for a non-empty [old]: every occurrence, scanning
    left to right, is cut out.  [skip] counts the characters of the
    occurrence under the cursor that are still to be dropped. *)
Fixpoint remove_all_from (old : string) (skip : nat) (s : string) : string :=
  match s with
  | EmptyString => EmptyString
  | String c s' =>
      match skip with
      | S k => remove_all_from old k s'
      | O => if String.prefix old s
             then remove_all_from old (String.length old - 1) s'
             else String c (remove_all_from old O s')
      end
  end.

Definition str_remove_all (old s : string) : string :=
  match old with
  | EmptyString => s
  | _ => remove_all_from old O s
  end.

(** ** Dictionaries *)

Fixpoint dict_get (d : dict) (k : string) : option value :=
  match d with
  | [] => None
  | (k', v) :: d' => if String.eqb k k' then Some v else dict_get d' k
  end.

Definition dict_mem (d : dict) (k : string) : bool :=
  match dict_get d k with Some _ => true | None => false end.

(** [d[k] = v]: an existing key keeps its place, a new one goes last. *)
Fixpoint dict_set (d : dict) (k : string) (v : value) : dict :=
  match d with
  | [] => [(k, v)]
  | (k', v') :: d' =>
      if String.eqb k k' then (k, v) :: d' else (k', v') :: dict_set d' k v
  end.

Definition dict_setdefault (d : dict) (k : string) (v : value) : dict :=
  if dict_mem d k then d else dict_set d k v.

(** [d.pop(k, None)], the dictionary that is left.  A Python [dict] has
    each key once; on such a list this drops the one entry of [k]. *)
Fixpoint dict_pop (d : dict) (k : string) : dict :=
  match d with
  | [] => []
  | (k', v) :: d' =>
      if String.eqb k k' then dict_pop d' k else (k', v) :: dict_pop d' k
  end.

(** [d.update(e)]. *)
Definition dict_update (d e : dict) : dict :=
  fold_left (fun acc kv => dict_set acc (fst kv) (snd kv)) e d.

Definition dict_keys (d : dict) : list string := map fst d.

(** ** Dynamic operations on values *)

Definition truthy (v : value) : bool :=
  match v with
  | VNone => false
  | VBool b => b
  | VInt z => negb (Z.eqb z 0)
  | VStr s => negb (String.eqb s "")
  | VDate _ => true
  | VList l => match l with [] => false | _ => true end
  | VDict d => match d with [] => false | _ => true end
  end.

(** [v.get(k, default)]: only a [dict] has [get]. *)
Definition py_get (v : value) (k : string) (default : value) : result value :=
  match v with
  | VDict d => Ok (match dict_get d k with Some x => x | None => default end)
  | _ => Raise AttributeError
  end.

(** [k in v] for a string [k]: key of a dict, element of a list,
    substring of a string. *)
Definition py_in (k : string) (v : value) : result bool :=
  match v with
  | VDict d => Ok (dict_mem d k)
  | VList l =>
      Ok (existsb (fun x => match x with VStr s => String.eqb s k | _ => false end) l)
  | VStr s => Ok (str_contains k s)
  | _ => Raise TypeError
  end.

(** [v[k]] for a string [k]. *)
Definition py_getitem (v : value) (k : string) : result value :=
  match v with
  | VDict d => match dict_get d k with Some x => Ok x | None => Raise KeyError end
  | _ => Raise TypeError
  end.

(** [v[0]]. *)
Definition py_first (v : value) : result value :=
  match v with
  | VList [] => Raise IndexError
  | VList (x :: _) => Ok x
  | VStr EmptyString => Raise IndexError
  | VStr (String c _) => Ok (VStr (String c EmptyString))
  | VDict _ => Raise KeyError
  | _ => Raise TypeError
  end.

(** Iterating a value, as [list.extend] does. *)
Definition py_iter (v : value) : result (list value) :=
  match v with
  | VList l => Ok l
  | VDict d => Ok (map VStr (dict_keys d))
  | VStr s => Ok (map (fun c => VStr (String c EmptyString)) (list_ascii_of_string s))
  | _ => Raise TypeError
  end.

Definition digit_of (c : ascii) : option Z :=
  let n := nat_of_ascii c in
  if ((48 <=? n) && (n <=? 57))%nat then Some (Z.of_nat (n - 48)) else None.

(** Decimal digits, with single underscores between them as [int] allows. *)
Fixpoint parse_digits (s : string) (acc : Z) (after_digit : bool) : option Z :=
  match s with
  | EmptyString => if after_digit then Some acc else None
  | String c s' =>
      match digit_of c with
      | Some d => parse_digits s' (10 * acc + d)%Z true
      | None =>
          if Ascii.eqb c "_" && after_digit then parse_digits s' acc false
          else None
      end
  end.

Definition int_of_string (s : string) : option Z :=
  match strip s with
  | String "-" r => option_map Z.opp (parse_digits r 0%Z false)
  | String "+" r => parse_digits r 0%Z false
  | r => parse_digits r 0%Z false
  end.

(** [int(v)]. *)
Definition py_int (v : value) : result Z :=
  match v with
  | VInt z => Ok z
  | VBool b => Ok (if b then 1%Z else 0%Z)
  | VStr s => match int_of_string s with Some z => Ok z | None => Raise ValueError end
  | _ => Raise TypeError
  end.

(** [str.join(',', v)]: every element must be a string. *)
Fixpoint join_strs (sep : string) (l : list value) : result string :=
  match l with
  | [] => Ok ""
  | VStr s :: [] => Ok s
  | VStr s :: l' => r <- join_strs sep l' ;; Ok (s ++ sep ++ r)%string
  | _ => Raise TypeError
  end.

(** ** The cursor *)

Record cursor : Type := mkCursor { hits : value; docs : list value }.

Definition no_hits : value :=
  VDict [("hits", VDict [("total", VInt 0); ("hits", VList [])])].

(** [ElasticCursor.__init__]. *)
Definition ElasticCursor (h : value) (ds : list value) : cursor :=
  {| hits := if truthy h then h else no_hits; docs := ds |}.

(** [ElasticCursor.first]. *)
Definition first (c : cursor) : value :=
  match docs c with
  | d :: _ => d
  | [] => VNone
  end.

(** [ElasticCursor.count]. *)
Definition count (c : cursor) : result Z :=
  h <- py_get (hits c) "hits" (VDict []) ;;
  t <- py_get h "total" (VStr "0") ;;
  py_int t.

(** ** Query building *)

Definition drop_none (l : list value) : list value :=
  filter (fun f => match f with VNone => false | _ => true end) l.

(** [query['query']['bool'][k] = v]. *)
Definition set_in_bool (q : dict) (k : string) (v : value) : result dict :=
  match dict_get q "bool" with
  | None => Raise KeyError
  | Some (VDict b) => Ok (dict_set q "bool" (VDict (dict_set b k v)))
  | Some _ => Raise TypeError
  end.

(** [set_filters(query, must_filter, base_filters=None)]; the query is
    changed in place, here the changed query is the result. *)
Definition set_filters (query : dict) (must_filter : list value)
    (base_filters : option (list value)) : result dict :=
  base <- match base_filters with Some l => Ok l | None => Raise TypeError end ;;
  let filters := VList (drop_none base) in
  let must_filters := drop_none must_filter in
  qv <- py_getitem (VDict query) "query" ;;
  query_filter <- py_get qv "filter" VNone ;;
  let filters := match query_filter with VNone => filters | _ => query_filter end in
  match qv with
  | VDict q =>
      let q1 := if negb (dict_mem q "bool")
                   && (truthy (VList must_filters) || truthy filters)
                then dict_set q "bool" (VDict []) else q in
      q2 <- (if truthy (VList must_filters)
             then set_in_bool q1 "must" (VList must_filters) else Ok q1) ;;
      q3 <- (if truthy filters then set_in_bool q2 "filter" filters else Ok q2) ;;
      Ok (dict_set query "query" (VDict q3))
  | _ => Raise AttributeError
  end.

(** [set_sort(query, sort)]. *)
Definition sort_entry (ks : string * Z) : value :=
  let (key, sortdir) := ks in
  VDict [(key, VDict [("order", VStr (if (0 <? sortdir)%Z then "asc" else "desc"));
                      ("unmapped_type", VStr "long")])].

Definition set_sort (query : dict) (sort : list (string * Z)) : dict :=
  dict_set query "sort" (VList (map sort_entry sort)).

Definition _is_phrase_search (query_string : string) : bool :=
  let clean_query := strip query_string in
  negb (String.eqb clean_query "")
  && startswith_char dquote clean_query && endswith_char dquote clean_query.

Definition _get_phrase (query_string : string) : string :=
  strip_char dquote (strip query_string).

(** [_build_query_string(q, default_field=None, default_operator='AND')].
    The line that used [default_field] is commented out in the source. *)
Definition _build_query_string (q : value) (default_field : value)
    (default_operator : value) : result value :=
  match q with
  | VStr s =>
      if _is_phrase_search s
      then Ok (VDict [("match_phrase", VDict [("all", VStr (_get_phrase s))])])
      else Ok (VDict [("query_string",
                       VDict [("query", q); ("default_operator", default_operator)])])
  | _ => Raise AttributeError
  end.

(** [_build_lookup_filter(lookup)]. *)
Definition _build_lookup_filter (lookup : dict) : value :=
  VList (map (fun kv => VDict [("term", VDict [(fst kv, snd kv)])]) lookup).

(** ** Configuration

    [app.config] is a dictionary; its keys are computed from the cluster
    prefix of a resource ([<px>_INDEXES], [<px>_URL]).  [config.DOMAIN]
    and [config.SOURCES] are Eve's registries, one record per resource. *)

Record resource_config : Type := {
  rc_schema : option dict;               (* ['schema'] *)
  rc_elastic_prefix : option string      (* ['elastic_prefix'] *)
}.

Record source_config : Type := {
  ds_source : option string;             (* the declared [source], if any *)
  ds_default_sort : list (string * Z);   (* [datasource[3]] *)
  ds_entries : dict;                     (* elastic_filter, facets, aggregations *)
  elastic_filter_callback : option value;(* what the callback returns *)
  es_highlight : option (value -> value) (* the highlight builder *)
}.

Record config : Type := {
  app_config : dict;
  DOMAIN : list (string * resource_config);
  SOURCES : list (string * source_config);
  ID_FIELD : string;
  LAST_UPDATED : string;
  DATE_CREATED : string;
  elastics : list string                 (* prefixes with a client already *)
}.

(** Eve's [ParsedRequest]. *)
Record parsed_request : Type := {
  req_args : value;                      (* [None] unless set *)
  req_sort : option string;
  req_where : option string;
  req_max_results : Z;
  req_page : Z
}.

(** One call of the engine client: [client.op(id=.., body=.., **kwargs)]. *)
Record es_call : Type := {
  client : string;
  doc_id : value;
  body : value;
  kwargs : dict
}.

Inductive parser_call : Type :=
| Primary (v : value)                    (* ciso8601.parse_datetime(v) *)
| Secondary (v : value).                 (* arrow.get(v) *)

(** The libraries and the engine client the layer calls. *)
Class Externals : Type := {
  json_loads : string -> option value;               (* [None]: ValueError *)
  literal_eval : string -> result (list (string * Z));
  mongo_parse : string -> option value;              (* [None]: ParseError *)
  ciso8601_parse_datetime : value -> result (option Z);
  arrow_get : value -> result Z;                     (* [arrow.get(v).datetime] *)
  es_search : string -> value -> dict -> result value;
  es_update : es_call -> result value;
  es_index : es_call -> result value;
  es_delete : es_call -> result value
}.

(** What a method hands back: a value, or an exception object returned
    (not raised). *)
Inductive returned : Type :=
| RetValue (v : value)
| RetException (e : exn).

Fixpoint assoc {A : Type} (l : list (string * A)) (k : string) : option A :=
  match l with
  | [] => None
  | (k', a) :: l' => if String.eqb k k' then Some a else assoc l' k
  end.

(** [d[k]] on a registry. *)
Definition lookup {A : Type} (l : list (string * A)) (k : string) : result A :=
  match assoc l k with
  | Some a => Ok a
  | None => Raise KeyError
  end.

Fixpoint map_result {A B : Type} (f : A -> result B) (l : list A) : result (list B) :=
  match l with
  | [] => Ok []
  | a :: l' => b <- f a ;; r <- map_result f l' ;; Ok (b :: r)
  end.

(** [try: m except Exception: return default]. *)
Definition try_except {A : Type} (m : result A) (default : A) : result A :=
  match m with
  | Ok a => Ok a
  | Raise _ => Ok default
  end.

Definition str_truthy (s : string) : bool := negb (String.eqb s "").

Section Layer.

Context {E : Externals}.
Variable cfg : config.

(** Eve's [datasource(resource)[0]]: the declared source, else the
    resource itself. *)
Definition get_datasource (resource : string) : result source_config :=
  lookup (SOURCES cfg) resource.

Definition datasource_source (resource : string) (sc : source_config) : string :=
  match ds_source sc with
  | Some s => s
  | None => resource
  end.

(** ** Index resolution *)

Definition index_prefix_setting : result value :=
  py_getitem (VDict (app_config cfg)) "ELASTICSEARCH_INDEX_PREFIX".

(** [_resource_prefix]. *)
Definition _resource_prefix (resource : string) : result string :=
  p <- index_prefix_setting ;;
  resource <- (if truthy p
               then match p with
                    | VStr old => Ok (str_remove_all old resource)
                    | _ => Raise TypeError
                    end
               else Ok resource) ;;
  if str_truthy resource
  then rc <- lookup (DOMAIN cfg) resource ;;
       match rc_elastic_prefix rc with
       | Some px => Ok (if str_truthy px then px else "ELASTICSEARCH")
       | None => Ok "ELASTICSEARCH"
       end
  else Ok "ELASTICSEARCH".

(** [_resource_config]. *)
Definition _resource_config (resource key : string) (default : value) : result value :=
  px <- _resource_prefix resource ;;
  py_get (VDict (app_config cfg)) (px ++ "_" ++ key)%string default.

(** [_get_index_prefix]. *)
Definition _get_index_prefix (index : string) : result string :=
  if str_truthy index
  then p <- index_prefix_setting ;;
       if truthy p
       then match p with
            | VStr prefix => Ok (prefix ++ index)%string
            | _ => Raise TypeError
            end
       else Ok index
  else Ok index.

(** [_resource_index]. *)
Definition _resource_index (resource : string) : result value :=
  datasource <- get_datasource resource ;;
  ix <- _resource_config resource "INDEXES" VNone ;;
  let indexes := if truthy ix then ix else VDict [] in
  default_index <- _get_index_prefix resource ;;
  py_get indexes (datasource_source resource datasource) (VStr default_index).

(** [_es_args]. *)
Definition _es_args (resource : string) (refresh source_projections : value)
    : result dict :=
  index <- _resource_index resource ;;
  let args := [("index", index); ("doc_type", VStr "doc")] in
  let args := if truthy source_projections
              then dict_set args "_source" source_projections else args in
  let args := if truthy refresh then dict_set args "refresh" refresh else args in
  Ok args.

(** [elastic]: the client of the resource's cluster, named by its prefix.
    A prefix without a client yet needs its URL configured. *)
Definition elastic (resource : string) : result string :=
  px <- _resource_prefix resource ;;
  if existsb (String.eqb px) (elastics cfg) then Ok px
  else url <- _resource_config resource "URL" VNone ;;
       if truthy url then Ok px else Raise AssertionError.

(** [_get_retry_on_conflict]. *)
Definition _get_retry_on_conflict : value :=
  match dict_get (app_config cfg) "ELASTICSEARCH_RETRY_ON_CONFLICT" with
  | Some v => v
  | None => VInt 5
  end.

(** ** Result normalisation *)

(** [parse_date], with the parser calls it makes, in order. *)
Definition parse_date_traced (date_str : value) : list parser_call * result value :=
  if negb (truthy date_str) then ([], Ok VNone)
  else
    let on_type_error (calls : list parser_call) :=
      match py_first date_str with
      | Raise e => (calls, Raise e)
      | Ok x => (calls ++ [Secondary x],
                 match arrow_get x with
                 | Ok t => Ok (VDate t)
                 | Raise e => Raise e
                 end)
      end in
    let handler (calls : list parser_call) (e : exn) :=
      match e with
      | TypeError => on_type_error calls
      | ParserError => (calls, Ok VNone)
      | _ => (calls, Raise e)
      end in
    match ciso8601_parse_datetime date_str with
    | Ok (Some t) => ([Primary date_str], Ok (VDate t))
    | Ok None =>
        match arrow_get date_str with
        | Ok t => ([Primary date_str; Secondary date_str], Ok (VDate t))
        | Raise e => handler [Primary date_str; Secondary date_str] e
        end
    | Raise e => handler [Primary date_str] e
    end.

Definition parse_date (date_str : value) : result value :=
  snd (parse_date_traced date_str).

(** [get_dates]. *)
Fixpoint schema_dates (schema : dict) : result (list string) :=
  match schema with
  | [] => Ok []
  | (field, field_schema) :: rest =>
      has_type <- py_in "type" field_schema ;;
      is_datetime <- (if has_type
                      then t <- py_getitem field_schema "type" ;;
                           Ok (match t with
                               | VStr s => String.eqb s "datetime"
                               | _ => false
                               end)
                      else Ok false) ;;
      r <- schema_dates rest ;;
      Ok (if is_datetime then field :: r else r)
  end.

Definition get_dates (schema : dict) : result (list string) :=
  r <- schema_dates schema ;;
  Ok ([LAST_UPDATED cfg; DATE_CREATED cfg] ++ r).

(** The loop of [format_doc] over the date keys. *)
Fixpoint parse_dates (dates : list string) (doc : dict) : result dict :=
  match dates with
  | [] => Ok doc
  | key :: rest =>
      match dict_get doc key with
      | Some v => d <- parse_date v ;; parse_dates rest (dict_set doc key d)
      | None => parse_dates rest doc
      end
  end.

(** [format_doc]. *)
Definition format_doc (hit : value) (dates : list string) : result value :=
  source <- py_get hit "_source" (VDict []) ;;
  match source with
  | VDict doc =>
      id <- py_get hit "_id" VNone ;;
      let doc := dict_setdefault doc (ID_FIELD cfg) id in
      type <- py_get hit "_type" VNone ;;
      let doc := dict_setdefault doc "_type" type in
      highlight <- py_get hit "highlight" VNone ;;
      let doc := if truthy highlight
                 then dict_set doc "es_highlight" highlight else doc in
      doc <- parse_dates dates doc ;;
      Ok (VDict doc)
  | _ => Raise AttributeError
  end.

Definition schema_of (rc : resource_config) : dict :=
  match rc_schema rc with
  | Some s => s
  | None => []
  end.

(** [_parse_hits].  The cursor keeps the envelope as the engine sent
    it; that [format_doc] works on the [_source] of each hit in place
    is not shown in it. *)
Definition _parse_hits (hits : value) (resource : string) : result cursor :=
  datasource <- get_datasource resource ;;
  rc0 <- lookup (DOMAIN cfg) (datasource_source resource datasource) ;;
  let schema := dict_update [] (schema_of rc0) in
  rc1 <- lookup (DOMAIN cfg) resource ;;
  let schema := dict_update schema (schema_of rc1) in
  dates <- get_dates schema ;;
  envelope <- py_get hits "hits" (VDict []) ;;
  raw <- py_get envelope "hits" (VList []) ;;
  raw_hits <- py_iter raw ;;
  docs <- map_result (fun hit => format_doc hit dates) raw_hits ;;
  Ok (ElasticCursor hits docs).

(** ** The per-call toggles *)

Definition py_json_loads (v : value) : result value :=
  match v with
  | VStr s => match json_loads s with
              | Some x => Ok x
              | None => Raise ValueError
              end
  | _ => Raise TypeError
  end.

(** [should_aggregate]. *)
Definition should_aggregate (req : parsed_request) : result value :=
  try_except
    (auto <- py_get (VDict (app_config cfg)) "ELASTICSEARCH_AUTO_AGGREGATIONS" VNone ;;
     if truthy auto then Ok auto
     else if truthy (req_args req)
          then a <- py_get (req_args req) "aggregations" VNone ;;
               n <- py_int a ;;
               Ok (VBool (truthy (VInt n)))
          else Ok (VBool false))
    (VBool false).

(** [should_highlight]. *)
Definition should_highlight (req : parsed_request) : result value :=
  try_except
    (if truthy (req_args req)
     then a <- py_get (req_args req) "es_highlight" (VInt 0) ;;
          n <- py_int a ;;
          Ok (VBool (truthy (VInt n)))
     else Ok (VBool false))
    (VBool false).

(** [should_project]. *)
Definition should_project (req : parsed_request) : result value :=
  try_except
    (if truthy (req_args req)
     then a <- py_get (req_args req) "projections" (VList []) ;;
          py_json_loads a
     else Ok (req_args req))
    (VBool false).

(** [get_projected_fields]. *)
Definition get_projected_fields (req : parsed_request) : result value :=
  try_except
    (a <- py_get (req_args req) "projections" VNone ;;
     v <- py_json_loads a ;;
     l <- py_iter v ;;
     s <- join_strs "," l ;;
     Ok (VStr s))
    VNone.

(** ** [find] *)

Definition bool_shell : value := VDict [("bool", VDict [])].

(** The [source] branch of [find]: the raw query the caller sent, split
    into the query to start from and the filter taken out of it. *)
Definition source_override (source : value) : result (dict * value) :=
  query <- py_json_loads source ;;
  inner <- py_get query "query" (VDict []) ;;
  has_filter <- py_in "filter" inner ;;
  match query with
  | VDict q =>
      let _query := match dict_get q "query" with Some x => x | None => VNone end in
      if has_filter
      then source_filter <- (if truthy _query
                             then py_getitem _query "filter" else Ok VNone) ;;
           Ok (dict_set q "query" bool_shell, source_filter)
      else Ok ([("query", bool_shell)], _query)
  | _ => Raise AttributeError
  end.

(** The [req.where] block of [find]. *)
Definition where_filter (req : parsed_request) : result (list value) :=
  match req_where req with
  | Some w =>
      if str_truthy w
      then match json_loads w with
           | Some t => Ok [VDict [("term", t)]]
           | None =>
               match mongo_parse w with
               | Some t => Ok [VDict [("term", t)]]
               | None => Raise (HTTPException 400)
               end
           end
      else Ok []
  | None => Ok []
  end.

Definition entry (sc : source_config) (k : string) : value :=
  match dict_get (ds_entries sc) k with
  | Some v => v
  | None => VNone
  end.

(** [source_config.get('elastic_filter_callback', noop)()]. *)
Definition callback_filter (sc : source_config) : value :=
  match elastic_filter_callback sc with
  | Some v => v
  | None => VNone
  end.

(** [find], up to its call of [set_filters]: the query so far, the must
    clauses and the filter clauses. *)
Definition find_filters (resource : string) (req : parsed_request)
    (sub_resource_lookup : value) : result (dict * list value * list value) :=
  let args := if truthy (req_args req) then req_args req else VDict [] in
  source_config <- lookup (SOURCES cfg) resource ;;
  source <- py_get args "source" VNone ;;
  '(query, source_filter) <-
     (if truthy source then source_override source
      else Ok ([("query", bool_shell)], VNone)) ;;
  q <- py_get args "q" VNone ;;
  must_filter <-
     (if truthy q
      then df <- py_get args "df" (VStr "all") ;;
           op <- py_get args "default_operator" (VStr "OR") ;;
           clause <- _build_query_string q df op ;;
           Ok [clause]
      else Ok []) ;;
  query <-
     (if dict_mem query "sort" then Ok query
      else match req_sort req with
           | Some s =>
               if str_truthy s
               then sort <- literal_eval s ;; Ok (set_sort query sort)
               else Ok (match ds_default_sort source_config with
                        | [] => query
                        | l => set_sort query l
                        end)
           | None => Ok (match ds_default_sort source_config with
                         | [] => query
                         | l => set_sort query l
                         end)
           end) ;;
  let query := if truthy (VInt (req_max_results req))
               then dict_setdefault query "size" (VInt (req_max_results req))
               else query in
  let query := if (1 <? req_page req)%Z
               then dict_setdefault query "from"
                      (VInt ((req_page req - 1) * req_max_results req))
               else query in
  let filters := [entry source_config "elastic_filter";
                  callback_filter source_config;
                  source_filter] in
  lookup_filter <-
     (if truthy sub_resource_lookup
      then match sub_resource_lookup with
           | VDict l => Ok (_build_lookup_filter l)
           | _ => Raise AttributeError
           end
      else Ok VNone) ;;
  has_filter <- py_in "filter" args ;;
  arg_filter <- (if has_filter
                 then f <- py_get args "filter" VNone ;; py_json_loads f
                 else Ok VNone) ;;
  has_filters <- py_in "filters" args ;;
  arg_filters <- (if has_filters
                  then fs <- py_get args "filters" VNone ;; py_iter fs
                  else Ok []) ;;
  let must_filter := must_filter ++ [lookup_filter] ++ [arg_filter] ++ arg_filters in
  wf <- where_filter req ;;
  Ok (query, must_filter, filters ++ wf).

(** [find], up to the search: the query document it assembles. *)
Definition find_query (resource : string) (req : parsed_request)
    (sub_resource_lookup : value) : result dict :=
  '(query, must_filter, filters) <- find_filters resource req sub_resource_lookup ;;
  source_config <- lookup (SOURCES cfg) resource ;;
  query <- set_filters query must_filter (Some filters) ;;
  let query := if dict_mem (ds_entries source_config) "facets"
               then dict_set query "facets" (entry source_config "facets")
               else query in
  aggregate <- (if dict_mem (ds_entries source_config) "aggregations"
                then should_aggregate req else Ok (VBool false)) ;;
  let query := if truthy aggregate
               then dict_set query "aggs" (entry source_config "aggregations")
               else query in
  match es_highlight source_config with
  | Some builder =>
      highlight <- should_highlight req ;;
      if truthy highlight
      then query_string <- py_getitem (VDict query) "query" ;;
           let highlights := builder query_string in
           if truthy highlights
           then match highlights with
                | VDict h =>
                    Ok (dict_set query "highlight"
                          (VDict (dict_setdefault h "require_field_match" (VBool false))))
                | _ => Raise AttributeError
                end
           else Ok query
      else Ok query
  | None => Ok query
  end.

(** The [except RequestError] clause of [find]. *)
Definition on_search_error (e : exn) : result value :=
  match e with
  | EsError c status_code error =>
      if es_isinstance c RequestError
      then if (status_code =? 400)%Z && str_contains "No mapping found for" error
           then Ok (VDict [])
           else if (status_code =? 400)%Z && str_contains "SearchParseException" error
                then Raise InvalidSearchString
                else Raise e
      else Raise e
  | _ => Raise e
  end.

(** [find]. *)
Definition find (resource : string) (req : parsed_request)
    (sub_resource_lookup : value) : result cursor :=
  query <- find_query resource req sub_resource_lookup ;;
  project <- should_project req ;;
  source_projections <- (if truthy project
                         then get_projected_fields req else Ok VNone) ;;
  args <- _es_args resource VNone source_projections ;;
  hits <- match (es <- elastic resource ;; es_search es (VDict query) args) with
          | Ok h => Ok h
          | Raise e => on_search_error e
          end ;;
  _parse_hits hits resource.

(** ** Document operations *)

(** [get_parent_id]. *)
Definition get_parent_id (document : dict) : result value :=
  let join_field := match dict_get document "join_field" with
                    | Some v => v
                    | None => VNone
                    end in
  if truthy join_field
  then has_parent <- py_in "parent" join_field ;;
       if has_parent then py_get join_field "parent" VNone else Ok VNone
  else Ok VNone.

(** [_update_parent_join_args]. *)
Definition _update_parent_join_args (args document : dict) : result dict :=
  routing <- get_parent_id document ;;
  Ok (if truthy routing then dict_set args "routing" routing else args).

(** [update], up to the engine call: what is sent. *)
Definition update_call (resource : string) (id_ : value) (updates : dict)
    : result es_call :=
  args <- _es_args resource (VBool true) VNone ;;
  let args := if truthy _get_retry_on_conflict
              then dict_set args "retry_on_conflict" _get_retry_on_conflict
              else args in
  let updates := dict_pop updates "_id" in
  let updates := dict_pop updates "_type" in
  args <- _update_parent_join_args args updates ;;
  es <- elastic resource ;;
  Ok {| client := es; doc_id := id_;
        body := VDict [("doc", VDict updates)]; kwargs := args |}.

(** [update]. *)
Definition update (resource : string) (id_ : value) (updates : dict)
    : result value :=
  call <- update_call resource id_ updates ;;
  es_update call.

(** [replace], up to the engine call. *)
Definition replace_call (resource : string) (id_ : value) (document : dict)
    : result es_call :=
  args <- _es_args resource (VBool true) VNone ;;
  let document := dict_pop document "_id" in
  let document := dict_pop document "_type" in
  args <- _update_parent_join_args args document ;;
  es <- elastic resource ;;
  Ok {| client := es; doc_id := id_; body := VDict document; kwargs := args |}.

(** [replace]. *)
Definition replace (resource : string) (id_ : value) (document : dict)
    : result value :=
  call <- replace_call resource id_ document ;;
  es_index call.

(** [remove(resource, lookup=None, parent=None, **kwargs)].  The call
    [delete(id=.., refresh=True, **kwargs)] is a TypeError when [kwargs]
    repeats a keyword. *)
Definition remove (resource : string) (lookup parent : value) (kw : dict)
    : result returned :=
  es_args <- _es_args resource VNone VNone ;;
  let kw := dict_update kw es_args in
  let kw := if truthy parent then dict_set kw "parent" parent else kw in
  let no_id := Ok (RetException ValueError) in
  if truthy lookup
  then id <- py_get lookup "_id" VNone ;;
       if truthy id
       then match (es <- elastic resource ;;
                   if dict_mem kw "id" || dict_mem kw "refresh"
                   then Raise TypeError
                   else es_delete {| client := es; doc_id := id; body := VNone;
                                     kwargs := dict_set kw "refresh" (VBool true) |}) with
            | Ok r => Ok (RetValue r)
            | Raise (EsError c status_code error) =>
                if es_isinstance c NotFoundError then Ok (RetValue VNone)
                else Raise (EsError c status_code error)
            | Raise e => Raise e
            end
       else no_id
  else no_id.

End Layer.

(** ** A sample application

    The domain of the test suite ([test/test_elastic.py]) and stand-ins
    for the libraries, to run the layer on concrete requests. *)

Definition keyword_field : value := VDict [("type", VStr "keyword")].
Definition text_field : value := VDict [("type", VStr "text")].
Definition datetime_field : value := VDict [("type", VStr "datetime")].

Definition sample_domain : list (string * resource_config) :=
  [("items",
    {| rc_schema := Some [("uri", keyword_field); ("name", text_field);
                          ("firstcreated", datetime_field)];
       rc_elastic_prefix := None |});
   ("published_items",
    {| rc_schema := Some [("published", datetime_field)];
       rc_elastic_prefix := None |});
   ("archived_items",
    {| rc_schema := Some [("name", text_field); ("archived", datetime_field)];
       rc_elastic_prefix := None |});
   ("items_with_description",
    {| rc_schema := Some [("uri", keyword_field); ("name", keyword_field);
                          ("description", text_field);
                          ("firstcreated", datetime_field)];
       rc_elastic_prefix := None |});
   ("items_foo",
    {| rc_schema := Some [("uri", keyword_field); ("firstcreated", datetime_field)];
       rc_elastic_prefix := Some "FOO" |});
   ("items_foo_default_index",
    {| rc_schema := Some [("uri", keyword_field)];
       rc_elastic_prefix := None |})].

Definition plain_source (source : option string) (sort : list (string * Z))
    (entries : dict) : source_config :=
  {| ds_source := source; ds_default_sort := sort; ds_entries := entries;
     elastic_filter_callback := None; es_highlight := None |}.

Definition description_filter : value :=
  VDict [("exists", VDict [("field", VStr "description")])].

Definition sample_sources : list (string * source_config) :=
  [("items", plain_source None [("firstcreated", (-1)%Z)] []);
   ("published_items", plain_source (Some "items") [] []);
   ("archived_items", plain_source None [] []);
   ("items_with_description",
    plain_source None [("firstcreated", (-1)%Z)]
      [("elastic_filter", description_filter);
       ("aggregations",
        VDict [("type", VDict [("terms", VDict [("field", VStr "name")])])])]);
   ("items_foo", plain_source None [] []);
   ("items_foo_default_index", plain_source (Some "items_foo") [] [])].

(** The settings of the test suite with the defaults of [init_app]. *)
Definition sample_settings : dict :=
  [("ELASTICSEARCH_URL", VStr "http://localhost:9200");
   ("FOO_URL", VStr "http://localhost:9200");
   ("ELASTICSEARCH_INDEXES", VDict []);
   ("ELASTICSEARCH_INDEX_PREFIX", VStr "");
   ("ELASTICSEARCH_FORCE_REFRESH", VBool true);
   ("ELASTICSEARCH_AUTO_AGGREGATIONS", VBool true)].

Definition sample_app (settings : dict) : config :=
  {| app_config := settings;
     DOMAIN := sample_domain;
     SOURCES := sample_sources;
     ID_FIELD := "_id";
     LAST_UPDATED := "_updated";
     DATE_CREATED := "_created";
     elastics := [] |}.

Definition sample_cfg : config := sample_app sample_settings.

(** The same settings with a conflict-retry count configured, as
    [test_retry_on_conflict] sets one. *)
Definition retry_settings (count : value) : dict :=
  dict_set sample_settings "ELASTICSEARCH_RETRY_ON_CONFLICT" count.

Definition retry_cfg (count : value) : config :=
  sample_app (retry_settings count).

(** Eve's [ParsedRequest()] with nothing set. *)
Definition plain_request : parsed_request :=
  {| req_args := VNone; req_sort := None; req_where := None;
     req_max_results := 0; req_page := 1 |}.

Definition request_with (args : dict) : parsed_request :=
  {| req_args := VDict args; req_sort := None; req_where := None;
     req_max_results := 0; req_page := 1 |}.

Definition sample_iso : string := "2013-11-06T07:56:01.414944+00:00".
Definition sample_timestamp : Z := 1383724561414944.

(** Stand-ins: [json.loads] knows the documents of [json]; both date
    parsers know one ISO string and refuse what is not a string with a
    TypeError; the primary parser answers [None] to another string, the
    secondary one raises its ParserError; the engine answers [search]
    and [delete] to every search and delete. *)
Definition sample_externals (json : list (string * value))
    (search delete : result value) : Externals :=
  {| json_loads := assoc json;
     literal_eval := fun _ => Raise ValueError;
     mongo_parse := fun _ => None;
     ciso8601_parse_datetime := fun v =>
       match v with
       | VStr s => Ok (if String.eqb s sample_iso then Some sample_timestamp else None)
       | _ => Raise TypeError
       end;
     arrow_get := fun v =>
       match v with
       | VStr s => if String.eqb s sample_iso then Ok sample_timestamp
                   else Raise ParserError
       | _ => Raise TypeError
       end;
     es_search := fun _ _ _ => search;
     es_update := fun _ => Ok (VDict []);
     es_index := fun _ => Ok (VDict []);
     es_delete := fun _ => delete |}.

Definition quiet_externals : Externals :=
  sample_externals [] (Ok (VDict [])) (Ok (VDict [])).

(** JSON text, written with apostrophes for its double quotes. *)
Fixpoint json_text (s : string) : string :=
  match s with
  | EmptyString => EmptyString
  | String c s' =>
      String (if Ascii.eqb c "'" then dquote else c) (json_text s')
  end.

(** A [source] override with its own filter, as in
    [test_filters_with_filtered_query]. *)
Definition sample_source : string :=
  json_text "{'query': {'filter': [{'term': {'uri': 'foo'}}]}}".

Definition uri_foo_term : value := VDict [("term", VDict [("uri", VStr "foo")])].

Definition sample_source_value : value :=
  VDict [("query", VDict [("filter", VList [uri_foo_term])])].

Definition source_externals : Externals :=
  sample_externals [(sample_source, sample_source_value)]
    (Ok (VDict [])) (Ok (VDict [])).

(** The text of a request error for a sort on an unmapped field, and of
    one for a query that does not parse. *)
Definition missing_mapping_error : string :=
  "SearchParseException[[items][0]: Parse Failure [No mapping found for [firstcreated] in order to sort on]]".

Definition parse_failure_error : string :=
  "SearchParseException[[items][0]: Parse Failure [Failed to parse source]]".

Definition failing_search (status_code : Z) (error : string) : Externals :=
  sample_externals [] (Raise (EsError RequestError status_code error))
    (Ok (VDict [])).

Definition not_found_delete : Externals :=
  sample_externals [] (Ok (VDict []))
    (Raise (EsError NotFoundError 404 "not_found")).

(** An envelope that declares three hits and carries one. *)
Definition sample_hit : value :=
  VDict [("_id", VStr "a"); ("_type", VStr "doc");
         ("_source", VDict [("uri", VStr "foo");
                            ("firstcreated", VStr sample_iso)])].

Definition sample_envelope : dict :=
  [("hits", VDict [("total", VInt 3); ("hits", VList [sample_hit])])].

(** A hit whose date field is a list that holds no date. *)
Definition garbled_envelope : value :=
  VDict [("hits",
          VDict [("total", VInt 1);
                 ("hits",
                  VList [VDict [("_id", VStr "a");
                                ("_source",
                                 VDict [("firstcreated",
                                         VList [VStr "garbage"])])]])])].

(** The payload of [test_update]. *)
Definition sample_payload : dict :=
  [("uri", VStr "bar"); ("_id", VStr "foo"); ("_type", VStr "items")].

(** Settings with an index prefix and an override for [items]. *)
Definition prefixed_settings : dict :=
  [("ELASTICSEARCH_URL", VStr "http://localhost:9200");
   ("ELASTICSEARCH_INDEXES", VDict [("items", VStr "items_v2")]);
   ("ELASTICSEARCH_INDEX_PREFIX", VStr "test_")].

(** The boolean container [set_filters] leaves in an empty shell: a
    [must] key when a must clause is left after the [None] entries are
    dropped, a [filter] key when a filter clause is left. *)
Definition bool_clauses (must_filter base_filters : list value) : dict :=
  (match drop_none must_filter with
   | [] => []
   | m => [("must", VList m)]
   end)
  ++ (match drop_none base_filters with
      | [] => []
      | f => [("filter", VList f)]
      end).

(** * More of the layer

    The schema mapper, the rest of the cursor, the lookups by id, the
    inserts and the index settings. *)

Definition is_str (v : value) (s : string) : bool :=
  match v with
  | VStr t => String.eqb t s
  | _ => false
  end.

Definition dict_get_or (d : dict) (k : string) (default : value) : value :=
  match dict_get d k with
  | Some v => v
  | None => default
  end.

(** ** Schema mapping *)

(** [_get_mapping] and [_get_field_mapping].  The inner loops walk a
    dictionary to the entry a subscript names, so that the recursion
    stays on parts of the schema. *)
Fixpoint _get_mapping (schema : value) : result value :=
  match schema with
  | VDict fields =>
      properties <-
        (fix each (l : list (string * value)) (properties : dict) {struct l}
           : result dict :=
           match l with
           | [] => Ok properties
           | (field, field_schema) :: l' =>
               field_mapping <- _get_field_mapping field_schema ;;
               each l' (if truthy field_mapping
                        then dict_set properties field field_mapping
                        else properties)
           end) fields [] ;;
      Ok (VDict [("properties", VDict properties)])
  | _ => Raise AttributeError
  end

with _get_field_mapping (schema : value) : result value :=
  match schema with
  | VDict d =>
      if dict_mem d "mapping" then Ok (dict_get_or d "mapping" VNone)
      else
        match dict_get d "type" with
        | None => Raise KeyError
        | Some type =>
            if is_str type "dict" && dict_mem d "schema"
            then (fix sub (l : list (string * value)) : result value :=
                    match l with
                    | [] => Raise KeyError
                    | (k, v) :: l' =>
                        if String.eqb "schema" k then _get_mapping v else sub l'
                    end) d
            else
              nested <- (if is_str type "list"
                         then py_in "schema" (dict_get_or d "schema" (VDict []))
                         else Ok false) ;;
              if nested
              then (fix sub (l : list (string * value)) : result value :=
                      match l with
                      | [] => Raise KeyError
                      | (k, v) :: l' =>
                          if String.eqb "schema" k
                          then match v with
                               | VDict d2 =>
                                   (fix sub2 (l2 : list (string * value))
                                      : result value :=
                                      match l2 with
                                      | [] => Raise KeyError
                                      | (k2, v2) :: l2' =>
                                          if String.eqb "schema" k2
                                          then _get_mapping v2 else sub2 l2'
                                      end) d2
                               | _ => Raise TypeError
                               end
                          else sub l'
                      end) d
              else if is_str type "join"
              then match dict_get d "relations" with
                   | Some relations =>
                       Ok (VDict [("type", VStr "join"); ("relations", relations)])
                   | None => Raise KeyError
                   end
              else if is_str type "datetime" && dict_mem d "ignore_malformed"
              then Ok (VDict [("type", VStr "date");
                              ("ignore_malformed",
                               dict_get_or d "ignore_malformed" VNone)])
              else if is_str type "datetime"
              then Ok (VDict [("type", VStr "date")])
              else if is_str type "text"
              then Ok (VDict [("type", VStr "text"); ("copy_to", VStr "all")])
              else if is_str type "keyword"
              then Ok (VDict [("type", VStr "keyword"); ("copy_to", VStr "all")])
              else Ok VNone
        end
  | _ => Raise TypeError
  end.

(** The loop of [_get_mapping] over the fields, by itself. *)
Fixpoint collect_mappings (l : list (string * value)) (properties : dict)
    : result dict :=
  match l with
  | [] => Ok properties
  | (field, field_schema) :: l' =>
      field_mapping <- _get_field_mapping field_schema ;;
      collect_mappings l' (if truthy field_mapping
                           then dict_set properties field field_mapping
                           else properties)
  end.

(** [_get_mapping_properties(resource_config, parent=None)]. *)
Definition _get_mapping_properties (cfg : config) (rc : resource_config)
    (parent : value) : result value :=
  schema <- match rc_schema rc with
            | Some s => Ok s
            | None => Raise KeyError
            end ;;
  properties <- _get_mapping (VDict schema) ;;
  inner <- py_getitem properties "properties" ;;
  match properties, inner with
  | VDict p, VDict props =>
      date <- _get_field_mapping (VDict [("type", VStr "datetime")]) ;;
      let props := dict_update props [(DATE_CREATED cfg, date);
                                      (LAST_UPDATED cfg, date)] in
      let p := dict_set p "properties" (VDict props) in
      p <- (if truthy parent
            then t <- py_get parent "type" VNone ;;
                 Ok (dict_update p [("_parent", VDict [("type", t)])])
            else Ok p) ;;
      inner <- py_getitem (VDict p) "properties" ;;
      match inner with
      | VDict props =>
          Ok (VDict (dict_set p "properties" (VDict (dict_pop props "_id"))))
      | _ => Raise AttributeError
      end
  | _, _ => Raise AttributeError
  end.

(** ** The rest of the cursor *)

(** [ElasticCursor.extra(response)], the response it leaves. *)
Definition extra (c : cursor) (response : dict) : result dict :=
  has_facets <- py_in "facets" (hits c) ;;
  response <- (if has_facets
               then f <- py_getitem (hits c) "facets" ;;
                    Ok (dict_set response "_facets" f)
               else Ok response) ;;
  has_aggregations <- py_in "aggregations" (hits c) ;;
  if has_aggregations
  then a <- py_getitem (hits c) "aggregations" ;;
       Ok (dict_set response "_aggregations" a)
  else Ok response.

(** ** [build_elastic_query] *)

(** The loop of [build_elastic_query] over the keys of [doc]: the query
    and the filters collected. *)
Fixpoint build_elastic_clauses (keys : list (string * value)) (query : value)
    (filters : list value) : result (value * list value) :=
  match keys with
  | [] => Ok (query, filters)
  | (key, _value) :: rest =>
      if String.eqb key "q"
      then q <- _build_query_string _value VNone (VStr "AND") ;;
           build_elastic_clauses rest q filters
      else build_elastic_clauses rest query
             (filters ++ [match _value with
                          | VList _ => VDict [("terms", VDict [(key, _value)])]
                          | _ => VDict [("term", VDict [(key, _value)])]
                          end])
  end.

(** [build_elastic_query(doc)]: it calls [set_filters] without the base
    filters. *)
Definition build_elastic_query (doc : value) : result dict :=
  match doc with
  | VDict d =>
      '(query, filters) <- build_elastic_clauses d (VDict []) [] ;;
      set_filters [("query", query)] filters None
  | _ => Raise AttributeError
  end.

(** ** The engine, for reads and refreshes *)

Class ReadEngine : Type := {
  es_get : es_call -> result value;
  es_mget : string -> value -> dict -> result value;
  es_count : string -> value -> dict -> result value;
  es_refresh : string -> value -> result value
}.

(** ** Index settings

    The calls on [es.indices], in the order they are made; [answer]
    tells which of them the engine refuses, and with what. *)

Inductive indices_call : Type :=
| IndicesCreate (args : dict)
| IndicesPutAlias (index name : string)
| IndicesClose (index : string)
| IndicesPutSettings (index : string) (body : value)
| IndicesOpen (index : string).

Fixpoint run_calls (answer : indices_call -> option exn)
    (calls : list indices_call) : list indices_call * result unit :=
  match calls with
  | [] => ([], Ok tt)
  | c :: rest =>
      match answer c with
      | Some e => ([c], Raise e)
      | None => let (made, r) := run_calls answer rest in (c :: made, r)
      end
  end.

(** [generate_index_name(alias)], with the random part of the uuid. *)
Definition generate_index_name (alias random : string) : string :=
  (alias ++ "_" ++ random)%string.

(** [put_settings(app, index, settings, es)].  [self_index] is
    [self.index], read when no index is given. *)
Definition put_settings (answer : indices_call -> option exn)
    (self_index : result string) (index : string) (settings : value)
    : list indices_call * result unit :=
  match (if str_truthy index then Ok index else self_index) with
  | Raise e => ([], Raise e)
  | Ok index =>
      if truthy settings
      then run_calls answer [IndicesClose index;
                             IndicesPutSettings index settings;
                             IndicesOpen index]
      else ([], Ok tt)
  end.

(** [create_index(index, mappings, settings, es)]. *)
Definition create_index (answer : indices_call -> option exn)
    (self_index : result string) (random : string) (index : option string)
    (mappings settings : value) : list indices_call * result unit :=
  match (match index with Some i => Ok i | None => self_index end) with
  | Raise e => ([], Raise e)
  | Ok index =>
      let alias := generate_index_name index random in
      let args := [("index", VStr index)] in
      let args := if truthy mappings then dict_set args "body" mappings else args in
      match (if truthy settings
             then match dict_get args "body" with
                  | None => Raise KeyError
                  | Some (VDict b) =>
                      Ok (dict_set args "body" (VDict (dict_set b "settings" settings)))
                  | Some _ => Raise TypeError
                  end
             else Ok args) with
      | Raise e => ([], Raise e)
      | Ok args =>
          match run_calls answer [IndicesCreate args; IndicesPutAlias index alias] with
          | (made, Raise (EsError _ _ _)) => (made, Ok tt)
          | r => r
          end
      end
  end.

Section Reads.

Context {E : Externals} {R : ReadEngine}.
Variable cfg : config.

(** ** Lookups *)

(** [is_found(hit)] of [_find_by_id]: the hit as it is left, and the
    answer. *)
Definition is_found (hit : value) : result (value * value) :=
  has_exists <- py_in "exists" hit ;;
  match hit with
  | VDict h =>
      let h := if has_exists
               then dict_set h "found" (dict_get_or h "exists" VNone) else h in
      Ok (VDict h, dict_get_or h "found" (VBool false))
  | _ => if has_exists then Raise TypeError else Raise AttributeError
  end.

(** The search [_find_by_id] falls back to. *)
Definition find_by_id_search (resource : string) (_id : value) : result value :=
  args <- _es_args cfg resource VNone VNone ;;
  let query := VDict [("query",
                 VDict [("bool",
                   VDict [("must", VList [VDict [("term", VDict [("_id", _id)])]])])])] in
  match (let args := dict_set args "size" (VInt 1) in
         es <- elastic cfg resource ;;
         hits <- es_search es query args ;;
         docs <- _parse_hits cfg hits resource ;;
         Ok (first docs)) with
  | Raise (EsError c status_code error) =>
      if es_isinstance c NotFoundError then Ok VNone
      else Raise (EsError c status_code error)
  | r => r
  end.

(** [_find_by_id(resource, _id, parent=None)]. *)
Definition _find_by_id (resource : string) (_id parent : value) : result value :=
  args <- _es_args cfg resource VNone VNone ;;
  match (let args := if truthy parent then dict_set args "parent" parent else args in
         es <- elastic cfg resource ;;
         hit <- es_get {| client := es; doc_id := _id; body := VNone; kwargs := args |} ;;
         '(hit, found) <- is_found hit ;;
         if truthy found
         then docs <- _parse_hits cfg
                        (VDict [("hits", VDict [("hits", VList [hit])])]) resource ;;
              Ok (first docs)
         else Ok VNone) with
  | Ok v => Ok v
  | Raise (EsError c status_code error) =>
      if es_isinstance c NotFoundError then Ok VNone
      else if String.eqb error "routing_missing_exception"
              || str_contains "RoutingMissingException" error
           then find_by_id_search resource _id
           else Ok VNone
  | Raise e => Raise e
  end.

(** [find_one(resource, req, **lookup)]. *)
Definition find_one (resource : string) (lookup : dict) : result value :=
  if dict_mem lookup (ID_FIELD cfg)
  then _find_by_id resource (dict_get_or lookup (ID_FIELD cfg) VNone)
         (dict_get_or lookup "parent" VNone)
  else
    args <- _es_args cfg resource VNone VNone ;;
    let filters := map (fun kv => VDict [("term", VDict [(fst kv, snd kv)])]) lookup in
    let query := VDict [("query", VDict [("bool", VDict [("filter", VList filters)])])] in
    match (let args := dict_set args "size" (VInt 1) in
           prefixed <- _get_index_prefix cfg resource ;;
           es <- elastic cfg prefixed ;;
           hits <- es_search es query args ;;
           docs <- _parse_hits cfg hits resource ;;
           Ok (first docs)) with
    | Raise (EsError c status_code error) =>
        if es_isinstance c NotFoundError then Ok VNone
        else Raise (EsError c status_code error)
    | r => r
    end.

(** [find_one_raw]. *)
Definition find_one_raw (resource : string) (_id : value) : result value :=
  _find_by_id resource _id VNone.

(** [find_list_of_ids]. *)
Definition find_list_of_ids (resource : string) (ids : value) : result cursor :=
  args <- _es_args cfg resource VNone VNone ;;
  es <- elastic cfg resource ;;
  hits <- es_mget es (VDict [("ids", ids)]) args ;;
  _parse_hits cfg hits resource.

(** [res.get('count', 0) == 0]. *)
Definition equals_zero (v : value) : bool :=
  match v with
  | VInt z => Z.eqb z 0
  | VBool b => negb b
  | _ => false
  end.

(** [is_empty]. *)
Definition is_empty (resource : string) : result bool :=
  resource <- _get_index_prefix cfg resource ;;
  args <- _es_args cfg resource VNone VNone ;;
  es <- elastic cfg resource ;;
  res <- es_count es (VDict [("query", VDict [("match_all", VDict [])])]) args ;;
  n <- py_get res "count" (VInt 0) ;;
  Ok (equals_zero n).

(** ** Inserts *)

(** [_refresh_resource_index]. *)
Definition _refresh_resource_index (resource : string) : result unit :=
  force <- _resource_config cfg resource "FORCE_REFRESH" (VBool true) ;;
  if truthy force
  then es <- elastic cfg resource ;;
       index <- _resource_index cfg resource ;;
       _ <- es_refresh es index ;;
       Ok tt
  else Ok tt.

(** The loop of [insert]: the keyword arguments are one dictionary for
    all the documents.  The result is the calls made, the documents as
    they are left, and the ids. *)
Fixpoint insert_docs (resource : string) (kw : dict) (docs : list dict)
    : result (list es_call * list dict * list value) :=
  match docs with
  | [] => Ok ([], [], [])
  | doc :: rest =>
      kw <- _update_parent_join_args kw doc ;;
      let _id := dict_get_or doc "_id" VNone in
      let doc := dict_pop doc "_id" in
      es <- elastic cfg resource ;;
      let call := {| client := es; doc_id := _id; body := VDict doc; kwargs := kw |} in
      res <- (if dict_mem kw "body" || dict_mem kw "id"
              then Raise TypeError else es_index call) ;;
      new_id <- py_get res "_id" _id ;;
      let doc := dict_setdefault doc "_id" new_id in
      '(calls, kept, ids) <- insert_docs resource kw rest ;;
      Ok (call :: calls, doc :: kept, dict_get_or doc "_id" VNone :: ids)
  end.

(** [insert(resource, doc_or_docs, **kwargs)]. *)
Definition insert (resource : string) (docs : list dict) (kw : dict)
    : result (list value) :=
  es_args <- _es_args cfg resource VNone VNone ;;
  '(_, _, ids) <- insert_docs resource (dict_update kw es_args) docs ;;
  _ <- _refresh_resource_index resource ;;
  Ok ids.

End Reads.

(** ** More of the sample application *)

(** An engine for reads that answers every get, mget and count with
    the given outcome. *)
Definition sample_reads (get mget count : result value) : ReadEngine :=
  {| es_get := fun _ => get;
     es_mget := fun _ _ _ => mget;
     es_count := fun _ _ _ => count;
     es_refresh := fun _ _ => Ok VNone |}.

Definition quiet_reads : ReadEngine :=
  sample_reads (Ok (VDict [])) (Ok (VDict [])) (Ok (VDict [])).

(** An engine that answers an index call with the id it was given, or
    with a generated one. *)
Definition echo_externals : Externals :=
  {| json_loads := fun _ => None;
     literal_eval := fun _ => Raise ValueError;
     mongo_parse := fun _ => None;
     ciso8601_parse_datetime := fun _ => Ok None;
     arrow_get := fun _ => Raise ParserError;
     es_search := fun _ _ _ => Ok (VDict []);
     es_update := fun _ => Ok (VDict []);
     es_index := fun call =>
       Ok (VDict [("_id", if truthy (doc_id call) then doc_id call
                          else VStr "generated")]);
     es_delete := fun _ => Ok (VDict []) |}.

(** The documents of [test_insert_child_item], in one batch, with one
    more that names no parent. *)
Definition library_doc : dict :=
  [("_id", VStr "foo"); ("name", VStr "library"); ("join_field", VStr "library")].

Definition book_doc : dict :=
  [("_id", VStr "childfoo"); ("name", VStr "book");
   ("join_field", VDict [("name", VStr "book"); ("parent", VStr "foo")])].

Definition loose_doc : dict := [("name", VStr "loose")].

(** The schema of [items] in the test suite, with its nested fields. *)
Definition items_schema : dict :=
  [("uri", keyword_field);
   ("name", text_field);
   ("firstcreated", VDict [("type", VStr "datetime"); ("ignore_malformed", VBool true)]);
   ("category", VDict [("type", VStr "keyword"); ("unique", VBool true)]);
   ("dateline",
    VDict [("type", VStr "dict");
           ("schema", VDict [("place", text_field);
                             ("created", datetime_field);
                             ("extra", VDict [("type", VStr "dict")])])]);
   ("place",
    VDict [("type", VStr "list");
           ("schema",
            VDict [("type", VStr "dict");
                   ("schema", VDict [("name", text_field);
                                     ("created", datetime_field)])])]);
   ("_id", keyword_field)].

(** An engine for the index calls that refuses the calls [refused]
    picks, with a request error. *)
Definition refusing (refused : indices_call -> bool) (c : indices_call)
    : option exn :=
  if refused c then Some (EsError RequestError 400 "illegal_argument_exception")
  else None.

Definition is_put_settings (c : indices_call) : bool :=
  match c with
  | IndicesPutSettings _ _ => true
  | _ => false
  end.

Definition is_create (c : indices_call) : bool :=
  match c with
  | IndicesCreate _ => true
  | _ => false
  end.

(** The term [foo bar] wrapped in two double quotes on each side. *)
Definition quoted_term : string :=
  String dquote (String dquote ("foo bar" ++ String dquote (String dquote ""))).

(** The faceted query of the docstring of [build_elastic_query]. *)
Definition cricket_doc : dict :=
  [("q", VStr "cricket"); ("type", VList [VStr "text"]); ("source", VStr "AAP")].

(** A [source] override with a filter, a size and a sort of its own. *)
Definition paged_source : string :=
  json_text "{'query': {'filter': [{'term': {'uri': 'foo'}}]}, 'size': 5, 'sort': ['uri']}".

Definition paged_source_value : dict :=
  [("query", VDict [("filter", VList [uri_foo_term])]);
   ("size", VInt 5);
   ("sort", VList [VStr "uri"])].

Definition paged_externals : Externals :=
  sample_externals [(paged_source, VDict paged_source_value)]
    (Ok (VDict [])) (Ok (VDict [])).

(** Page 3 of 25 of a resource, and the same with a where clause that
    parses as nothing. *)
Definition third_page : parsed_request :=
  {| req_args := VNone; req_sort := None; req_where := None;
     req_max_results := 25; req_page := 3 |}.

Definition garbled_where : parsed_request :=
  {| req_args := VNone; req_sort := None; req_where := Some "name==";
     req_max_results := 25; req_page := 1 |}.

Definition garbled_sort : parsed_request :=
  {| req_args := VNone; req_sort := Some "[(name, 1)"; req_where := None;
     req_max_results := 25; req_page := 1 |}.

(** The envelope [_find_by_id] makes of a hit. *)
Definition single_hit_envelope : dict :=
  [("hits", VDict [("hits", VList [sample_hit])])].

Definition paged_request : parsed_request :=
  {| req_args := VDict [("source", VStr paged_source)]; req_sort := None;
     req_where := None; req_max_results := 25; req_page := 2 |}.

Definition lost_connection : ReadEngine :=
  sample_reads (Raise (EsError ConnectionError 0 "ConnectionTimeout"))
    (Ok (VDict [])) (Ok (VDict [])).

Definition legacy_absent : ReadEngine :=
  sample_reads (Ok (VDict [("exists", VBool false); ("found", VBool true)]))
    (Ok (VDict [])) (Ok (VDict [])).

Definition multi_get : ReadEngine :=
  sample_reads (Ok (VDict [])) (Ok (VDict [("docs", VList [sample_hit])]))
    (Ok (VDict [])).

Definition not_found_search : Externals :=
  sample_externals [] (Raise (EsError NotFoundError 404 "index_not_found_exception"))
    (Ok (VDict [])).

(** * Properties *)

(** ** Dictionaries *)

Lemma dict_get_set_eq (d : dict) (k : string) (v : value) :
  dict_get (dict_set d k v) k = Some v.
Proof.
  induction d as [|[k' v'] d IH]; simpl.
  - now rewrite String.eqb_refl.
  - destruct (String.eqb k k') eqn:Hk; simpl.
    + now rewrite String.eqb_refl.
    + now rewrite Hk.
Qed.

Lemma dict_get_set_neq (d : dict) (k k' : string) (v : value) :
  k <> k' -> dict_get (dict_set d k v) k' = dict_get d k'.
Proof.
  intros Hne. induction d as [|[k0 v0] d IH]; simpl.
  - destruct (String.eqb k' k) eqn:Hk; [|reflexivity].
    apply String.eqb_eq in Hk. congruence.
  - destruct (String.eqb k k0) eqn:Hk; simpl.
    + apply String.eqb_eq in Hk. subst k0.
      destruct (String.eqb k' k) eqn:Hk'; [|reflexivity].
      apply String.eqb_eq in Hk'. congruence.
    + now rewrite IH.
Qed.

Lemma dict_get_setdefault_neq (d : dict) (k k' : string) (v : value) :
  k <> k' -> dict_get (dict_setdefault d k v) k' = dict_get d k'.
Proof.
  intros Hne. unfold dict_setdefault.
  destruct (dict_mem d k); [reflexivity|]. now apply dict_get_set_neq.
Qed.

Lemma dict_get_pop_eq (d : dict) (k : string) :
  dict_get (dict_pop d k) k = None.
Proof.
  induction d as [|[k' v'] d IH]; simpl; [reflexivity|].
  destruct (String.eqb k k') eqn:Hk; simpl; [assumption|].
  now rewrite Hk.
Qed.

Lemma dict_get_pop_neq (d : dict) (k k' : string) :
  k <> k' -> dict_get (dict_pop d k) k' = dict_get d k'.
Proof.
  intros Hne. induction d as [|[k0 v0] d IH]; simpl; [reflexivity|].
  destruct (String.eqb k k0) eqn:Hk; simpl.
  - apply String.eqb_eq in Hk. subst k0.
    destruct (String.eqb k' k) eqn:Hk'; [|assumption].
    apply String.eqb_eq in Hk'. congruence.
  - now rewrite IH.
Qed.

(** Popping the identifier and the type leaves every other key alone. *)
Lemma strip_id_type_frame (d : dict) (k : string) :
  k <> "_id" -> k <> "_type" ->
  dict_get (dict_pop (dict_pop d "_id") "_type") k = dict_get d k.
Proof.
  intros H1 H2.
  rewrite dict_get_pop_neq by congruence.
  now rewrite dict_get_pop_neq by congruence.
Qed.

Lemma strip_id_type_gone (d : dict) :
  dict_get (dict_pop (dict_pop d "_id") "_type") "_id" = None
  /\ dict_get (dict_pop (dict_pop d "_id") "_type") "_type" = None.
Proof.
  split.
  - rewrite dict_get_pop_neq by discriminate. apply dict_get_pop_eq.
  - apply dict_get_pop_eq.
Qed.

(** ** The result monad *)

Lemma bind_ok {A B : Type} (m : result A) (k : A -> result B) (b : B) :
  bind m k = Ok b -> exists a, m = Ok a /\ k a = Ok b.
Proof.
  destruct m as [a|e]; simpl; intros H; [|discriminate].
  exists a. now split.
Qed.

Ltac bind_inv H :=
  let a := fresh "a" in
  let Ha := fresh "E" a in
  apply bind_ok in H; destruct H as (a & Ha & H).

Ltac bind_inv_as H a Ha :=
  apply bind_ok in H; destruct H as (a & Ha & H); cbv beta zeta in H.

Section Properties.

Context {E : Externals}.
Variable cfg : config.

(** ** Keyword arguments of the engine calls *)

Lemma es_args_get (resource : string) (refresh projections : value)
    (args : dict) (k : string) :
  _es_args cfg resource refresh projections = Ok args ->
  k <> "index" -> k <> "doc_type" -> k <> "_source" -> k <> "refresh" ->
  dict_get args k = None.
Proof.
  unfold _es_args. intros H Hi Hd Hs Hr. bind_inv H.
  injection H as <-.
  apply String.eqb_neq in Hi, Hd, Hs, Hr.
  destruct (truthy refresh), (truthy projections); simpl;
    rewrite ?Hi, ?Hd, ?Hs, ?Hr; reflexivity.
Qed.

Lemma parent_join_args_get (args document args' : dict) (k : string) :
  _update_parent_join_args args document = Ok args' ->
  k <> "routing" -> dict_get args' k = dict_get args k.
Proof.
  unfold _update_parent_join_args. intros H Hk. bind_inv H.
  injection H as <-.
  destruct (truthy a); [|reflexivity].
  now rewrite dict_get_set_neq by congruence.
Qed.

(** What [update] sends: the arguments of [_es_args], the retry count
    when it is truthy, the routing, and the stripped payload. *)
Lemma update_call_inv (resource : string) (id_ : value) (updates : dict)
    (call : es_call) :
  update_call cfg resource id_ updates = Ok call ->
  exists args,
    _es_args cfg resource (VBool true) VNone = Ok args
    /\ body call
       = VDict [("doc", VDict (dict_pop (dict_pop updates "_id") "_type"))]
    /\ doc_id call = id_
    /\ forall k, k <> "routing" ->
         dict_get (kwargs call) k
         = dict_get (if truthy (_get_retry_on_conflict cfg)
                     then dict_set args "retry_on_conflict" (_get_retry_on_conflict cfg)
                     else args) k.
Proof.
  unfold update_call. intros H. bind_inv H. bind_inv H. bind_inv H.
  injection H as <-. simpl. exists a.
  split; [assumption|]. split; [reflexivity|]. split; [reflexivity|].
  intros k Hk. eapply parent_join_args_get; eassumption.
Qed.

Lemma replace_call_inv (resource : string) (id_ : value) (document : dict)
    (call : es_call) :
  replace_call cfg resource id_ document = Ok call ->
  body call = VDict (dict_pop (dict_pop document "_id") "_type")
  /\ doc_id call = id_.
Proof.
  unfold replace_call. intros H. bind_inv H. bind_inv H. bind_inv H.
  injection H as <-. simpl. now split.
Qed.

(** C8. Whenever [update] or [replace] reaches the engine, the body it
    sends (the [doc] of an update, the document of a replace) has no
    [_id] and no [_type] key, and every other key of the payload has
    the value the caller gave it. *)
Theorem update_replace_strip_id_type (resource : string) (id_ : value)
    (payload : dict) :
  (forall call, update_call cfg resource id_ payload = Ok call ->
     exists doc,
       body call = VDict [("doc", VDict doc)]
       /\ dict_get doc "_id" = None /\ dict_get doc "_type" = None
       /\ forall k, k <> "_id" -> k <> "_type" ->
            dict_get doc k = dict_get payload k)
  /\ (forall call, replace_call cfg resource id_ payload = Ok call ->
        exists doc,
          body call = VDict doc
          /\ dict_get doc "_id" = None /\ dict_get doc "_type" = None
          /\ forall k, k <> "_id" -> k <> "_type" ->
               dict_get doc k = dict_get payload k).
Proof.
  split; intros call H.
  - apply update_call_inv in H. destruct H as (args & _ & Hb & _).
    exists (dict_pop (dict_pop payload "_id") "_type").
    destruct (strip_id_type_gone payload) as [Hi Ht].
    repeat split; try assumption.
    intros k H1 H2. now apply strip_id_type_frame.
  - apply replace_call_inv in H. destruct H as [Hb _].
    exists (dict_pop (dict_pop payload "_id") "_type").
    destruct (strip_id_type_gone payload) as [Hi Ht].
    repeat split; try assumption.
    intros k H1 H2. now apply strip_id_type_frame.
Qed.

(** C9. An update whose configured conflict-retry count, the setting
    [ELASTICSEARCH_RETRY_ON_CONFLICT], is falsy (0, None) sends no
    [retry_on_conflict] argument at all; a configured count that is
    truthy, a positive one in particular, is sent as it is configured;
    without the setting the count is 5. *)
Theorem update_retry_on_conflict (resource : string) (id_ : value)
    (updates : dict) (call : es_call) :
  update_call cfg resource id_ updates = Ok call ->
  (forall v,
     dict_get (app_config cfg) "ELASTICSEARCH_RETRY_ON_CONFLICT" = Some v ->
     truthy v = false ->
     dict_get (kwargs call) "retry_on_conflict" = None)
  /\ (forall v,
        dict_get (app_config cfg) "ELASTICSEARCH_RETRY_ON_CONFLICT" = Some v ->
        truthy v = true ->
        dict_get (kwargs call) "retry_on_conflict" = Some v)
  /\ (forall n, (0 < n)%Z ->
        dict_get (app_config cfg) "ELASTICSEARCH_RETRY_ON_CONFLICT"
        = Some (VInt n) ->
        dict_get (kwargs call) "retry_on_conflict" = Some (VInt n))
  /\ (dict_get (app_config cfg) "ELASTICSEARCH_RETRY_ON_CONFLICT" = None ->
        _get_retry_on_conflict cfg = VInt 5
        /\ dict_get (kwargs call) "retry_on_conflict" = Some (VInt 5)).
Proof.
  intros H. apply update_call_inv in H.
  destruct H as (args & Hargs & _ & _ & Hkw).
  specialize (Hkw "retry_on_conflict" ltac:(discriminate)).
  assert (Hsent : forall v, _get_retry_on_conflict cfg = v -> truthy v = true ->
            dict_get (kwargs call) "retry_on_conflict" = Some v).
  { intros v Hv Ht. rewrite Hkw, Hv, Ht. apply dict_get_set_eq. }
  assert (Hset : forall v,
            dict_get (app_config cfg) "ELASTICSEARCH_RETRY_ON_CONFLICT" = Some v ->
            _get_retry_on_conflict cfg = v).
  { intros v Hv. unfold _get_retry_on_conflict. now rewrite Hv. }
  split; [|split; [|split]].
  - intros v Hv Hf. rewrite Hkw, (Hset v Hv), Hf.
    eapply es_args_get; [eassumption| discriminate ..].
  - intros v Hv Ht. now apply Hsent; [apply Hset|].
  - intros n Hn Hv. apply Hsent; [now apply Hset|].
    simpl. destruct (Z.eqb_spec n 0); [lia | reflexivity].
  - intros Hnone.
    assert (Hfive : _get_retry_on_conflict cfg = VInt 5).
    { unfold _get_retry_on_conflict. now rewrite Hnone. }
    split; [exact Hfive | now apply Hsent].
Qed.

(** ** The cursor *)

Lemma count_reads_total (env inner : dict) (n : Z) (ds : list value) :
  dict_get env "hits" = Some (VDict inner) ->
  dict_get inner "total" = Some (VInt n) ->
  count (ElasticCursor (VDict env) ds) = Ok n.
Proof.
  intros Henv Htotal. unfold count, ElasticCursor.
  destruct env as [|kv env']; [discriminate|].
  cbn [truthy hits py_get bind]. rewrite Henv. cbn [py_get bind].
  now rewrite Htotal.
Qed.

Lemma parse_hits_keeps_envelope (h : value) (resource : string) (c : cursor) :
  _parse_hits cfg h resource = Ok c ->
  exists ds, c = ElasticCursor h ds.
Proof.
  unfold _parse_hits. intros H.
  do 7 bind_inv H. bind_inv H. injection H as <-. now eexists.
Qed.

(** C6. [count()] is the total the envelope declares, whatever the
    documents of the cursor are: for a cursor made directly and for the
    cursor [_parse_hits] makes from the envelope's hits. *)
Theorem count_is_envelope_total (env inner : dict) (n : Z) :
  dict_get env "hits" = Some (VDict inner) ->
  dict_get inner "total" = Some (VInt n) ->
  (forall ds, count (ElasticCursor (VDict env) ds) = Ok n)
  /\ (forall resource c,
        _parse_hits cfg (VDict env) resource = Ok c -> count c = Ok n).
Proof.
  intros Henv Htotal. split.
  - intros ds. now apply count_reads_total with (inner := inner).
  - intros resource c H. apply parse_hits_keeps_envelope in H.
    destruct H as [ds ->]. now apply count_reads_total with (inner := inner).
Qed.

(** ** [remove] *)

Lemma dict_get_update_other (e d : dict) (k : string) :
  dict_get e k = None -> dict_get (dict_update d e) k = dict_get d k.
Proof.
  unfold dict_update. revert d.
  induction e as [|[k0 v0] e IH]; intros d H; simpl in *; [reflexivity|].
  destruct (String.eqb k k0) eqn:Hk; [discriminate|].
  rewrite IH by assumption.
  apply dict_get_set_neq. apply String.eqb_neq in Hk. congruence.
Qed.

(** The keywords [remove] passes on: [id] and [refresh] come from the
    caller's [kwargs] only. *)
Lemma remove_kwargs_mem (resource : string) (args kw : dict) (parent : value)
    (k : string) :
  _es_args cfg resource VNone VNone = Ok args ->
  k = "id" \/ k = "refresh" ->
  dict_mem (if truthy parent
            then dict_set (dict_update kw args) "parent" parent
            else dict_update kw args) k
  = dict_mem kw k.
Proof.
  intros Hargs Hk. unfold dict_mem.
  assert (Hnone : dict_get args k = None).
  { unfold _es_args in Hargs. bind_inv Hargs. injection Hargs as <-.
    destruct Hk as [-> | ->]; reflexivity. }
  destruct (truthy parent).
  - rewrite dict_get_set_neq by (destruct Hk as [-> | ->]; discriminate).
    now rewrite dict_get_update_other.
  - now rewrite dict_get_update_other.
Qed.

(** C7. For a resource whose index resolves: a [remove] whose delete the
    engine answers with its not-found error returns [None] and does not
    raise; a [remove] whose lookup is empty, or has no usable [_id],
    returns a ValueError as a value and does not raise. *)
Theorem remove_not_found_and_no_id (resource : string) (lookup parent : value)
    (kw args : dict) :
  _es_args cfg resource VNone VNone = Ok args ->
  (forall id es status_code error,
     truthy lookup = true ->
     py_get lookup "_id" VNone = Ok id -> truthy id = true ->
     elastic cfg resource = Ok es ->
     dict_mem kw "id" = false -> dict_mem kw "refresh" = false ->
     (forall call, client call = es -> doc_id call = id ->
        es_delete call = Raise (EsError NotFoundError status_code error)) ->
     remove cfg resource lookup parent kw = Ok (RetValue VNone))
  /\ (truthy lookup = false ->
        remove cfg resource lookup parent kw = Ok (RetException ValueError))
  /\ (forall id, py_get lookup "_id" VNone = Ok id -> truthy id = false ->
        remove cfg resource lookup parent kw = Ok (RetException ValueError)).
Proof.
  intros Hargs. repeat split.
  - intros id es status_code error Hl Hid Ht Hes Hk1 Hk2 Hdel.
    unfold remove. rewrite Hargs. cbn [bind]. rewrite Hl, Hid. cbn [bind].
    rewrite Ht, Hes. cbn [bind].
    rewrite !(remove_kwargs_mem resource args kw parent) by (assumption || auto).
    rewrite Hk1, Hk2. cbn [orb].
    rewrite Hdel by reflexivity. reflexivity.
  - intros Hl. unfold remove. rewrite Hargs. cbn [bind]. now rewrite Hl.
  - intros id Hid Ht. unfold remove. rewrite Hargs. cbn [bind].
    destruct (truthy lookup); [|reflexivity].
    rewrite Hid. cbn [bind]. now rewrite Ht.
Qed.

(** ** The per-call toggles *)

Lemma try_except_returns {A : Type} (m : result A) (default : A) :
  returns (try_except m default).
Proof.
  destruct m as [a|e]; simpl; [now exists a | now exists default].
Qed.

Lemma try_except_raise {A : Type} (m : result A) (default : A) (e : exn) :
  m = Raise e -> try_except m default = Ok default.
Proof. now intros ->. Qed.

(** C10. The three toggles answer every request and raise nothing.
    [should_highlight] answers False to an absent or malformed
    parameter; [should_project] answers with a falsy value (the empty
    arguments themselves, or False) to an absent parameter or malformed
    JSON; [should_aggregate] answers False to an absent or malformed
    parameter when the ELASTICSEARCH_AUTO_AGGREGATIONS setting is falsy,
    and answers with that setting, whatever the arguments, when it is
    truthy. *)
Theorem toggles_total (req : parsed_request) :
  (returns (should_aggregate cfg req) /\ returns (should_highlight req)
   /\ returns (should_project req))
  /\ ((truthy (req_args req) = false ->
         should_highlight req = Ok (VBool false))
      /\ (forall d, req_args req = VDict d -> dict_get d "es_highlight" = None ->
            should_highlight req = Ok (VBool false))
      /\ (forall e, (a <- py_get (req_args req) "es_highlight" (VInt 0) ;; py_int a)
                    = Raise e ->
            should_highlight req = Ok (VBool false)))
  /\ ((truthy (req_args req) = false ->
         should_project req = Ok (req_args req))
      /\ (forall d, req_args req = VDict d -> d <> [] ->
            dict_get d "projections" = None ->
            should_project req = Ok (VBool false))
      /\ (forall e, truthy (req_args req) = true ->
            (a <- py_get (req_args req) "projections" (VList []) ;;
             py_json_loads a) = Raise e ->
            should_project req = Ok (VBool false)))
  /\ (forall auto,
        py_get (VDict (app_config cfg)) "ELASTICSEARCH_AUTO_AGGREGATIONS" VNone
        = Ok auto ->
        (truthy auto = true -> should_aggregate cfg req = Ok auto)
        /\ (truthy auto = false ->
              (truthy (req_args req) = false ->
                 should_aggregate cfg req = Ok (VBool false))
              /\ (forall d, req_args req = VDict d ->
                    dict_get d "aggregations" = None ->
                    should_aggregate cfg req = Ok (VBool false))
              /\ (forall e, (a <- py_get (req_args req) "aggregations" VNone ;;
                             py_int a) = Raise e ->
                    should_aggregate cfg req = Ok (VBool false)))).
Proof.
  split; [|split; [|split]].
  - repeat split; apply try_except_returns.
  - unfold should_highlight. repeat split.
    + now intros ->.
    + intros d -> Hd. destruct d; [reflexivity|].
      cbn [truthy py_get bind]. now rewrite Hd.
    + intros e He. destruct (truthy (req_args req)); [|reflexivity].
      destruct (py_get (req_args req) "es_highlight" (VInt 0)) as [a|]; simpl in *.
      * now rewrite He.
      * reflexivity.
  - unfold should_project. repeat split.
    + now intros ->.
    + intros d -> Hne Hd. destruct d; [congruence|].
      cbn [truthy py_get bind]. now rewrite Hd.
    + intros e -> He. now rewrite He.
  - intros auto Hauto. unfold should_aggregate. rewrite Hauto. cbn [bind].
    split; [now intros ->|]. intros ->. repeat split.
    + now intros ->.
    + intros d -> Hd. destruct d; [reflexivity|].
      cbn [truthy py_get bind]. now rewrite Hd.
    + intros e He. destruct (truthy (req_args req)); [|reflexivity].
      destruct (py_get (req_args req) "aggregations" VNone) as [a|]; simpl in *.
      * now rewrite He.
      * reflexivity.
Qed.

(** ** Dates *)

Lemma parse_dates_step (key : string) (rest : list string) (doc : dict)
    (v d : value) :
  dict_get doc key = Some v -> parse_date v = Ok d ->
  parse_dates (key :: rest) doc = parse_dates rest (dict_set doc key d).
Proof. intros Hk Hd. simpl. now rewrite Hk, Hd. Qed.

(** C5. What [parse_date] does with the value of a datetime field, with
    the parser calls it makes.  A falsy value is None and no parser is
    called.  Otherwise the primary parser is tried on the value; when it
    answers no date the secondary parser is tried on the same value; a
    parser error of either sets None and nothing is raised; a type error
    of either sends the secondary parser, not the primary one, to the
    first element of the value.  [format_doc] stores the outcome in the
    field. *)
Theorem parse_date_fallbacks (v : value) :
  (truthy v = false -> parse_date_traced v = ([], Ok VNone))
  /\ (truthy v = true ->
      (forall t, ciso8601_parse_datetime v = Ok (Some t) ->
         parse_date_traced v = ([Primary v], Ok (VDate t)))
      /\ (forall t, ciso8601_parse_datetime v = Ok None -> arrow_get v = Ok t ->
            parse_date_traced v = ([Primary v; Secondary v], Ok (VDate t)))
      /\ (ciso8601_parse_datetime v = Ok None -> arrow_get v = Raise ParserError ->
            parse_date_traced v = ([Primary v; Secondary v], Ok VNone))
      /\ (ciso8601_parse_datetime v = Raise ParserError ->
            parse_date_traced v = ([Primary v], Ok VNone))
      /\ (forall x t, ciso8601_parse_datetime v = Raise TypeError ->
            py_first v = Ok x -> arrow_get x = Ok t ->
            parse_date_traced v = ([Primary v; Secondary x], Ok (VDate t)))
      /\ (forall x t, ciso8601_parse_datetime v = Ok None ->
            arrow_get v = Raise TypeError ->
            py_first v = Ok x -> arrow_get x = Ok t ->
            parse_date_traced v
            = ([Primary v; Secondary v; Secondary x], Ok (VDate t))))
  /\ (forall key rest doc d, dict_get doc key = Some v -> parse_date v = Ok d ->
        parse_dates (key :: rest) doc = parse_dates rest (dict_set doc key d)).
Proof.
  split; [|split].
  - intros Hv. unfold parse_date_traced. now rewrite Hv.
  - intros Hv. unfold parse_date_traced. rewrite Hv. cbn [negb].
    repeat split.
    + now intros t ->.
    + now intros t -> ->.
    + now intros -> ->.
    + now intros ->.
    + intros x t -> -> ->. reflexivity.
    + intros x t -> -> -> ->. reflexivity.
  - intros key rest doc d. apply parse_dates_step.
Qed.

(** ** Search errors *)

Lemma projections_return (req : parsed_request) :
  returns (project <- should_project req ;;
           if truthy project then get_projected_fields req else Ok VNone).
Proof.
  destruct (try_except_returns
              (if truthy (req_args req)
               then a <- py_get (req_args req) "projections" (VList []) ;;
                    py_json_loads a
               else Ok (req_args req)) (VBool false)) as [pv Hpv].
  unfold should_project. rewrite Hpv. cbn [bind].
  destruct (truthy pv); [apply try_except_returns | now exists VNone].
Qed.

Lemma es_args_return (resource : string) (refresh projections index : value) :
  _resource_index cfg resource = Ok index ->
  returns (_es_args cfg resource refresh projections).
Proof.
  intros H. unfold _es_args. rewrite H. cbn [bind]. now eexists.
Qed.

(** [find] once the search has raised: the handler decides. *)
Lemma find_search_raises (resource : string) (req : parsed_request)
    (sub_resource_lookup : value) (query : dict) (index : value)
    (es : string) (e : exn) :
  find_query cfg resource req sub_resource_lookup = Ok query ->
  _resource_index cfg resource = Ok index ->
  elastic cfg resource = Ok es ->
  (forall args, es_search es (VDict query) args = Raise e) ->
  find cfg resource req sub_resource_lookup
  = (hits <- on_search_error e ;; _parse_hits cfg hits resource).
Proof.
  intros Hq Hi Hes Hsearch. unfold find. rewrite Hq. cbn [bind].
  destruct (projections_return req) as [sp Hsp].
  destruct (should_project req) as [pv|]; [|simpl in Hsp; discriminate].
  cbn [bind] in *. rewrite Hsp. cbn [bind].
  destruct (es_args_return resource VNone sp index Hi) as [args Hargs].
  rewrite Hargs. cbn [bind]. rewrite Hes. cbn [bind].
  now rewrite Hsearch.
Qed.

Lemma parse_no_hits (resource : string) :
  returns (_parse_hits cfg (VDict []) resource) ->
  _parse_hits cfg (VDict []) resource = Ok (ElasticCursor VNone []).
Proof.
  intros [c H]. rewrite H. unfold _parse_hits in H. do 4 bind_inv H.
  cbn in H. injection H as <-. reflexivity.
Qed.

(** C4. When the search of [find] raises: a request error of status
    400 whose text has "No mapping found for" gives the empty cursor
    (for a resource whose empty response normalises); a request error
    of status 400 whose text has "SearchParseException", and not the
    missing-mapping text, raises InvalidSearchString; any other error is
    raised again as it is. *)
Theorem find_search_errors (resource : string) (req : parsed_request)
    (sub_resource_lookup : value) (query : dict) (index : value)
    (es : string) (e : exn) :
  find_query cfg resource req sub_resource_lookup = Ok query ->
  _resource_index cfg resource = Ok index ->
  elastic cfg resource = Ok es ->
  (forall args, es_search es (VDict query) args = Raise e) ->
  (forall error, e = EsError RequestError 400 error ->
     str_contains "No mapping found for" error = true ->
     returns (_parse_hits cfg (VDict []) resource) ->
     find cfg resource req sub_resource_lookup = Ok (ElasticCursor VNone [])
     /\ count (ElasticCursor VNone []) = Ok 0%Z)
  /\ (forall error, e = EsError RequestError 400 error ->
        str_contains "No mapping found for" error = false ->
        str_contains "SearchParseException" error = true ->
        find cfg resource req sub_resource_lookup = Raise InvalidSearchString)
  /\ ((forall error, e = EsError RequestError 400 error ->
         str_contains "No mapping found for" error = false
         /\ str_contains "SearchParseException" error = false) ->
      find cfg resource req sub_resource_lookup = Raise e).
Proof.
  intros Hq Hi Hes Hsearch.
  rewrite (find_search_raises resource req sub_resource_lookup query index es e)
    by assumption.
  split; [|split].
  - intros error -> Hnm Hret. unfold on_search_error.
    cbn [es_isinstance Z.eqb Pos.eqb andb]. rewrite Hnm. cbn [bind].
    split; [now apply parse_no_hits | reflexivity].
  - intros error -> Hnm Hspe. unfold on_search_error.
    cbn [es_isinstance Z.eqb Pos.eqb andb]. now rewrite Hnm, Hspe.
  - intros Hother. unfold on_search_error.
    destruct e as [| | | | | | | | | |c status_code error]; try reflexivity.
    destruct c; try reflexivity. cbn [es_isinstance].
    destruct (Z.eqb_spec status_code 400) as [-> | Hne]; [|reflexivity].
    destruct (Hother error eq_refl) as [-> ->]. reflexivity.
Qed.

(** ** Index resolution *)

(** C3. The index of a resource: the entry of its source resource in
    the override table of its cluster prefix when there is one, else
    the resource's own name behind the index prefix, also when the
    resource declares a source. *)
Theorem resource_index_resolution (resource : string) (sc : source_config)
    (px p : string) :
  get_datasource cfg resource = Ok sc ->
  _resource_prefix cfg resource = Ok px ->
  index_prefix_setting cfg = Ok (VStr p) ->
  str_truthy resource = true ->
  (forall t i,
     dict_get (app_config cfg) (px ++ "_INDEXES")%string = Some (VDict t) ->
     dict_get t (datasource_source resource sc) = Some i ->
     _resource_index cfg resource = Ok i)
  /\ (forall t,
        dict_get (app_config cfg) (px ++ "_INDEXES")%string = Some (VDict t) ->
        dict_get t (datasource_source resource sc) = None ->
        _resource_index cfg resource = Ok (VStr (p ++ resource)))
  /\ (dict_get (app_config cfg) (px ++ "_INDEXES")%string = None ->
        _resource_index cfg resource = Ok (VStr (p ++ resource))).
Proof.
  intros Hds Hpx Hp Hres.
  assert (Hdefault : _get_index_prefix cfg resource = Ok (p ++ resource)%string).
  { unfold _get_index_prefix. rewrite Hres, Hp. cbn [bind truthy].
    destruct p; reflexivity. }
  unfold _resource_index, _resource_config.
  rewrite Hds, Hpx, Hdefault. cbn [bind py_get].
  change ("_" ++ "INDEXES")%string with "_INDEXES".
  split; [|split].
  - intros t i -> Hi. destruct t; [discriminate|].
    cbn [truthy py_get]. now rewrite Hi.
  - intros t -> Hi. destruct t; [reflexivity|].
    cbn [truthy py_get]. now rewrite Hi.
  - now intros ->.
Qed.

(** ** The boolean container *)

Lemma source_override_shell (source : value) (query : dict) (source_filter : value) :
  source_override source = Ok (query, source_filter) ->
  dict_get query "query" = Some bool_shell.
Proof.
  unfold source_override. intros H.
  bind_inv_as H raw Hraw. bind_inv_as H inner Hinner.
  bind_inv_as H has_filter Hhas.
  destruct raw as [| | | | | |q]; try discriminate.
  destruct has_filter.
  - bind_inv_as H sf Hsf. injection H as <- <-. apply dict_get_set_eq.
  - injection H as <- <-. reflexivity.
Qed.

(** Where [find] stands when it calls [set_filters]: the query holds
    the empty boolean shell, and the filter list is the resource's
    static filter, what its callback gave, the filter of the [source]
    override and the where clause, in this order. *)
Lemma find_filters_inv (resource : string) (req : parsed_request)
    (sub_resource_lookup : value) (query : dict) (must filters : list value) :
  find_filters cfg resource req sub_resource_lookup = Ok (query, must, filters) ->
  dict_get query "query" = Some bool_shell
  /\ exists sc source_filter wf,
       lookup (SOURCES cfg) resource = Ok sc
       /\ filters = [entry sc "elastic_filter"; callback_filter sc; source_filter] ++ wf.
Proof.
  unfold find_filters. intros H.
  bind_inv_as H sc Hsc. bind_inv_as H source Hsource.
  bind_inv_as H start Hstart. destruct start as [query0 source_filter].
  bind_inv_as H q Hq. bind_inv_as H must0 Hmust.
  bind_inv_as H sorted Hsorted.
  bind_inv_as H lookup_filter Hlookup. bind_inv_as H has_filter Hhas.
  bind_inv_as H arg_filter Harg. bind_inv_as H has_filters Hhass.
  bind_inv_as H arg_filters Hargs. bind_inv_as H wf Hwf.
  injection H as <- <- <-.
  assert (H0 : dict_get query0 "query" = Some bool_shell).
  { destruct (truthy source).
    - eapply source_override_shell; eassumption.
    - injection Hstart as <- <-. reflexivity. }
  assert (H1 : dict_get sorted "query" = Some bool_shell).
  { destruct (dict_mem query0 "sort").
    - injection Hsorted as <-. assumption.
    - destruct (req_sort req) as [s|].
      + destruct (str_truthy s).
        * bind_inv_as Hsorted sort Hsort. injection Hsorted as <-.
          unfold set_sort. now rewrite dict_get_set_neq by discriminate.
        * injection Hsorted as <-.
          destruct (ds_default_sort sc); [assumption|].
          unfold set_sort. now rewrite dict_get_set_neq by discriminate.
      + injection Hsorted as <-.
        destruct (ds_default_sort sc); [assumption|].
        unfold set_sort. now rewrite dict_get_set_neq by discriminate. }
  split.
  - repeat match goal with
           | |- context [if ?b then _ else _] => destruct b
           end;
      repeat (rewrite dict_get_setdefault_neq by discriminate); assumption.
  - exists sc, source_filter, wf. now split.
Qed.

(** [set_filters] on a query that holds the empty shell. *)
Lemma set_filters_shell (query : dict) (must base : list value) :
  dict_get query "query" = Some bool_shell ->
  set_filters query must (Some base)
  = Ok (dict_set query "query" (VDict [("bool", VDict (bool_clauses must base))])).
Proof.
  intros H. unfold set_filters, bool_clauses. cbn [bind py_getitem].
  rewrite H. unfold bool_shell. cbn.
  destruct (drop_none must), (drop_none base); reflexivity.
Qed.

(** [set_filters] on a query without a boolean container. *)
Lemma set_filters_no_bool (q : dict) (must base : list value) :
  dict_mem q "bool" = false ->
  exists q',
    set_filters [("query", VDict q)] must (Some base) = Ok [("query", VDict q')]
    /\ (forall f, dict_get q "filter" = Some f -> truthy f = true ->
          exists b, dict_get q' "bool" = Some (VDict b)
                    /\ dict_get b "filter" = Some f)
    /\ (dict_get q "filter" = None ->
          (dict_mem q' "bool" = true
           <-> drop_none must <> [] \/ drop_none base <> [])).
Proof.
  intros Hbool. unfold set_filters. cbn [bind py_getitem py_get dict_get String.eqb Ascii.eqb Bool.eqb].
  rewrite Hbool. cbn [negb andb].
  set (filters := match match dict_get q "filter" with
                        | Some x => x
                        | None => VNone
                        end with
                  | VNone => VList (drop_none base)
                  | _ => match dict_get q "filter" with
                         | Some x => x
                         | None => VNone
                         end
                  end).
  assert (Hset : forall d k v b,
             dict_get d "bool" = Some (VDict b) ->
             set_in_bool d k v = Ok (dict_set d "bool" (VDict (dict_set b k v)))).
  { intros d k v b Hd. unfold set_in_bool. now rewrite Hd. }
  destruct (drop_none must) as [|m ms] eqn:Hm.
  - cbn [truthy orb bind].
    destruct (truthy filters) eqn:Hf.
    + rewrite (Hset _ _ _ []) by apply dict_get_set_eq.
      cbn [bind dict_set String.eqb Ascii.eqb Bool.eqb].
      eexists. split; [reflexivity|]. split.
      * intros f Hqf Htf. eexists. split; [apply dict_get_set_eq|].
        subst filters. rewrite Hqf. simpl.
        destruct f; try reflexivity. discriminate.
      * intros Hnone. unfold dict_mem. rewrite dict_get_set_eq.
        split; [|reflexivity]. intros _. right.
        subst filters. rewrite Hnone in Hf. simpl in Hf.
        destruct (drop_none base); [discriminate|discriminate].
    + cbn [bind dict_set String.eqb Ascii.eqb Bool.eqb].
      eexists. split; [reflexivity|]. split.
      * intros f Hqf Htf. subst filters. rewrite Hqf in Hf.
        destruct f; simpl in Hf; try congruence; simpl in Htf; congruence.
      * intros Hnone. rewrite Hbool. split; [discriminate|].
        intros [Hc|Hc]; [congruence|].
        subst filters. rewrite Hnone in Hf. simpl in Hf.
        destruct (drop_none base); [congruence|discriminate].
  - cbn [truthy orb bind].
    rewrite (Hset _ _ _ []) by apply dict_get_set_eq.
    cbn [bind].
    destruct (truthy filters) eqn:Hf.
    + rewrite (Hset _ _ _ [("must", VList (m :: ms))]) by apply dict_get_set_eq.
      cbn [bind dict_set String.eqb Ascii.eqb Bool.eqb].
      eexists. split; [reflexivity|]. split.
      * intros f Hqf Htf. eexists. split; [apply dict_get_set_eq|].
        subst filters. rewrite Hqf. simpl.
        destruct f; try reflexivity. discriminate.
      * intros _. unfold dict_mem. rewrite dict_get_set_eq.
        split; [|reflexivity]. intros _. left. discriminate.
    + cbn [bind dict_set String.eqb Ascii.eqb Bool.eqb].
      eexists. split; [reflexivity|]. split.
      * intros f Hqf Htf. subst filters. rewrite Hqf in Hf.
        destruct f; simpl in Hf; try congruence; simpl in Htf; congruence.
      * intros _. unfold dict_mem. rewrite dict_get_set_eq.
        split; [|reflexivity]. intros _. left. discriminate.
Qed.

Lemma source_override_takes_filter (source : value) (q inner : dict) (f : value) :
  py_json_loads source = Ok (VDict q) ->
  dict_get q "query" = Some (VDict inner) ->
  dict_get inner "filter" = Some f ->
  source_override source = Ok (dict_set q "query" bool_shell, f).
Proof.
  intros Hload Hq Hf. unfold source_override. rewrite Hload.
  cbn [bind py_get]. rewrite Hq. cbn [py_in bind]. unfold dict_mem.
  rewrite Hf. destruct inner as [|kv inner']; [discriminate|].
  cbn [truthy py_getitem]. rewrite Hf. reflexivity.
Qed.

Lemma find_query_inv (resource : string) (req : parsed_request)
    (sub_resource_lookup : value) (query0 query : dict)
    (must filters : list value) :
  find_filters cfg resource req sub_resource_lookup = Ok (query0, must, filters) ->
  find_query cfg resource req sub_resource_lookup = Ok query ->
  dict_get query "query"
  = Some (VDict [("bool", VDict (bool_clauses must filters))]).
Proof.
  intros Hff H. unfold find_query in H. rewrite Hff in H. cbn [bind] in H.
  apply find_filters_inv in Hff. destruct Hff as [Hshell _].
  bind_inv_as H sc Hsc.
  rewrite (set_filters_shell query0 must filters Hshell) in H. cbn [bind] in H.
  bind_inv_as H aggregate Hagg.
  assert (Hkeep : forall d,
            dict_get d "query"
            = Some (VDict [("bool", VDict (bool_clauses must filters))]) ->
            dict_get (if truthy aggregate
                      then dict_set d "aggs" (entry sc "aggregations") else d)
                     "query"
            = Some (VDict [("bool", VDict (bool_clauses must filters))])).
  { intros d Hd. destruct (truthy aggregate); [|assumption].
    now rewrite dict_get_set_neq by discriminate. }
  assert (Hfacets :
            dict_get (if dict_mem (ds_entries sc) "facets"
                      then dict_set (dict_set query0 "query"
                                       (VDict [("bool", VDict (bool_clauses must filters))]))
                             "facets" (entry sc "facets")
                      else dict_set query0 "query"
                             (VDict [("bool", VDict (bool_clauses must filters))]))
                     "query"
            = Some (VDict [("bool", VDict (bool_clauses must filters))])).
  { destruct (dict_mem (ds_entries sc) "facets").
    - rewrite dict_get_set_neq by discriminate. apply dict_get_set_eq.
    - apply dict_get_set_eq. }
  apply Hkeep in Hfacets.
  destruct (es_highlight sc) as [builder|].
  - bind_inv_as H highlight Hhl. destruct (truthy highlight).
    + bind_inv_as H query_string Hqs.
      destruct (truthy (builder query_string)).
      * destruct (builder query_string); try discriminate.
        injection H as <-. now rewrite dict_get_set_neq by discriminate.
      * injection H as <-. assumption.
    + injection H as <-. assumption.
  - injection H as <-. assumption.
Qed.

Lemma bool_clauses_keys (must filters : list value) :
  (dict_mem (bool_clauses must filters) "must" = true <-> drop_none must <> [])
  /\ (dict_mem (bool_clauses must filters) "filter" = true
      <-> drop_none filters <> []).
Proof.
  unfold bool_clauses, dict_mem.
  destruct (drop_none must), (drop_none filters); simpl;
    split; split; intros; congruence.
Qed.

(** C1. The query [find] assembles always has the boolean container:
    [find] starts from the empty shell, and [set_filters] gives it a
    [must] key exactly when a must clause is left after the [None]
    entries are dropped, and a [filter] key exactly when a filter
    clause is left.  The filter list of [find] is the resource's static
    filter, the callback's filter and the filter taken out of the
    [source] override, together.  [set_filters] itself, on a query
    without the container, creates it exactly when a clause is left,
    and lets a [filter] key of that query stand in for the base
    filters. *)
Theorem find_query_bool_container (resource : string) (req : parsed_request)
    (sub_resource_lookup : value) (query0 : dict) (must filters : list value) :
  find_filters cfg resource req sub_resource_lookup = Ok (query0, must, filters) ->
  (forall query, find_query cfg resource req sub_resource_lookup = Ok query ->
     dict_get query "query"
     = Some (VDict [("bool", VDict (bool_clauses must filters))]))
  /\ (dict_mem (bool_clauses must filters) "must" = true <-> drop_none must <> [])
  /\ (dict_mem (bool_clauses must filters) "filter" = true
      <-> drop_none filters <> [])
  /\ (exists sc source_filter wf,
        lookup (SOURCES cfg) resource = Ok sc
        /\ filters = [entry sc "elastic_filter"; callback_filter sc; source_filter] ++ wf
        /\ forall source q inner f,
             py_get (if truthy (req_args req) then req_args req else VDict [])
               "source" VNone = Ok source ->
             truthy source = true ->
             py_json_loads source = Ok (VDict q) ->
             dict_get q "query" = Some (VDict inner) ->
             dict_get inner "filter" = Some f ->
             source_filter = f)
  /\ (forall q m b, dict_mem q "bool" = false ->
        exists q',
          set_filters [("query", VDict q)] m (Some b) = Ok [("query", VDict q')]
          /\ (forall f, dict_get q "filter" = Some f -> truthy f = true ->
                exists bc, dict_get q' "bool" = Some (VDict bc)
                           /\ dict_get bc "filter" = Some f)
          /\ (dict_get q "filter" = None ->
                (dict_mem q' "bool" = true
                 <-> drop_none m <> [] \/ drop_none b <> []))).
Proof.
  intros Hff.
  split; [|split; [|split; [|split]]].
  - intros query Hq. eapply find_query_inv; eassumption.
  - apply bool_clauses_keys.
  - apply bool_clauses_keys.
  - unfold find_filters in Hff.
    bind_inv_as Hff sc Hsc. bind_inv_as Hff source Hsource.
    bind_inv_as Hff start Hstart. destruct start as [query1 source_filter].
    bind_inv_as Hff q Hq. bind_inv_as Hff must0 Hmust.
    bind_inv_as Hff sorted Hsorted.
    bind_inv_as Hff lookup_filter Hlookup. bind_inv_as Hff has_filter Hhas.
    bind_inv_as Hff arg_filter Harg. bind_inv_as Hff has_filters Hhass.
    bind_inv_as Hff arg_filters Hargs. bind_inv_as Hff wf Hwf.
    injection Hff as _ _ <-.
    exists sc, source_filter, wf. split; [assumption|]. split; [reflexivity|].
    intros source' q' inner f Hs' Ht Hload Hq' Hf.
    rewrite Hsource in Hs'. injection Hs' as <-. rewrite Ht in Hstart.
    rewrite (source_override_takes_filter source q' inner f Hload Hq' Hf) in Hstart.
    now injection Hstart as _ <-.
  - intros q m b Hq. now apply set_filters_no_bool.
Qed.

(** ** The free-text clause *)

Lemma build_query_string_phrase (s : string) (default_field default_operator : value) :
  _is_phrase_search s = true ->
  _build_query_string (VStr s) default_field default_operator
  = Ok (VDict [("match_phrase", VDict [("all", VStr (_get_phrase s))])]).
Proof. intros H. unfold _build_query_string. now rewrite H. Qed.

Lemma build_query_string_plain (s : string) (default_field default_operator : value) :
  _is_phrase_search s = false ->
  _build_query_string (VStr s) default_field default_operator
  = Ok (VDict [("query_string",
                VDict [("query", VStr s); ("default_operator", default_operator)])]).
Proof. intros H. unfold _build_query_string. now rewrite H. Qed.

(** The default field does not reach the clause. *)
Lemma build_query_string_ignores_default_field (q df df' op : value) :
  _build_query_string q df op = _build_query_string q df' op.
Proof. reflexivity. Qed.

(** The clause of a free-text term heads the must list of [find]. *)
Lemma find_filters_must_head (resource : string) (req : parsed_request)
    (sub_resource_lookup : value) (args : dict) (q : value)
    (query : dict) (must filters : list value) :
  req_args req = VDict args ->
  dict_get args "q" = Some q -> truthy q = true ->
  find_filters cfg resource req sub_resource_lookup = Ok (query, must, filters) ->
  exists clause rest,
    _build_query_string q
      (match dict_get args "df" with Some v => v | None => VStr "all" end)
      (match dict_get args "default_operator" with
       | Some v => v
       | None => VStr "OR"
       end) = Ok clause
    /\ must = clause :: rest.
Proof.
  intros Hargs Hq Ht H. unfold find_filters in H. rewrite Hargs in H.
  destruct args as [|kv args']; [discriminate|].
  cbn [truthy] in H.
  bind_inv_as H sc Hsc. bind_inv_as H source Hsource.
  bind_inv_as H start Hstart. destruct start as [query0 source_filter].
  bind_inv_as H q' Hq'. cbn [py_get] in Hq'. rewrite Hq in Hq'.
  injection Hq' as <-. rewrite Ht in H.
  bind_inv_as H must0 Hmust.
  bind_inv_as Hmust df Hdf. bind_inv_as Hmust op Hop.
  bind_inv_as Hmust clause Hclause. injection Hmust as <-.
  cbn [py_get] in Hdf, Hop. injection Hdf as <-. injection Hop as <-.
  bind_inv_as H sorted Hsorted.
  bind_inv_as H lookup_filter Hlookup. bind_inv_as H has_filter Hhas.
  bind_inv_as H arg_filter Harg. bind_inv_as H has_filters Hhass.
  bind_inv_as H arg_filters Hargfs. bind_inv_as H wf Hwf.
  injection H as _ <- _.
  exists clause. eexists. split; [exact Hclause|reflexivity].
Qed.

End Properties.

(** * The layer on the sample application *)

(** C1, refuted as stated.  With no free-text term, no filter and no
    lookup the query still has its [bool] key, empty; and the filter of
    a [source] override joins the resource's own filter in the filter
    list instead of taking its place. *)
Lemma find_empty_bool_and_merged_source_filter :
  find_query (E := quiet_externals) sample_cfg "archived_items" plain_request VNone
  = Ok [("query", VDict [("bool", VDict [])])]
  /\ exists rest,
       find_query (E := source_externals) sample_cfg "items_with_description"
         (request_with [("source", VStr sample_source)]) VNone
       = Ok (("query",
              VDict [("bool",
                      VDict [("filter",
                              VList [description_filter; VList [uri_foo_term]])])])
             :: rest).
Proof.
  split; [reflexivity|]. eexists. reflexivity.
Qed.

Lemma find_query_bool_container_witness :
  exists query,
    find_query (E := source_externals) sample_cfg "items_with_description"
      (request_with [("source", VStr sample_source)]) VNone = Ok query
    /\ dict_get query "query"
       = Some (VDict [("bool",
                       VDict [("filter",
                               VList [description_filter; VList [uri_foo_term]])])]).
Proof.
  eexists. split; [reflexivity|].
  destruct (find_query_bool_container (E := source_externals) sample_cfg
              "items_with_description"
              (request_with [("source", VStr sample_source)]) VNone
              _ _ _ eq_refl) as [H _].
  exact (H _ eq_refl).
Defined.

(** C2, at the failing input.  A request with [q=foo] and [df=name]:
    the clause in the must list is a [query_string] with the query and
    the operator, and no default field. *)
Theorem find_query_string_without_default_field :
  find_query (E := quiet_externals) sample_cfg "archived_items"
    (request_with [("q", VStr "foo"); ("df", VStr "name")]) VNone
  = Ok [("query",
         VDict [("bool",
                 VDict [("must",
                         VList [VDict [("query_string",
                                        VDict [("query", VStr "foo");
                                               ("default_operator", VStr "OR")])]])])])].
Proof. reflexivity. Qed.

(** C3, refuted as stated.  [items_foo_default_index] declares the
    source [items_foo] and has no override: its index is its own name,
    not the index of [items_foo]. *)
Lemma sourced_resource_resolves_to_own_name :
  (exists sc, get_datasource sample_cfg "items_foo_default_index" = Ok sc
              /\ ds_source sc = Some "items_foo")
  /\ _resource_index sample_cfg "items_foo_default_index"
     = Ok (VStr "items_foo_default_index")
  /\ _resource_index sample_cfg "items_foo" = Ok (VStr "items_foo")
  /\ _resource_index sample_cfg "items_foo_default_index"
     <> _resource_index sample_cfg "items_foo".
Proof.
  split; [eexists; split; reflexivity|].
  split; [reflexivity|]. split; [reflexivity|]. discriminate.
Qed.

Lemma resource_index_resolution_witness :
  _resource_index (sample_app prefixed_settings) "published_items"
  = Ok (VStr "items_v2")
  /\ _resource_index (sample_app prefixed_settings) "archived_items"
     = Ok (VStr "test_archived_items")
  /\ _resource_index sample_cfg "items_foo_default_index"
     = Ok (VStr "items_foo_default_index").
Proof.
  split; [|split].
  - destruct (resource_index_resolution (sample_app prefixed_settings)
                "published_items" (plain_source (Some "items") [] [])
                "ELASTICSEARCH" "test_" eq_refl eq_refl eq_refl eq_refl)
      as [H _].
    exact (H [("items", VStr "items_v2")] (VStr "items_v2") eq_refl eq_refl).
  - destruct (resource_index_resolution (sample_app prefixed_settings)
                "archived_items" (plain_source None [] [])
                "ELASTICSEARCH" "test_" eq_refl eq_refl eq_refl eq_refl)
      as (_ & H & _).
    exact (H [("items", VStr "items_v2")] eq_refl eq_refl).
  - destruct (resource_index_resolution sample_cfg
                "items_foo_default_index" (plain_source (Some "items_foo") [] [])
                "ELASTICSEARCH" "" eq_refl eq_refl eq_refl eq_refl)
      as (_ & H & _).
    exact (H [] eq_refl eq_refl).
Defined.

(** C4, refuted as stated.  The text of the error for a sort on an
    unmapped field names SearchParseException too: [find] answers it
    with the empty cursor, not with InvalidSearchString. *)
Lemma missing_mapping_wins_over_parse_failure :
  str_contains "SearchParseException" missing_mapping_error = true
  /\ find (E := failing_search 400 missing_mapping_error) sample_cfg "items"
       plain_request VNone
     = Ok (ElasticCursor VNone [])
  /\ find (E := failing_search 400 missing_mapping_error) sample_cfg "items"
       plain_request VNone
     <> Raise InvalidSearchString.
Proof. split; [reflexivity|]. split; [reflexivity|]. discriminate. Qed.

Lemma find_search_errors_witness :
  find (E := failing_search 400 missing_mapping_error) sample_cfg "items"
    plain_request VNone = Ok (ElasticCursor VNone [])
  /\ find (E := failing_search 400 parse_failure_error) sample_cfg "items"
       plain_request VNone = Raise InvalidSearchString
  /\ find (E := failing_search 500 parse_failure_error) sample_cfg "items"
       plain_request VNone
     = Raise (EsError RequestError 500 parse_failure_error).
Proof.
  split; [|split].
  - destruct (find_search_errors (E := failing_search 400 missing_mapping_error)
                sample_cfg "items" plain_request VNone _ _ _ _
                eq_refl eq_refl eq_refl (fun _ => eq_refl)) as [H _].
    apply (H missing_mapping_error eq_refl eq_refl).
    eexists. reflexivity.
  - destruct (find_search_errors (E := failing_search 400 parse_failure_error)
                sample_cfg "items" plain_request VNone _ _ _ _
                eq_refl eq_refl eq_refl (fun _ => eq_refl)) as (_ & H & _).
    exact (H parse_failure_error eq_refl eq_refl eq_refl).
  - destruct (find_search_errors (E := failing_search 500 parse_failure_error)
                sample_cfg "items" plain_request VNone _ _ _ _
                eq_refl eq_refl eq_refl (fun _ => eq_refl)) as (_ & _ & H).
    apply H. intros error Heq. discriminate Heq.
Defined.

(** C5, refuted as stated.  For a list that holds no date the primary
    parser is called on the list only, the secondary one on the first
    element, and its ParserError is raised, through [_parse_hits] too;
    for a string that neither parser takes, no first element is
    tried. *)
Lemma parse_date_raises_on_garbled_list :
  parse_date_traced (E := quiet_externals) (VList [VStr "garbage"])
  = ([Primary (VList [VStr "garbage"]); Secondary (VStr "garbage")],
     Raise ParserError)
  /\ _parse_hits (E := quiet_externals) sample_cfg garbled_envelope "items"
     = Raise ParserError
  /\ parse_date_traced (E := quiet_externals) (VStr "garbage")
     = ([Primary (VStr "garbage"); Secondary (VStr "garbage")], Ok VNone).
Proof. repeat split. Qed.

Lemma parse_date_fallbacks_witness :
  parse_date_traced (E := quiet_externals) (VStr "garbage")
  = ([Primary (VStr "garbage"); Secondary (VStr "garbage")], Ok VNone)
  /\ parse_date_traced (E := quiet_externals) (VList [VStr sample_iso])
     = ([Primary (VList [VStr sample_iso]); Secondary (VStr sample_iso)],
        Ok (VDate sample_timestamp))
  /\ parse_date_traced (E := quiet_externals) (VStr "") = ([], Ok VNone).
Proof.
  split; [|split].
  - destruct (parse_date_fallbacks (E := quiet_externals) (VStr "garbage"))
      as (_ & H & _).
    destruct (H eq_refl) as (_ & _ & H3 & _).
    exact (H3 eq_refl eq_refl).
  - destruct (parse_date_fallbacks (E := quiet_externals) (VList [VStr sample_iso]))
      as (_ & H & _).
    destruct (H eq_refl) as (_ & _ & _ & _ & H5 & _).
    exact (H5 (VStr sample_iso) sample_timestamp eq_refl eq_refl eq_refl).
  - destruct (parse_date_fallbacks (E := quiet_externals) (VStr "")) as [H _].
    exact (H eq_refl).
Defined.

Lemma count_is_envelope_total_witness :
  exists c,
    _parse_hits (E := quiet_externals) sample_cfg (VDict sample_envelope) "items"
    = Ok c
    /\ length (docs c) = 1%nat /\ count c = Ok 3%Z.
Proof.
  eexists. split; [reflexivity|]. split; [reflexivity|].
  destruct (count_is_envelope_total (E := quiet_externals) sample_cfg
              sample_envelope
              [("total", VInt 3); ("hits", VList [sample_hit])] 3
              eq_refl eq_refl) as [_ H].
  exact (H "items" _ eq_refl).
Defined.

Lemma remove_not_found_and_no_id_witness :
  remove (E := not_found_delete) sample_cfg "items"
    (VDict [("_id", VStr "notfound")]) VNone [] = Ok (RetValue VNone)
  /\ remove (E := not_found_delete) sample_cfg "items" VNone VNone []
     = Ok (RetException ValueError)
  /\ remove (E := not_found_delete) sample_cfg "items"
       (VDict [("uri", VStr "foo")]) VNone []
     = Ok (RetException ValueError).
Proof.
  split; [|split].
  - destruct (remove_not_found_and_no_id (E := not_found_delete) sample_cfg
                "items" (VDict [("_id", VStr "notfound")]) VNone [] _ eq_refl)
      as [H _].
    exact (H (VStr "notfound") "ELASTICSEARCH" 404%Z "not_found"
             eq_refl eq_refl eq_refl eq_refl eq_refl eq_refl
             (fun _ _ _ => eq_refl)).
  - destruct (remove_not_found_and_no_id (E := not_found_delete) sample_cfg
                "items" VNone VNone [] _ eq_refl) as (_ & H & _).
    exact (H eq_refl).
  - destruct (remove_not_found_and_no_id (E := not_found_delete) sample_cfg
                "items" (VDict [("uri", VStr "foo")]) VNone [] _ eq_refl)
      as (_ & _ & H).
    exact (H VNone eq_refl eq_refl).
Defined.

Lemma update_replace_strip_id_type_witness :
  exists call doc,
    update_call sample_cfg "items" (VStr "foo") sample_payload = Ok call
    /\ body call = VDict [("doc", VDict doc)]
    /\ dict_get doc "_id" = None /\ dict_get doc "_type" = None
    /\ dict_get doc "uri" = Some (VStr "bar").
Proof.
  destruct (update_replace_strip_id_type sample_cfg "items" (VStr "foo")
              sample_payload) as [H _].
  destruct (H _ eq_refl) as (doc & Hb & Hi & Ht & Hk).
  eexists. exists doc. split; [reflexivity|].
  split; [exact Hb|]. split; [exact Hi|]. split; [exact Ht|].
  rewrite Hk by discriminate. reflexivity.
Defined.

Lemma update_retry_on_conflict_witness :
  (exists call,
     update_call sample_cfg "items" (VStr "foo") sample_payload = Ok call
     /\ dict_get (kwargs call) "retry_on_conflict" = Some (VInt 5))
  /\ (exists call,
        update_call (retry_cfg (VInt 1)) "items" (VStr "foo") sample_payload
        = Ok call
        /\ dict_get (kwargs call) "retry_on_conflict" = Some (VInt 1))
  /\ (exists call,
        update_call (retry_cfg (VInt 0)) "items" (VStr "foo") sample_payload
        = Ok call
        /\ dict_get (kwargs call) "retry_on_conflict" = None)
  /\ (exists call,
        update_call (retry_cfg VNone) "items" (VStr "foo") sample_payload
        = Ok call
        /\ dict_get (kwargs call) "retry_on_conflict" = None).
Proof.
  split; [|split; [|split]]; eexists; (split; [reflexivity|]).
  - destruct (update_retry_on_conflict sample_cfg "items" (VStr "foo")
                sample_payload _ eq_refl) as (_ & _ & _ & H).
    exact (proj2 (H eq_refl)).
  - destruct (update_retry_on_conflict (retry_cfg (VInt 1)) "items" (VStr "foo")
                sample_payload _ eq_refl) as (_ & _ & H & _).
    exact (H 1%Z eq_refl eq_refl).
  - destruct (update_retry_on_conflict (retry_cfg (VInt 0)) "items" (VStr "foo")
                sample_payload _ eq_refl) as (H & _).
    exact (H (VInt 0) eq_refl eq_refl).
  - destruct (update_retry_on_conflict (retry_cfg VNone) "items" (VStr "foo")
                sample_payload _ eq_refl) as (H & _).
    exact (H VNone eq_refl eq_refl).
Defined.

(** C10, refuted as stated.  With the automatic aggregations switched
    on, as [init_app] leaves them, [should_aggregate] answers True to a
    request without the parameter and to one whose parameter is not a
    number. *)
Lemma should_aggregate_true_without_parameter :
  should_aggregate sample_cfg plain_request = Ok (VBool true)
  /\ should_aggregate sample_cfg (request_with [("aggregations", VStr "abc")])
     = Ok (VBool true).
Proof. split; reflexivity. Qed.

Lemma toggles_total_witness :
  should_highlight (request_with [("es_highlight", VStr "abc")]) = Ok (VBool false)
  /\ should_project (E := quiet_externals) (request_with [("projections", VStr "[")])
     = Ok (VBool false)
  /\ should_aggregate (sample_app prefixed_settings)
       (request_with [("aggregations", VStr "abc")]) = Ok (VBool false).
Proof.
  split; [|split].
  - destruct (toggles_total (E := quiet_externals) sample_cfg
                (request_with [("es_highlight", VStr "abc")]))
      as (_ & (_ & _ & H) & _).
    exact (H ValueError eq_refl).
  - destruct (toggles_total (E := quiet_externals) sample_cfg
                (request_with [("projections", VStr "[")]))
      as (_ & _ & (_ & _ & H) & _).
    exact (H ValueError eq_refl eq_refl).
  - destruct (toggles_total (E := quiet_externals) (sample_app prefixed_settings)
                (request_with [("aggregations", VStr "abc")]))
      as (_ & _ & _ & H).
    destruct (H VNone eq_refl) as [_ H2].
    destruct (H2 eq_refl) as (_ & _ & H3).
    exact (H3 ValueError eq_refl).
Defined.

(** * More properties *)

(** ** Strings *)

Lemma lstrip_with_head (p : ascii -> bool) (s : string) :
  match lstrip_with p s with
  | EmptyString => True
  | String c _ => p c = false
  end.
Proof.
  induction s as [|a s IH]; simpl; [exact I|].
  destruct (p a) eqn:Hp; [exact IH | exact Hp].
Qed.

Lemma rstrip_with_head (p : ascii -> bool) (c : ascii) (s : string) :
  p c = false -> exists r, rstrip_with p (String c s) = String c r.
Proof.
  intros Hp. simpl. destruct (rstrip_with p s) as [|c' r].
  - rewrite Hp. now eexists.
  - now eexists.
Qed.

Lemma rstrip_char_last (ch : ascii) (s : string) :
  endswith_char ch (rstrip_with (Ascii.eqb ch) s) = false.
Proof.
  induction s as [|c s IH]; [reflexivity|].
  simpl. destruct (rstrip_with (Ascii.eqb ch) s) as [|c' r] eqn:Hr.
  - destruct (Ascii.eqb ch c) eqn:Hc; [reflexivity|].
    simpl. now rewrite Ascii.eqb_sym.
  - exact IH.
Qed.

Lemma strip_char_no_outer (ch : ascii) (s : string) :
  startswith_char ch (strip_char ch s) = false
  /\ endswith_char ch (strip_char ch s) = false.
Proof.
  unfold strip_char, strip_with. split; [|apply rstrip_char_last].
  pose proof (lstrip_with_head (Ascii.eqb ch) s) as Hl.
  destruct (lstrip_with (Ascii.eqb ch) s) as [|c t]; [reflexivity|].
  destruct (rstrip_with_head (Ascii.eqb ch) c t Hl) as [r ->].
  simpl. now rewrite Ascii.eqb_sym.
Qed.

(** X1. A quoted term becomes a [match_phrase] on the [all] field whose
    text has no double quote at either end, however many wrapped it. *)
Theorem phrase_clause_has_no_outer_quotes (s : string)
    (default_field default_operator : value) :
  _is_phrase_search s = true ->
  exists phrase,
    _build_query_string (VStr s) default_field default_operator
    = Ok (VDict [("match_phrase", VDict [("all", VStr phrase)])])
    /\ startswith_char dquote phrase = false
    /\ endswith_char dquote phrase = false.
Proof.
  intros H. exists (_get_phrase s). split.
  - unfold _build_query_string. now rewrite H.
  - apply strip_char_no_outer.
Qed.

Lemma prefix_app (p r : string) : String.prefix p (p ++ r) = true.
Proof.
  induction p as [|c p IH]; simpl.
  - now destruct r.
  - destruct (Ascii.ascii_dec c c) as [_|Hne]; [exact IH | congruence].
Qed.

Lemma remove_all_from_skip (old skipped r : string) :
  remove_all_from old (String.length skipped) (skipped ++ r)
  = remove_all_from old O r.
Proof.
  induction skipped as [|c t IH]; simpl; [reflexivity | exact IH].
Qed.

(** Cutting the prefix out of a prefixed name gives what cutting it out
    of the name gives. *)
Lemma str_remove_all_prefixed (p r : string) :
  p <> "" -> str_remove_all p (p ++ r) = str_remove_all p r.
Proof.
  intros Hp. destruct p as [|c p']; [congruence|].
  unfold str_remove_all.
  change (String c p' ++ r)%string with (String c (p' ++ r)).
  cbn [remove_all_from].
  change (String c (p' ++ r)) with (String c p' ++ r)%string.
  rewrite prefix_app.
  cbn [String.length]. rewrite Nat.sub_1_r. cbn [Nat.pred].
  apply remove_all_from_skip.
Qed.

(** ** [build_elastic_query] *)

Lemma set_filters_without_base (query : dict) (must : list value) :
  set_filters query must None = Raise TypeError.
Proof. reflexivity. Qed.

(** X2. [build_elastic_query] never returns a query: it calls
    [set_filters] without base filters, which raises TypeError as soon
    as the clauses are built; a document that is no dictionary, or whose
    [q] is no string, raises before that. *)
Theorem build_elastic_query_never_returns (doc : value) :
  (exists e, build_elastic_query doc = Raise e)
  /\ (forall d query filters,
        doc = VDict d ->
        build_elastic_clauses d (VDict []) [] = Ok (query, filters) ->
        build_elastic_query doc = Raise TypeError).
Proof.
  split.
  - destruct doc; try (now eexists). unfold build_elastic_query.
    destruct (build_elastic_clauses d (VDict []) []) as [[query filters]|e];
      cbn [bind]; now eexists.
  - intros d query filters -> H. unfold build_elastic_query. now rewrite H.
Qed.

(** ** The cursor *)

Lemma count_without_hits (env : dict) (ds : list value) :
  dict_get env "hits" = None -> count (ElasticCursor (VDict env) ds) = Ok 0%Z.
Proof.
  intros Henv. unfold count, ElasticCursor.
  destruct env as [|kv env']; [reflexivity|].
  cbn [truthy hits py_get bind]. now rewrite Henv.
Qed.

(** X3. A cursor counts 0 unless its envelope declares a total under
    [hits]: for no envelope or an empty one, for an envelope without
    [hits], and for one whose [hits] has no [total], whatever documents
    the cursor holds; a total that is a dictionary makes [count]
    raise TypeError. *)
Theorem count_without_total (ds : list value) :
  (forall h, truthy h = false -> count (ElasticCursor h ds) = Ok 0%Z)
  /\ (forall env, dict_get env "hits" = None ->
        count (ElasticCursor (VDict env) ds) = Ok 0%Z)
  /\ (forall env inner, dict_get env "hits" = Some (VDict inner) ->
        dict_get inner "total" = None ->
        count (ElasticCursor (VDict env) ds) = Ok 0%Z)
  /\ (forall env inner t, dict_get env "hits" = Some (VDict inner) ->
        dict_get inner "total" = Some (VDict t) ->
        count (ElasticCursor (VDict env) ds) = Raise TypeError).
Proof.
  repeat split; try (intros env Henv; now apply count_without_hits);
    unfold count, ElasticCursor.
  - intros h ->. reflexivity.
  - intros env inner Henv Ht. destruct env as [|kv env']; [discriminate|].
    cbn [truthy hits py_get bind]. rewrite Henv. cbn [py_get bind].
    now rewrite Ht.
  - intros env inner t Henv Ht. destruct env as [|kv env']; [discriminate|].
    cbn [truthy hits py_get bind]. rewrite Henv. cbn [py_get bind].
    now rewrite Ht.
Qed.

(** X4. [extra] copies the facets and the aggregations of the envelope
    into the response under [_facets] and [_aggregations], each only
    when the envelope has it, and leaves every other key of the
    response as it was. *)
Theorem extra_copies_side_channels (h response : dict) (ds : list value) :
  h <> [] ->
  exists r,
    extra (ElasticCursor (VDict h) ds) response = Ok r
    /\ dict_get r "_facets"
       = match dict_get h "facets" with
         | Some f => Some f
         | None => dict_get response "_facets"
         end
    /\ dict_get r "_aggregations"
       = match dict_get h "aggregations" with
         | Some a => Some a
         | None => dict_get response "_aggregations"
         end
    /\ forall k, k <> "_facets" -> k <> "_aggregations" ->
         dict_get r k = dict_get response k.
Proof.
  intros Hh. unfold extra, ElasticCursor.
  destruct h as [|kv h']; [congruence|]. cbn [truthy hits].
  set (h := kv :: h'). cbn [py_in bind py_getitem]. unfold dict_mem.
  destruct (dict_get h "facets") as [f|] eqn:Hf;
    destruct (dict_get h "aggregations") as [a|] eqn:Ha; cbn [bind];
    eexists; (split; [reflexivity|]); repeat split;
    try (intros k H1 H2);
    repeat first [rewrite dict_get_set_eq
                 | rewrite dict_get_set_neq by (congruence || discriminate)];
    reflexivity.
Qed.

(** ** Schema mapping *)

Lemma mapping_at_schema (l : list (string * value)) :
  (fix sub (l : list (string * value)) : result value :=
     match l with
     | [] => Raise KeyError
     | (k, v) :: l' => if String.eqb "schema" k then _get_mapping v else sub l'
     end) l
  = match dict_get l "schema" with
    | Some v => _get_mapping v
    | None => Raise KeyError
    end.
Proof.
  induction l as [|[k v] l IH]; [reflexivity|].
  cbn -[String.eqb]. destruct (String.eqb "schema" k); [reflexivity | exact IH].
Qed.

Lemma mapping_at_schema_schema (l : list (string * value)) :
  (fix sub (l : list (string * value)) : result value :=
     match l with
     | [] => Raise KeyError
     | (k, v) :: l' =>
         if String.eqb "schema" k
         then match v with
              | VDict d2 =>
                  (fix sub2 (l2 : list (string * value)) : result value :=
                     match l2 with
                     | [] => Raise KeyError
                     | (k2, v2) :: l2' =>
                         if String.eqb "schema" k2
                         then _get_mapping v2 else sub2 l2'
                     end) d2
              | _ => Raise TypeError
              end
         else sub l'
     end) l
  = match dict_get l "schema" with
    | Some (VDict d2) =>
        match dict_get d2 "schema" with
        | Some v => _get_mapping v
        | None => Raise KeyError
        end
    | Some _ => Raise TypeError
    | None => Raise KeyError
    end.
Proof.
  induction l as [|[k v] l IH]; [reflexivity|].
  cbn -[String.eqb]. destruct (String.eqb "schema" k); [|exact IH].
  destruct v; try reflexivity. apply mapping_at_schema.
Qed.

Lemma get_mapping_collect (fields : dict) :
  _get_mapping (VDict fields)
  = (properties <- collect_mappings fields [] ;;
     Ok (VDict [("properties", VDict properties)])).
Proof.
  reflexivity.
Qed.

Lemma get_mapping_shape (schema m : value) :
  _get_mapping schema = Ok m ->
  exists fields props,
    schema = VDict fields /\ collect_mappings fields [] = Ok props
    /\ m = VDict [("properties", VDict props)].
Proof.
  destruct schema as [| | | | | |fields]; try discriminate.
  rewrite get_mapping_collect. intros H. bind_inv_as H props Hprops.
  injection H as <-. now exists fields, props.
Qed.

(** X5. The rules of [_get_field_mapping] on a field schema, first
    match first: a [mapping] key is returned as it is, whatever the
    type; without it a missing [type] is a KeyError; [text] and
    [keyword] are copied to the [all] field; [datetime] is a date, with
    the [ignore_malformed] flag only when the schema has it; a [dict]
    with a schema maps as that schema does, and a [list] whose items
    have a schema maps as the items' schema does; a [dict] without a
    schema has no mapping. *)
Theorem field_mapping_rules (d : dict) :
  (forall m, dict_get d "mapping" = Some m -> _get_field_mapping (VDict d) = Ok m)
  /\ (dict_get d "mapping" = None ->
      (dict_get d "type" = None -> _get_field_mapping (VDict d) = Raise KeyError)
      /\ (dict_get d "type" = Some (VStr "text") ->
            _get_field_mapping (VDict d)
            = Ok (VDict [("type", VStr "text"); ("copy_to", VStr "all")]))
      /\ (dict_get d "type" = Some (VStr "keyword") ->
            _get_field_mapping (VDict d)
            = Ok (VDict [("type", VStr "keyword"); ("copy_to", VStr "all")]))
      /\ (dict_get d "type" = Some (VStr "datetime") ->
            _get_field_mapping (VDict d)
            = Ok (VDict (("type", VStr "date")
                         :: match dict_get d "ignore_malformed" with
                            | Some flag => [("ignore_malformed", flag)]
                            | None => []
                            end)))
      /\ (dict_get d "type" = Some (VStr "dict") ->
            _get_field_mapping (VDict d)
            = match dict_get d "schema" with
              | Some nested => _get_mapping nested
              | None => Ok VNone
              end)
      /\ (forall items nested,
            dict_get d "type" = Some (VStr "list") ->
            dict_get d "schema" = Some (VDict items) ->
            dict_get items "schema" = Some nested ->
            _get_field_mapping (VDict d) = _get_mapping nested)).
Proof.
  split.
  - intros m Hm. cbn [_get_field_mapping]. unfold dict_mem, dict_get_or.
    now rewrite Hm.
  - intros Hm. cbn [_get_field_mapping]. unfold dict_mem, dict_get_or.
    rewrite Hm. repeat split.
    + now intros ->.
    + intros ->. reflexivity.
    + intros ->. reflexivity.
    + intros ->. cbn. destruct (dict_get d "ignore_malformed"); reflexivity.
    + intros ->. cbn [is_str String.eqb Ascii.eqb Bool.eqb andb].
      destruct (dict_get d "schema") as [nested|] eqn:Hs.
      * rewrite mapping_at_schema. now rewrite Hs.
      * reflexivity.
    + intros items nested -> Hs Hn. cbn. rewrite Hs. cbn.
      unfold dict_mem. rewrite Hn. cbn [bind].
      rewrite mapping_at_schema_schema. now rewrite Hs, Hn.
Qed.

Lemma dict_get_none_not_in (l : dict) (k : string) :
  ~ In k (map fst l) -> dict_get l k = None.
Proof.
  induction l as [|[k' v] l IH]; [reflexivity|].
  simpl. intros Hn. destruct (String.eqb k k') eqn:Hk.
  - apply String.eqb_eq in Hk. subst. tauto.
  - apply IH. tauto.
Qed.

Lemma collect_mappings_get (fields : dict) :
  NoDup (map fst fields) ->
  forall acc props,
    collect_mappings fields acc = Ok props ->
    forall field,
      match dict_get fields field with
      | Some fs =>
          exists m, _get_field_mapping fs = Ok m
                    /\ dict_get props field
                       = if truthy m then Some m else dict_get acc field
      | None => dict_get props field = dict_get acc field
      end.
Proof.
  induction fields as [|[f0 fs0] l IH]; intros Hnd acc props H field.
  - injection H as <-. reflexivity.
  - cbn [collect_mappings] in H. bind_inv_as H m0 Hm0.
    inversion Hnd as [|? ? Hnotin Hnd']; subst.
    specialize (IH Hnd' _ _ H field). cbn [dict_get].
    destruct (String.eqb field f0) eqn:Hf.
    + apply String.eqb_eq in Hf. subst f0.
      rewrite (dict_get_none_not_in l field Hnotin) in IH.
      exists m0. split; [assumption|]. rewrite IH.
      destruct (truthy m0); [apply dict_get_set_eq | reflexivity].
    + apply String.eqb_neq in Hf.
      assert (Hacc : dict_get (if truthy m0 then dict_set acc f0 m0 else acc) field
                     = dict_get acc field).
      { destruct (truthy m0); [|reflexivity].
        apply dict_get_set_neq. congruence. }
      destruct (dict_get l field) as [fs|].
      * destruct IH as (m & Hm & Hp). exists m. split; [assumption|].
        rewrite Hp. now rewrite Hacc.
      * now rewrite IH.
Qed.

(** X6. The mapping of a schema holds exactly the fields whose field
    mapping is truthy, each with that mapping; a field of another type
    (integer, objectid, a list of scalars) or with an empty override is
    left out. *)
Theorem get_mapping_keeps_mapped_fields (fields : dict) (m : value) :
  NoDup (map fst fields) ->
  _get_mapping (VDict fields) = Ok m ->
  exists props,
    m = VDict [("properties", VDict props)]
    /\ (forall field fs, dict_get fields field = Some fs ->
          exists fm, _get_field_mapping fs = Ok fm
                     /\ dict_get props field = if truthy fm then Some fm else None)
    /\ (forall field, dict_get fields field = None -> dict_get props field = None).
Proof.
  intros Hnd H. rewrite get_mapping_collect in H. bind_inv_as H props Hprops.
  injection H as <-. exists props. split; [reflexivity|].
  pose proof (collect_mappings_get fields Hnd [] props Hprops) as Hget.
  split.
  - intros field fs Hf. specialize (Hget field). now rewrite Hf in Hget.
  - intros field Hf. specialize (Hget field). now rewrite Hf in Hget.
Qed.

Lemma dict_get_update_two (d : dict) (k1 k2 : string) (v : value) (k : string) :
  dict_get (dict_update d [(k1, v); (k2, v)]) k
  = if String.eqb k1 k || String.eqb k2 k then Some v else dict_get d k.
Proof.
  unfold dict_update. cbn [fold_left fst snd].
  destruct (String.eqb k2 k) eqn:H2.
  - apply String.eqb_eq in H2. subst. rewrite orb_true_r. apply dict_get_set_eq.
  - apply String.eqb_neq in H2. rewrite dict_get_set_neq by assumption.
    rewrite orb_false_r. destruct (String.eqb k1 k) eqn:H1.
    + apply String.eqb_eq in H1. subst. apply dict_get_set_eq.
    + apply String.eqb_neq in H1. now apply dict_get_set_neq.
Qed.

(** X7. The mapping pushed for a resource never maps [_id], always maps
    the two audit timestamps as plain dates, whatever the schema says
    of them, and keeps the mapping of every other field. *)
Theorem mapping_properties_invariant (cfg : config) (rc : resource_config)
    (schema : dict) (m : value) :
  rc_schema rc = Some schema ->
  _get_mapping (VDict schema) = Ok m ->
  exists props props',
    m = VDict [("properties", VDict props)]
    /\ _get_mapping_properties cfg rc VNone
       = Ok (VDict [("properties", VDict props')])
    /\ dict_get props' "_id" = None
    /\ (forall k, k = DATE_CREATED cfg \/ k = LAST_UPDATED cfg -> k <> "_id" ->
          dict_get props' k = Some (VDict [("type", VStr "date")]))
    /\ (forall k, k <> DATE_CREATED cfg -> k <> LAST_UPDATED cfg -> k <> "_id" ->
          dict_get props' k = dict_get props k).
Proof.
  intros Hrc Hm. destruct (get_mapping_shape _ _ Hm) as (fields & props & Hf & _ & ->).
  exists props. eexists. split; [reflexivity|].
  unfold _get_mapping_properties. rewrite Hrc. cbn [bind]. rewrite Hm.
  cbn -[dict_update dict_pop]. split; [reflexivity|].
  split; [apply dict_get_pop_eq|]. split.
  - intros k Hk Hne. rewrite dict_get_pop_neq by congruence.
    rewrite dict_get_update_two.
    destruct Hk as [-> | ->]; rewrite String.eqb_refl;
      [reflexivity | now rewrite orb_true_r].
  - intros k H1 H2 H3. rewrite dict_get_pop_neq by congruence.
    rewrite dict_get_update_two.
    apply not_eq_sym in H1, H2. apply String.eqb_neq in H1, H2.
    now rewrite H1, H2.
Qed.

Section MoreProperties.

Context {E : Externals} {R : ReadEngine}.
Variable cfg : config.

(** ** Normalising a hit *)

Lemma dict_get_setdefault (d : dict) (k k' : string) (v : value) :
  dict_get (dict_setdefault d k v) k'
  = if String.eqb k k'
    then Some (dict_get_or d k v)
    else dict_get d k'.
Proof.
  unfold dict_setdefault, dict_mem, dict_get_or.
  destruct (String.eqb k k') eqn:Hk.
  - apply String.eqb_eq in Hk. subst k'.
    destruct (dict_get d k) eqn:Hd; [assumption | apply dict_get_set_eq].
  - apply String.eqb_neq in Hk.
    destruct (dict_get d k); [reflexivity | now apply dict_get_set_neq].
Qed.

Lemma parse_dates_frame (dates : list string) :
  forall doc doc', parse_dates dates doc = Ok doc' ->
  forall k, ~ In k dates -> dict_get doc' k = dict_get doc k.
Proof.
  induction dates as [|key rest IH]; intros doc doc' H k Hk.
  - now injection H as <-.
  - cbn [parse_dates] in H. cbn [In] in Hk.
    destruct (dict_get doc key) as [v|].
    + bind_inv_as H d Hd. rewrite (IH _ _ H k) by tauto.
      apply dict_get_set_neq. tauto.
    + apply (IH _ _ H k). tauto.
Qed.

Lemma parse_dates_keys (dates : list string) :
  forall doc doc', parse_dates dates doc = Ok doc' ->
  forall k, dict_mem doc' k = dict_mem doc k.
Proof.
  induction dates as [|key rest IH]; intros doc doc' H k.
  - now injection H as <-.
  - cbn [parse_dates] in H.
    destruct (dict_get doc key) as [v|] eqn:Hkey.
    + bind_inv_as H d Hd. rewrite (IH _ _ H k). unfold dict_mem.
      destruct (String.eqb key k) eqn:Hk.
      * apply String.eqb_eq in Hk. subst k.
        now rewrite dict_get_set_eq, Hkey.
      * apply String.eqb_neq in Hk. now rewrite dict_get_set_neq.
    + apply (IH _ _ H k).
Qed.

(** X8. [format_doc] on a hit with a source: a field that is no date
    field, and is not the id, the type or the highlight, comes out as
    the source has it; the id of the source is kept when it has one,
    else the id of the hit is put in; and no field the source lacks is
    added, apart from those three. *)
Theorem format_doc_frame (h s : dict) (dates : list string) (out : value) :
  dict_get_or h "_source" (VDict []) = VDict s ->
  ~ In (ID_FIELD cfg) dates ->
  ID_FIELD cfg <> "_type" -> ID_FIELD cfg <> "es_highlight" ->
  format_doc cfg (VDict h) dates = Ok out ->
  exists doc,
    out = VDict doc
    /\ (forall k, ~ In k dates -> k <> ID_FIELD cfg -> k <> "_type" ->
          k <> "es_highlight" -> dict_get doc k = dict_get s k)
    /\ dict_get doc (ID_FIELD cfg)
       = Some (dict_get_or s (ID_FIELD cfg) (dict_get_or h "_id" VNone))
    /\ (forall k, k <> ID_FIELD cfg -> k <> "_type" -> k <> "es_highlight" ->
          dict_get s k = None -> dict_get doc k = None).
Proof.
  intros Hs Hid Ht Hh H. unfold format_doc in H. cbn [py_get bind] in H.
  fold (dict_get_or h "_source" (VDict [])) in H. rewrite Hs in H.
  fold (dict_get_or h "_id" VNone) in H.
  fold (dict_get_or h "_type" VNone) in H.
  fold (dict_get_or h "highlight" VNone) in H.
  bind_inv_as H doc Hdoc. injection H as <-. exists doc.
  split; [reflexivity|].
  set (d1 := dict_setdefault s (ID_FIELD cfg) (dict_get_or h "_id" VNone)) in *.
  set (d2 := dict_setdefault d1 "_type" (dict_get_or h "_type" VNone)) in *.
  set (d3 := if truthy (dict_get_or h "highlight" VNone)
             then dict_set d2 "es_highlight" (dict_get_or h "highlight" VNone)
             else d2) in *.
  assert (H3 : forall k, k <> "es_highlight" -> dict_get d3 k = dict_get d2 k).
  { intros k Hk. subst d3.
    destruct (truthy (dict_get_or h "highlight" VNone)); [|reflexivity].
    apply dict_get_set_neq. congruence. }
  assert (H2 : forall k, k <> "_type" -> dict_get d2 k = dict_get d1 k).
  { intros k Hk. subst d2. rewrite dict_get_setdefault.
    apply not_eq_sym, String.eqb_neq in Hk. now rewrite Hk. }
  assert (H1 : forall k, k <> ID_FIELD cfg -> dict_get d1 k = dict_get s k).
  { intros k Hk. subst d1. rewrite dict_get_setdefault.
    apply not_eq_sym, String.eqb_neq in Hk. now rewrite Hk. }
  split; [|split].
  - intros k Hk Hk1 Hk2 Hk3.
    rewrite (parse_dates_frame _ _ _ Hdoc k Hk), H3, H2, H1 by assumption.
    reflexivity.
  - rewrite (parse_dates_frame _ _ _ Hdoc _ Hid), H3, H2 by assumption.
    subst d1. rewrite dict_get_setdefault. now rewrite String.eqb_refl.
  - intros k Hk1 Hk2 Hk3 Hnone.
    pose proof (parse_dates_keys _ _ _ Hdoc k) as Hmem. unfold dict_mem in Hmem.
    rewrite H3, H2, H1, Hnone in Hmem by assumption.
    destruct (dict_get doc k); [discriminate | reflexivity].
Qed.

Lemma schema_dates_spec (schema : dict) :
  forall l, schema_dates schema = Ok l ->
  (forall field, In field l ->
     exists fs, In (field, fs) schema
                /\ py_getitem fs "type" = Ok (VStr "datetime"))
  /\ (forall field d, In (field, VDict d) schema ->
        dict_get d "type" = Some (VStr "datetime") -> In field l).
Proof.
  induction schema as [|[f fs] rest IH]; intros l H.
  - injection H as <-. split; [intros ? []| intros ? ? []].
  - cbn [schema_dates] in H.
    bind_inv_as H has Hhas. bind_inv_as H isdt Hdt. bind_inv_as H r Hr.
    injection H as <-. destruct (IH r Hr) as [IH1 IH2]. split.
    + intros field Hin.
      assert (Hcase : (isdt = true /\ field = f) \/ In field r).
      { destruct isdt; [destruct Hin as [<-|Hin]|]; auto. }
      destruct Hcase as [[-> ->]|Hin'].
      * exists fs. split; [now left|].
        destruct has; [|discriminate].
        bind_inv_as Hdt t Ht. injection Hdt as Hdt. rewrite Ht.
        destruct t; try discriminate. apply String.eqb_eq in Hdt. now subst.
      * destruct (IH1 field Hin') as (fs' & Hfs & Hty).
        exists fs'. split; [now right | assumption].
    + intros field d [Heq|Hin] Hty.
      * injection Heq as -> ->. cbn [py_in] in Hhas. injection Hhas as <-.
        unfold dict_mem in Hdt. rewrite Hty in Hdt.
        cbn [py_getitem bind] in Hdt. rewrite Hty in Hdt. cbn in Hdt.
        injection Hdt as <-. now left.
      * destruct isdt; [right|]; eapply IH2; eassumption.
Qed.

(** X9. The date fields of a schema are the two audit timestamps, first,
    and then exactly the top-level fields whose type is [datetime]: a
    date inside a [dict] or [list] field is not among them. *)
Theorem get_dates_are_top_level_datetimes (schema : dict) (dates : list string) :
  get_dates cfg schema = Ok dates ->
  exists l,
    dates = LAST_UPDATED cfg :: DATE_CREATED cfg :: l
    /\ (forall field, In field l ->
          exists fs, In (field, fs) schema
                     /\ py_getitem fs "type" = Ok (VStr "datetime"))
    /\ (forall field d, In (field, VDict d) schema ->
          dict_get d "type" = Some (VStr "datetime") -> In field l).
Proof.
  unfold get_dates. intros H. bind_inv_as H l Hl. injection H as <-.
  exists l. split; [reflexivity|]. now apply schema_dates_spec.
Qed.

(** ** The query of [find], beside its boolean container *)

(** The query [find] hands to [set_filters], step by step. *)
Lemma find_filters_query (resource : string) (req : parsed_request)
    (sub_resource_lookup : value) (query : dict) (must filters : list value) :
  find_filters cfg resource req sub_resource_lookup = Ok (query, must, filters) ->
  exists sc source query0 source_filter sorted wf,
    lookup (SOURCES cfg) resource = Ok sc
    /\ py_get (if truthy (req_args req) then req_args req else VDict [])
         "source" VNone = Ok source
    /\ (if truthy source then source_override source
        else Ok ([("query", bool_shell)], VNone)) = Ok (query0, source_filter)
    /\ (if dict_mem query0 "sort" then Ok query0
        else match req_sort req with
             | Some s =>
                 if str_truthy s
                 then sort <- literal_eval s ;; Ok (set_sort query0 sort)
                 else Ok (match ds_default_sort sc with
                          | [] => query0
                          | l => set_sort query0 l
                          end)
             | None => Ok (match ds_default_sort sc with
                           | [] => query0
                           | l => set_sort query0 l
                           end)
             end) = Ok sorted
    /\ query
       = (if (1 <? req_page req)%Z
          then dict_setdefault
                 (if truthy (VInt (req_max_results req))
                  then dict_setdefault sorted "size" (VInt (req_max_results req))
                  else sorted)
                 "from" (VInt ((req_page req - 1) * req_max_results req))
          else if truthy (VInt (req_max_results req))
               then dict_setdefault sorted "size" (VInt (req_max_results req))
               else sorted)
    /\ where_filter req = Ok wf
    /\ filters = [entry sc "elastic_filter"; callback_filter sc; source_filter] ++ wf.
Proof.
  unfold find_filters. intros H.
  bind_inv_as H sc Hsc. bind_inv_as H source Hsource.
  bind_inv_as H start Hstart. destruct start as [query0 source_filter].
  bind_inv_as H q Hq. bind_inv_as H must0 Hmust.
  bind_inv_as H sorted Hsorted.
  bind_inv_as H lookup_filter Hlookup. bind_inv_as H has_filter Hhas.
  bind_inv_as H arg_filter Harg. bind_inv_as H has_filters Hhass.
  bind_inv_as H arg_filters Hargs. bind_inv_as H wf Hwf.
  injection H as <- <- <-.
  exists sc, source, query0, source_filter, sorted, wf.
  repeat (split; [first [assumption | reflexivity]|]). reflexivity.
Qed.

(** What the steps after the source leave alone: a key the query has
    keeps its value, and only [sort], [size] and [from] can be added. *)
Lemma find_filters_steps (req : parsed_request) (sc : source_config)
    (query0 sorted : dict) :
  (if dict_mem query0 "sort" then Ok query0
   else match req_sort req with
        | Some s =>
            if str_truthy s
            then sort <- literal_eval s ;; Ok (set_sort query0 sort)
            else Ok (match ds_default_sort sc with
                     | [] => query0
                     | l => set_sort query0 l
                     end)
        | None => Ok (match ds_default_sort sc with
                      | [] => query0
                      | l => set_sort query0 l
                      end)
        end) = Ok sorted ->
  let query :=
    (if (1 <? req_page req)%Z
     then dict_setdefault
            (if truthy (VInt (req_max_results req))
             then dict_setdefault sorted "size" (VInt (req_max_results req))
             else sorted)
            "from" (VInt ((req_page req - 1) * req_max_results req))
     else if truthy (VInt (req_max_results req))
          then dict_setdefault sorted "size" (VInt (req_max_results req))
          else sorted) in
  (forall k v, dict_get query0 k = Some v -> dict_get query k = Some v)
  /\ (forall k, k <> "sort" -> k <> "size" -> k <> "from" ->
        dict_get query k = dict_get query0 k).
Proof.
  intros Hsorted query.
  assert (Hs1 : forall k v, dict_get query0 k = Some v -> dict_get sorted k = Some v).
  { intros k v Hk. destruct (dict_mem query0 "sort") eqn:Hmem.
    - now injection Hsorted as <-.
    - assert (Hne : "sort" <> k).
      { intros <-. unfold dict_mem in Hmem. now rewrite Hk in Hmem. }
      assert (Hset : forall l, dict_get (set_sort query0 l) k = Some v).
      { intros l. unfold set_sort. now rewrite dict_get_set_neq. }
      destruct (req_sort req) as [s|]; [destruct (str_truthy s)|].
      + bind_inv_as Hsorted sort Hsort. injection Hsorted as <-. apply Hset.
      + injection Hsorted as <-. destruct (ds_default_sort sc); [assumption|apply Hset].
      + injection Hsorted as <-. destruct (ds_default_sort sc); [assumption|apply Hset]. }
  assert (Hs2 : forall k, k <> "sort" -> dict_get sorted k = dict_get query0 k).
  { intros k Hk.
    assert (Hset : forall l, dict_get (set_sort query0 l) k = dict_get query0 k).
    { intros l. unfold set_sort. apply dict_get_set_neq. congruence. }
    destruct (dict_mem query0 "sort").
    - now injection Hsorted as <-.
    - destruct (req_sort req) as [s|]; [destruct (str_truthy s)|].
      + bind_inv_as Hsorted sort Hsort. injection Hsorted as <-. apply Hset.
      + injection Hsorted as <-. destruct (ds_default_sort sc); [reflexivity|apply Hset].
      + injection Hsorted as <-. destruct (ds_default_sort sc); [reflexivity|apply Hset]. }
  assert (Hd1 : forall d key x k v, dict_get d k = Some v ->
            dict_get (dict_setdefault d key x) k = Some v).
  { intros d key x k v Hk. rewrite dict_get_setdefault.
    destruct (String.eqb key k) eqn:Hkey; [|assumption].
    apply String.eqb_eq in Hkey. subst. unfold dict_get_or. now rewrite Hk. }
  assert (Hd2 : forall d key x k, key <> k ->
            dict_get (dict_setdefault d key x) k = dict_get d k).
  { intros d key x k Hk. now apply dict_get_setdefault_neq. }
  subst query. split.
  - intros k v Hk. apply Hs1 in Hk.
    destruct (1 <? req_page req)%Z, (truthy (VInt (req_max_results req)));
      repeat apply Hd1; assumption.
  - intros k H1 H2 H3.
    destruct (1 <? req_page req)%Z, (truthy (VInt (req_max_results req)));
      repeat (rewrite Hd2 by congruence); now apply Hs2.
Qed.

(** X10. What becomes of the other top-level keys of a [source]
    override.  When its query has a [filter], every other key the
    override has (sort, size, from, aggregations ...) stays in the query
    with its value, and the sort and the paging of the request do not
    replace it; when its query has no [filter], the override is
    dropped but for its query: only sort, size and from, set from the
    request, can be in the query beside [query]. *)
Theorem source_override_top_level_keys (resource : string) (req : parsed_request)
    (sub_resource_lookup : value) (args q : dict) (src : value)
    (query : dict) (must filters : list value) :
  req_args req = VDict args ->
  dict_get args "source" = Some src -> truthy src = true ->
  py_json_loads src = Ok (VDict q) ->
  find_filters cfg resource req sub_resource_lookup = Ok (query, must, filters) ->
  (forall inner, dict_get q "query" = Some (VDict inner) ->
     dict_mem inner "filter" = true ->
     forall k v, k <> "query" -> dict_get q k = Some v -> dict_get query k = Some v)
  /\ (py_in "filter" (dict_get_or q "query" (VDict [])) = Ok false ->
      forall k, k <> "query" -> k <> "sort" -> k <> "size" -> k <> "from" ->
        dict_get query k = None).
Proof.
  intros Hargs Hsrc Ht Hload H.
  destruct (find_filters_query _ _ _ _ _ _ H)
    as (sc & source & query0 & sf & sorted & wf & _ & Hsource & Hstart & Hsorted & -> & _).
  rewrite Hargs in Hsource.
  assert (Hne : args <> []) by (intros ->; discriminate).
  destruct args as [|kv args']; [congruence|].
  cbn [truthy py_get] in Hsource. rewrite Hsrc in Hsource.
  injection Hsource as <-. rewrite Ht in Hstart.
  destruct (find_filters_steps req sc query0 sorted Hsorted) as [Hkeep Hframe].
  split.
  - intros inner Hq Hf k v Hk Hv. unfold dict_mem in Hf.
    destruct (dict_get inner "filter") as [f|] eqn:Hfilter; [|discriminate].
    rewrite (source_override_takes_filter src q inner f Hload Hq Hfilter) in Hstart.
    injection Hstart as <- _. apply Hkeep.
    rewrite dict_get_set_neq by congruence. assumption.
  - intros Hno k H0 H1 H2 H3. rewrite Hframe by assumption.
    unfold source_override in Hstart. rewrite Hload in Hstart.
    cbn [bind py_get] in Hstart. fold (dict_get_or q "query" (VDict [])) in Hstart.
    rewrite Hno in Hstart. cbn [bind] in Hstart. injection Hstart as <- _.
    cbn [dict_get]. apply String.eqb_neq in H0. now rewrite H0.
Qed.

Lemma find_query_keeps (resource : string) (req : parsed_request)
    (sub_resource_lookup : value) (query0 query : dict)
    (must filters : list value) :
  find_filters cfg resource req sub_resource_lookup = Ok (query0, must, filters) ->
  find_query cfg resource req sub_resource_lookup = Ok query ->
  forall k, k <> "query" -> k <> "facets" -> k <> "aggs" -> k <> "highlight" ->
    dict_get query k = dict_get query0 k.
Proof.
  intros Hff H k H1 H2 H3 H4. unfold find_query in H. rewrite Hff in H.
  cbn [bind] in H. apply find_filters_inv in Hff. destruct Hff as [Hshell _].
  bind_inv_as H sc Hsc.
  rewrite (set_filters_shell query0 must filters Hshell) in H. cbn [bind] in H.
  bind_inv_as H aggregate Hagg.
  set (q1 := dict_set query0 "query"
               (VDict [("bool", VDict (bool_clauses must filters))])) in *.
  set (q2 := if dict_mem (ds_entries sc) "facets"
             then dict_set q1 "facets" (entry sc "facets") else q1) in *.
  set (q3 := if truthy aggregate
             then dict_set q2 "aggs" (entry sc "aggregations") else q2) in *.
  assert (Hq3 : dict_get q3 k = dict_get query0 k).
  { subst q3 q2 q1.
    destruct (truthy aggregate), (dict_mem (ds_entries sc) "facets");
      repeat (rewrite dict_get_set_neq by congruence); reflexivity. }
  destruct (es_highlight sc) as [builder|].
  - bind_inv_as H highlight Hhl. destruct (truthy highlight).
    + bind_inv_as H query_string Hqs.
      destruct (truthy (builder query_string)).
      * destruct (builder query_string); try discriminate.
        injection H as <-. now rewrite dict_get_set_neq by congruence.
      * now injection H as <-.
    + now injection H as <-.
  - now injection H as <-.
Qed.

(** X11. Paging of a request without a [source] override: the query has
    a [size], the page size, exactly when the page size is not 0, and
    a [from], (page - 1) times the page size, exactly when the page is
    beyond the first. *)
Theorem find_paging (resource : string) (req : parsed_request)
    (sub_resource_lookup : value) (query : dict) :
  (forall source,
     py_get (if truthy (req_args req) then req_args req else VDict [])
       "source" VNone = Ok source -> truthy source = false) ->
  find_query cfg resource req sub_resource_lookup = Ok query ->
  dict_get query "size"
  = (if (req_max_results req =? 0)%Z then None
     else Some (VInt (req_max_results req)))
  /\ dict_get query "from"
     = (if (1 <? req_page req)%Z
        then Some (VInt ((req_page req - 1) * req_max_results req))
        else None).
Proof.
  intros Hnosource H.
  destruct (find_filters cfg resource req sub_resource_lookup)
    as [[[query0 must] filters]|e] eqn:Hff;
    [|unfold find_query in H; rewrite Hff in H; discriminate].
  rewrite !(find_query_keeps _ _ _ _ _ _ _ Hff H) by discriminate.
  destruct (find_filters_query _ _ _ _ _ _ Hff)
    as (sc & source & q0 & sf & sorted & wf & _ & Hsource & Hstart & Hsorted & -> & _).
  rewrite (Hnosource _ Hsource) in Hstart. injection Hstart as <- <-.
  cbn [dict_mem dict_get String.eqb Ascii.eqb Bool.eqb] in Hsorted.
  assert (Hsize : dict_get sorted "size" = None /\ dict_get sorted "from" = None).
  { destruct (req_sort req) as [s|]; [destruct (str_truthy s)|].
    - bind_inv_as Hsorted sort Hsort. now injection Hsorted as <-.
    - injection Hsorted as <-. now destruct (ds_default_sort sc).
    - injection Hsorted as <-. now destruct (ds_default_sort sc). }
  destruct Hsize as [Hsize Hfrom]. cbn [truthy].
  destruct (1 <? req_page req)%Z, (req_max_results req =? 0)%Z; cbn [negb];
    rewrite ?dict_get_setdefault; cbn [String.eqb Ascii.eqb Bool.eqb];
    unfold dict_get_or; rewrite ?dict_get_setdefault;
    cbn [String.eqb Ascii.eqb Bool.eqb]; unfold dict_get_or;
    rewrite ?Hsize, ?Hfrom; split; reflexivity.
Qed.

(** X12. The sort of a request without a [source] override: the sort of
    the request when it has one, else the default sort of the resource
    when it has one, else no [sort] key; each entry sorts ascending for
    a positive direction, descending otherwise, and treats an unmapped
    field as a long.  A request sort that does not evaluate makes
    [find] raise. *)
Theorem find_sort_precedence (resource : string) (req : parsed_request)
    (sub_resource_lookup : value) (sc : source_config) :
  lookup (SOURCES cfg) resource = Ok sc ->
  (forall source,
     py_get (if truthy (req_args req) then req_args req else VDict [])
       "source" VNone = Ok source -> truthy source = false) ->
  (forall query s l, find_query cfg resource req sub_resource_lookup = Ok query ->
     req_sort req = Some s -> s <> "" -> literal_eval s = Ok l ->
     dict_get query "sort" = Some (VList (map sort_entry l)))
  /\ (forall query, find_query cfg resource req sub_resource_lookup = Ok query ->
        req_sort req = None \/ req_sort req = Some "" ->
        dict_get query "sort"
        = match ds_default_sort sc with
          | [] => None
          | l => Some (VList (map sort_entry l))
          end)
  /\ (forall s e, req_sort req = Some s -> s <> "" -> literal_eval s = Raise e ->
        exists e', find cfg resource req sub_resource_lookup = Raise e')
  /\ (forall key direction,
        sort_entry (key, direction)
        = VDict [(key, VDict [("order", VStr (if (0 <? direction)%Z
                                              then "asc" else "desc"));
                              ("unmapped_type", VStr "long")])]).
Proof.
  intros Hsc Hnosource.
  assert (Hcommon : forall query,
            find_query cfg resource req sub_resource_lookup = Ok query ->
            exists sorted,
              match req_sort req with
              | Some s =>
                  if str_truthy s
                  then sort <- literal_eval s ;;
                       Ok (set_sort [("query", bool_shell)] sort)
                  else Ok (match ds_default_sort sc with
                           | [] => [("query", bool_shell)]
                           | l => set_sort [("query", bool_shell)] l
                           end)
              | None => Ok (match ds_default_sort sc with
                            | [] => [("query", bool_shell)]
                            | l => set_sort [("query", bool_shell)] l
                            end)
              end = Ok sorted
              /\ dict_get query "sort" = dict_get sorted "sort").
  { intros query H.
    destruct (find_filters cfg resource req sub_resource_lookup)
      as [[[query0 must] filters]|e] eqn:Hff;
      [|unfold find_query in H; rewrite Hff in H; discriminate].
    rewrite (find_query_keeps _ _ _ _ _ _ _ Hff H) by discriminate.
    destruct (find_filters_query _ _ _ _ _ _ Hff)
      as (sc' & source & q0 & sf & sorted & wf & Hsc' & Hsource & Hstart & Hsorted & -> & _).
    rewrite Hsc in Hsc'. injection Hsc' as <-.
    rewrite (Hnosource _ Hsource) in Hstart. injection Hstart as <- <-.
    cbn [dict_mem dict_get String.eqb Ascii.eqb Bool.eqb] in Hsorted.
    exists sorted. split; [assumption|].
    destruct (1 <? req_page req)%Z, (truthy (VInt (req_max_results req)));
      repeat (rewrite dict_get_setdefault_neq by discriminate); reflexivity. }
  split; [|split; [|split]].
  - intros query s l H Hs Hne Hl. destruct (Hcommon query H) as (sorted & Hsorted & ->).
    rewrite Hs in Hsorted.
    assert (Htr : str_truthy s = true).
    { unfold str_truthy. destruct (String.eqb_spec s ""); [congruence|reflexivity]. }
    rewrite Htr, Hl in Hsorted. cbn [bind] in Hsorted. now injection Hsorted as <-.
  - intros query H Hs. destruct (Hcommon query H) as (sorted & Hsorted & ->).
    destruct Hs as [Hs|Hs]; rewrite Hs in Hsorted; cbn in Hsorted;
      injection Hsorted as <-; now destruct (ds_default_sort sc).
  - intros s e Hs Hne Hl. unfold find, find_query, find_filters.
    rewrite Hsc. cbn [bind].
    destruct (py_get (if truthy (req_args req) then req_args req else VDict [])
                "source" VNone) as [source|e0] eqn:Hsource; [|now eexists].
    cbn [bind]. rewrite (Hnosource source eq_refl). cbn [bind].
    destruct (py_get (if truthy (req_args req) then req_args req else VDict [])
                "q" VNone) as [q|e0]; [|now eexists].
    cbn [bind].
    match goal with
    | |- context [bind ?m _] =>
        match m with
        | (if truthy q then _ else _) => destruct m as [must0|e0]; [|now eexists]
        end
    end.
    cbn [bind dict_mem dict_get String.eqb Ascii.eqb Bool.eqb].
    rewrite Hs.
    assert (Htr : str_truthy s = true).
    { unfold str_truthy. destruct (String.eqb_spec s ""); [congruence|reflexivity]. }
    rewrite Htr, Hl. now eexists.
  - reflexivity.
Qed.

Lemma find_filters_raise (resource : string) (req : parsed_request)
    (sub_resource_lookup : value) (e : exn) :
  find_filters cfg resource req sub_resource_lookup = Raise e ->
  find cfg resource req sub_resource_lookup = Raise e.
Proof.
  intros H. unfold find, find_query. now rewrite H.
Qed.

(** X13. The where clause.  A where clause that is JSON becomes a term
    filter, the last of the filter list, as it is parsed; one that
    neither [json.loads] nor the expression parser takes makes [find]
    abort with 400 when the rest of the request assembles, before any
    search. *)
Theorem find_where_clause (resource : string) (req : parsed_request)
    (sub_resource_lookup : value) (w : string) :
  req_where req = Some w -> w <> "" ->
  (forall t query must filters,
     json_loads w = Some t ->
     find_filters cfg resource req sub_resource_lookup = Ok (query, must, filters) ->
     exists sc source_filter,
       filters = [entry sc "elastic_filter"; callback_filter sc; source_filter;
                  VDict [("term", t)]])
  /\ (forall assembled,
        json_loads w = None -> mongo_parse w = None ->
        find_filters cfg resource
          {| req_args := req_args req; req_sort := req_sort req;
             req_where := None; req_max_results := req_max_results req;
             req_page := req_page req |} sub_resource_lookup = Ok assembled ->
        find cfg resource req sub_resource_lookup = Raise (HTTPException 400)).
Proof.
  intros Hw Hne.
  assert (Htr : str_truthy w = true).
  { unfold str_truthy. destruct (String.eqb_spec w ""); [congruence|reflexivity]. }
  split.
  - intros t query must filters Hj H.
    destruct (find_filters_query _ _ _ _ _ _ H)
      as (sc & source & q0 & sf & sorted & wf & _ & _ & _ & _ & _ & Hwf & ->).
    unfold where_filter in Hwf. rewrite Hw, Htr, Hj in Hwf. injection Hwf as <-.
    now exists sc, sf.
  - intros assembled Hj Hm H. apply find_filters_raise.
    unfold find_filters in *. cbn [req_args req_sort req_max_results req_page] in H.
    bind_inv_as H sc Hsc. rewrite Hsc. cbn [bind].
    bind_inv_as H source Hsource. rewrite Hsource. cbn [bind].
    bind_inv_as H start Hstart. rewrite Hstart. cbn [bind].
    destruct start as [query0 source_filter].
    bind_inv_as H q Hq. rewrite Hq. cbn [bind].
    bind_inv_as H must0 Hmust. rewrite Hmust. cbn [bind].
    bind_inv_as H sorted Hsorted. rewrite Hsorted. cbn [bind].
    bind_inv_as H lookup_filter Hlookup. rewrite Hlookup. cbn [bind].
    bind_inv_as H has_filter Hhas. rewrite Hhas. cbn [bind].
    bind_inv_as H arg_filter Harg. rewrite Harg. cbn [bind].
    bind_inv_as H has_filters Hhass. rewrite Hhass. cbn [bind].
    bind_inv_as H arg_filters Hargs. rewrite Hargs. cbn [bind].
    unfold where_filter. now rewrite Hw, Htr, Hj, Hm.
Qed.

(** ** Lookups of one document *)

Lemma isinstance_not_found (c : es_class) :
  es_isinstance c NotFoundError = true <-> c = NotFoundError.
Proof. destruct c; simpl; split; congruence. Qed.

(** X14. When the get of [_find_by_id] raises an engine error: not
    found gives None; a routing-missing error sends the lookup to the
    search by id; any other engine error, a lost connection too, is
    swallowed and None returned. *)
Theorem find_by_id_engine_errors (resource : string) (_id parent : value)
    (args : dict) (es : string) (c : es_class) (status_code : Z)
    (error : string) :
  _es_args cfg resource VNone VNone = Ok args ->
  elastic cfg resource = Ok es ->
  (forall call, es_get call = Raise (EsError c status_code error)) ->
  (c = NotFoundError -> _find_by_id cfg resource _id parent = Ok VNone)
  /\ (c <> NotFoundError ->
      error <> "routing_missing_exception" ->
      str_contains "RoutingMissingException" error = false ->
      _find_by_id cfg resource _id parent = Ok VNone)
  /\ (c <> NotFoundError ->
      error = "routing_missing_exception"
      \/ str_contains "RoutingMissingException" error = true ->
      _find_by_id cfg resource _id parent = find_by_id_search cfg resource _id).
Proof.
  intros Hargs Hes Hget. unfold _find_by_id. rewrite Hargs. cbn [bind].
  rewrite Hes. cbn [bind]. rewrite Hget. cbn [bind].
  split; [|split].
  - intros ->. reflexivity.
  - intros Hc He Hs.
    destruct (es_isinstance c NotFoundError) eqn:Hi;
      [apply isinstance_not_found in Hi; congruence|].
    apply String.eqb_neq in He. now rewrite He, Hs.
  - intros Hc Hr.
    destruct (es_isinstance c NotFoundError) eqn:Hi;
      [apply isinstance_not_found in Hi; congruence|].
    destruct Hr as [-> | ->]; [reflexivity | now rewrite orb_true_r].
Qed.

(** X15. Answers that mean there is no document.  A hit the engine
    marks as not found gives None, and the older [exists] mark, when
    the hit has it, decides instead of [found]; a [find_one] without an
    identifier gives None when its search raises not found. *)
Theorem find_one_absent (resource : string) (args : dict) (es : string) :
  _es_args cfg resource VNone VNone = Ok args ->
  (forall _id parent h,
     elastic cfg resource = Ok es ->
     (forall call, es_get call = Ok (VDict h)) ->
     truthy (match dict_get h "exists" with
             | Some mark => mark
             | None => dict_get_or h "found" (VBool false)
             end) = false ->
     _find_by_id cfg resource _id parent = Ok VNone)
  /\ (forall lookup prefixed status_code error,
        dict_mem lookup (ID_FIELD cfg) = false ->
        _get_index_prefix cfg resource = Ok prefixed ->
        elastic cfg prefixed = Ok es ->
        (forall query kw,
           es_search es query kw = Raise (EsError NotFoundError status_code error)) ->
        find_one cfg resource lookup = Ok VNone).
Proof.
  intros Hargs. split.
  - intros _id parent h Hes Hget Hf. unfold _find_by_id. rewrite Hargs.
    cbn [bind]. rewrite Hes. cbn [bind]. rewrite Hget.
    cbn [bind is_found py_in]. unfold dict_mem, dict_get_or in *.
    destruct (dict_get h "exists") as [mark|] eqn:Hex; cbn [bind].
    + rewrite dict_get_set_eq. now rewrite Hf.
    + now rewrite Hf.
  - intros lookup prefixed status_code error Hid Hp Hes Hsearch.
    unfold find_one. rewrite Hid, Hargs. cbn [bind]. rewrite Hp. cbn [bind].
    rewrite Hes. cbn [bind]. now rewrite Hsearch.
Qed.

Lemma parse_hits_without_hits (r : dict) (resource : string) :
  dict_get r "hits" = None ->
  returns (_parse_hits cfg (VDict []) resource) ->
  _parse_hits cfg (VDict r) resource = Ok (ElasticCursor (VDict r) []).
Proof.
  intros Hr [c H]. unfold _parse_hits in *.
  bind_inv_as H ds Hds. rewrite Hds. cbn [bind].
  bind_inv_as H rc0 Hrc0. rewrite Hrc0. cbn [bind].
  bind_inv_as H rc1 Hrc1. rewrite Hrc1. cbn [bind].
  bind_inv_as H dates Hdates. rewrite Hdates. cbn [bind py_get].
  now rewrite Hr.
Qed.

(** X16. [find_list_of_ids] reads the documents under [hits.hits]: for
    an answer of the engine without a [hits] key, as a multi-get answer
    that lists them under [docs], the cursor has no document and counts
    0. *)
Theorem find_list_of_ids_without_hits (resource : string) (ids : value)
    (args r : dict) (es : string) :
  _es_args cfg resource VNone VNone = Ok args ->
  elastic cfg resource = Ok es ->
  (forall query kw, es_mget es query kw = Ok (VDict r)) ->
  dict_get r "hits" = None ->
  returns (_parse_hits cfg (VDict []) resource) ->
  exists c,
    find_list_of_ids cfg resource ids = Ok c
    /\ docs c = [] /\ first c = VNone /\ count c = Ok 0%Z.
Proof.
  intros Hargs Hes Hmget Hr Hret. unfold find_list_of_ids.
  rewrite Hargs. cbn [bind]. rewrite Hes. cbn [bind]. rewrite Hmget. cbn [bind].
  rewrite (parse_hits_without_hits r resource Hr Hret).
  eexists. split; [reflexivity|]. split; [reflexivity|]. split; [reflexivity|].
  now apply count_without_hits.
Qed.

(** ** Inserts *)

(** X17. What [insert] sends and returns, document by document: the
    body is the document without its [_id], the id of the call is the
    [_id] the document had (None without one), the id returned is the
    [_id] of the engine's answer, or the document's own when the answer
    has none, and the document is left with that id. *)
Theorem insert_docs_calls (resource : string) (docs : list dict) :
  forall kw calls kept ids,
  insert_docs cfg resource kw docs = Ok (calls, kept, ids) ->
  map body calls = map (fun d => VDict (dict_pop d "_id")) docs
  /\ map doc_id calls = map (fun d => dict_get_or d "_id" VNone) docs
  /\ Forall2 (fun call id =>
                exists res, es_index call = Ok res
                            /\ py_get res "_id" (doc_id call) = Ok id)
       calls ids
  /\ Forall2 (fun d id => dict_get d "_id" = Some id) kept ids
  /\ length ids = length docs.
Proof.
  induction docs as [|doc rest IH]; intros kw calls kept ids H.
  - injection H as <- <- <-. repeat split; constructor.
  - cbn [insert_docs] in H.
    bind_inv_as H kw' Hkw. bind_inv_as H es Hes. bind_inv_as H res Hres.
    bind_inv_as H new_id Hid. bind_inv_as H later Hlater.
    destruct later as [[calls' kept'] ids']. injection H as <- <- <-.
    destruct (IH _ _ _ _ Hlater) as (Hb & Hi & Hr & Hk & Hl).
    assert (Hset : dict_get (dict_setdefault (dict_pop doc "_id") "_id" new_id) "_id"
                   = Some new_id).
    { rewrite dict_get_setdefault, String.eqb_refl. unfold dict_get_or.
      now rewrite dict_get_pop_eq. }
    assert (Hor : dict_get_or (dict_setdefault (dict_pop doc "_id") "_id" new_id)
                    "_id" VNone = new_id).
    { unfold dict_get_or at 1. now rewrite Hset. }
    rewrite Hor. cbn [map body doc_id length]. rewrite Hb, Hi, Hl.
    split; [reflexivity|]. split; [reflexivity|]. split; [|split; [|reflexivity]].
    + constructor; [|assumption]. exists res. split; [|assumption].
      destruct (dict_mem kw' "body" || dict_mem kw' "id"); [discriminate|assumption].
    + constructor; assumption.
Qed.





(** X19. A join field that is a string holding the text [parent], as
    the name of a relation may, cannot be written: [update] and
    [replace] raise AttributeError before they reach the engine. *)
Theorem join_field_string_with_parent (resource : string) (id_ : value)
    (payload args : dict) (s : string) :
  _es_args cfg resource (VBool true) VNone = Ok args ->
  dict_get payload "join_field" = Some (VStr s) ->
  str_contains "parent" s = true ->
  update_call cfg resource id_ payload = Raise AttributeError
  /\ replace_call cfg resource id_ payload = Raise AttributeError.
Proof.
  intros Hargs Hj Hs.
  assert (Hne : truthy (VStr s) = true) by (destruct s; [discriminate|reflexivity]).
  assert (Hparent : get_parent_id (dict_pop (dict_pop payload "_id") "_type")
                    = Raise AttributeError).
  { unfold get_parent_id. rewrite !dict_get_pop_neq by discriminate.
    rewrite Hj, Hne. cbn [py_in bind]. now rewrite Hs. }
  unfold update_call, replace_call, _update_parent_join_args.
  rewrite Hargs. cbn [bind]. now rewrite Hparent.
Qed.

(** X20. An [update] or a [replace] that reaches the engine addresses
    the resolved index with the document type [doc], always asks for a
    refresh, and carries a [routing] argument exactly when the payload,
    without its id and type, names a parent: the parent. *)
Theorem update_replace_kwargs (resource : string) (id_ : value) (payload : dict)
    (call : es_call) :
  update_call cfg resource id_ payload = Ok call
  \/ replace_call cfg resource id_ payload = Ok call ->
  exists index p,
    _resource_index cfg resource = Ok index
    /\ get_parent_id (dict_pop (dict_pop payload "_id") "_type") = Ok p
    /\ dict_get (kwargs call) "index" = Some index
    /\ dict_get (kwargs call) "doc_type" = Some (VStr "doc")
    /\ dict_get (kwargs call) "refresh" = Some (VBool true)
    /\ dict_get (kwargs call) "routing" = (if truthy p then Some p else None)
    /\ doc_id call = id_.
Proof.
  assert (Hargs : forall args index,
            _resource_index cfg resource = Ok index ->
            _es_args cfg resource (VBool true) VNone = Ok args ->
            args = [("index", index); ("doc_type", VStr "doc");
                    ("refresh", VBool true)]).
  { intros args index Hi H. unfold _es_args in H. rewrite Hi in H.
    cbn in H. now injection H as <-. }
  assert (Hjoin : forall args args' p,
            get_parent_id (dict_pop (dict_pop payload "_id") "_type") = Ok p ->
            _update_parent_join_args args
              (dict_pop (dict_pop payload "_id") "_type") = Ok args' ->
            args' = if truthy p then dict_set args "routing" p else args).
  { intros args args' p Hp H. unfold _update_parent_join_args in H.
    rewrite Hp in H. cbn [bind] in H. now injection H as <-. }
  intros [H|H].
  - unfold update_call in H. bind_inv_as H args Ha.
    bind_inv_as H args' Hj. bind_inv_as H es Hes. injection H as <-.
    cbn [kwargs doc_id].
    destruct (_resource_index cfg resource) as [index|e] eqn:Hi;
      [|unfold _es_args in Ha; rewrite Hi in Ha; discriminate].
    destruct (get_parent_id (dict_pop (dict_pop payload "_id") "_type"))
      as [p|e] eqn:Hp;
      [|unfold _update_parent_join_args in Hj; rewrite Hp in Hj; discriminate].
    exists index, p. rewrite (Hargs _ _ eq_refl Ha) in Hj.
    rewrite (Hjoin _ _ _ eq_refl Hj).
    split; [reflexivity|]. split; [reflexivity|].
    destruct (truthy p), (truthy (_get_retry_on_conflict cfg));
      repeat split; reflexivity.
  - unfold replace_call in H. bind_inv_as H args Ha.
    bind_inv_as H args' Hj. bind_inv_as H es Hes. injection H as <-.
    cbn [kwargs doc_id].
    destruct (_resource_index cfg resource) as [index|e] eqn:Hi;
      [|unfold _es_args in Ha; rewrite Hi in Ha; discriminate].
    destruct (get_parent_id (dict_pop (dict_pop payload "_id") "_type"))
      as [p|e] eqn:Hp;
      [|unfold _update_parent_join_args in Hj; rewrite Hp in Hj; discriminate].
    exists index, p. rewrite (Hargs _ _ eq_refl Ha) in Hj.
    rewrite (Hjoin _ _ _ eq_refl Hj).
    split; [reflexivity|]. split; [reflexivity|].
    destruct (truthy p); repeat split; reflexivity.
Qed.

(** ** Prefixed names *)

(** X21. The cluster of a resource is the same under its name and under
    its index-prefixed name: the prefix is cut out before the resource
    is looked up, so the client, and every setting read through the
    cluster prefix, is the one of the resource. *)
Theorem resource_prefix_of_prefixed_name (resource prefixed p : string) :
  index_prefix_setting cfg = Ok (VStr p) ->
  _get_index_prefix cfg resource = Ok prefixed ->
  _resource_prefix cfg prefixed = _resource_prefix cfg resource
  /\ elastic cfg prefixed = elastic cfg resource
  /\ forall key default,
       _resource_config cfg prefixed key default
       = _resource_config cfg resource key default.
Proof.
  intros Hp Hpre.
  assert (H : _resource_prefix cfg prefixed = _resource_prefix cfg resource).
  { unfold _get_index_prefix in Hpre. rewrite Hp in Hpre. cbn [bind] in Hpre.
    destruct (str_truthy resource); [|now injection Hpre as <-].
    destruct (truthy (VStr p)) eqn:Ht; [|now injection Hpre as <-].
    injection Hpre as <-. unfold _resource_prefix. rewrite Hp. cbn [bind].
    rewrite Ht. cbn [bind].
    rewrite str_remove_all_prefixed; [reflexivity|].
    intros ->. discriminate. }
  split; [exact H|]. split.
  - unfold elastic, _resource_config. now rewrite H.
  - intros key default. unfold _resource_config. now rewrite H.
Qed.

(** X22. [is_empty] resolves the index from the prefixed name: with an
    index prefix set, a resource whose prefixed name is not itself a
    registered source makes it raise KeyError, before the engine is
    asked. *)
Theorem is_empty_under_index_prefix (resource p : string) :
  index_prefix_setting cfg = Ok (VStr p) ->
  p <> "" -> resource <> "" ->
  assoc (SOURCES cfg) (p ++ resource)%string = None ->
  is_empty cfg resource = Raise KeyError.
Proof.
  intros Hp Hne Hr Hsrc. unfold is_empty, _get_index_prefix.
  assert (Htr : str_truthy resource = true).
  { unfold str_truthy. destruct (String.eqb_spec resource ""); [congruence|reflexivity]. }
  assert (Htp : truthy (VStr p) = true).
  { cbn. destruct (String.eqb_spec p ""); [congruence|reflexivity]. }
  rewrite Htr, Hp. cbn [bind]. rewrite Htp. cbn [bind].
  unfold _es_args, _resource_index, get_datasource, lookup. now rewrite Hsrc.
Qed.

End MoreProperties.

(** ** Index settings *)

(** X23. [put_settings] without settings makes no call; with settings
    it closes the index, puts them and opens it again, in this order;
    and when the engine refuses the settings, the error is raised with
    the index closed: the call that opens it is never made. *)
Theorem put_settings_sequence (answer : indices_call -> option exn)
    (self_index : result string) (index : string) (settings : value) :
  index <> "" ->
  (truthy settings = false ->
     put_settings answer self_index index settings = ([], Ok tt))
  /\ (truthy settings = true ->
      answer (IndicesClose index) = None ->
      (forall e, answer (IndicesPutSettings index settings) = Some e ->
         put_settings answer self_index index settings
         = ([IndicesClose index; IndicesPutSettings index settings], Raise e))
      /\ (answer (IndicesPutSettings index settings) = None ->
          answer (IndicesOpen index) = None ->
          put_settings answer self_index index settings
          = ([IndicesClose index; IndicesPutSettings index settings;
              IndicesOpen index], Ok tt))).
Proof.
  intros Hne.
  assert (Htr : str_truthy index = true).
  { unfold str_truthy. destruct (String.eqb_spec index ""); [congruence|reflexivity]. }
  unfold put_settings. rewrite Htr. split.
  - now intros ->.
  - intros -> Hclose. cbn [run_calls]. rewrite Hclose. split.
    + now intros e ->.
    + now intros -> ->.
Qed.

Lemma run_calls_prefix (answer : indices_call -> option exn)
    (calls made : list indices_call) (r : result unit) :
  run_calls answer calls = (made, r) ->
  exists rest, calls = made ++ rest.
Proof.
  revert made r. induction calls as [|c calls IH]; intros made r H.
  - injection H as <- _. now exists [].
  - cbn [run_calls] in H. destruct (answer c).
    + injection H as <- _. now exists calls.
    + destruct (run_calls answer calls) as [made' r'] eqn:Hrun.
      injection H as <- _. destruct (IH _ _ eq_refl) as [rest ->].
      now exists rest.
Qed.

(** X24. [create_index] never raises an engine error: a refused create
    or alias is swallowed, and after a refused create the alias is not
    put.  Settings given without mappings raise KeyError before any
    call.  When both calls are made, the alias is put on the index
    under the generated name. *)
Theorem create_index_outcomes (answer : indices_call -> option exn)
    (self_index : result string) (random index : string)
    (mappings settings : value) :
  (forall made c status_code error,
     create_index answer self_index random (Some index) mappings settings
     <> (made, Raise (EsError c status_code error)))
  /\ (truthy mappings = false -> truthy settings = true ->
      create_index answer self_index random (Some index) mappings settings
      = ([], Raise KeyError))
  /\ (forall args c status_code error,
        truthy settings = false ->
        args = (if truthy mappings
                then [("index", VStr index); ("body", mappings)]
                else [("index", VStr index)]) ->
        answer (IndicesCreate args) = Some (EsError c status_code error) ->
        create_index answer self_index random (Some index) mappings settings
        = ([IndicesCreate args], Ok tt))
  /\ (forall args,
        truthy settings = false ->
        args = (if truthy mappings
                then [("index", VStr index); ("body", mappings)]
                else [("index", VStr index)]) ->
        answer (IndicesCreate args) = None ->
        answer (IndicesPutAlias index (index ++ "_" ++ random)) = None ->
        create_index answer self_index random (Some index) mappings settings
        = ([IndicesCreate args; IndicesPutAlias index (index ++ "_" ++ random)],
           Ok tt)).
Proof.
  split; [|split; [|split]].
  - intros made c status_code error. unfold create_index.
    match goal with
    | |- context [match ?m with Ok _ => _ | Raise _ => _ end] =>
        destruct m as [args|e] eqn:Hargs
    end.
    + destruct (run_calls answer _) as [made' [[]|e]]; [discriminate|].
      destruct e; discriminate.
    + intros H. injection H as _ ->.
      destruct (truthy settings); [|discriminate].
      destruct (truthy mappings); cbn in Hargs; [|discriminate].
      destruct mappings; discriminate.
  - intros Hm Hs. unfold create_index. now rewrite Hm, Hs.
  - intros args c status_code error Hs -> Ha. unfold create_index.
    rewrite Hs. destruct (truthy mappings); cbn [dict_set String.eqb Ascii.eqb Bool.eqb] in *;
      cbn [run_calls]; now rewrite Ha.
  - intros args Hs -> Ha Hal. unfold create_index, generate_index_name.
    rewrite Hs. destruct (truthy mappings); cbn [dict_set String.eqb Ascii.eqb Bool.eqb] in *;
      cbn [run_calls]; now rewrite Ha, Hal.
Qed.

(** * More of the layer on the sample application *)

Lemma phrase_clause_has_no_outer_quotes_witness :
  _is_phrase_search quoted_term = true
  /\ exists phrase,
       _build_query_string (VStr quoted_term) (VStr "all") (VStr "OR")
       = Ok (VDict [("match_phrase", VDict [("all", VStr phrase)])])
       /\ startswith_char dquote phrase = false
       /\ endswith_char dquote phrase = false.
Proof.
  split; [reflexivity|].
  exact (phrase_clause_has_no_outer_quotes quoted_term (VStr "all") (VStr "OR")
           eq_refl).
Defined.

Lemma build_elastic_query_never_returns_witness :
  build_elastic_query (VDict cricket_doc) = Raise TypeError.
Proof.
  destruct (build_elastic_query_never_returns (VDict cricket_doc)) as [_ H].
  exact (H cricket_doc _ _ eq_refl eq_refl).
Defined.

Lemma count_without_total_witness :
  count (ElasticCursor (VDict single_hit_envelope) [sample_hit]) = Ok 0%Z
  /\ count (ElasticCursor VNone []) = Ok 0%Z.
Proof.
  split.
  - destruct (count_without_total [sample_hit]) as (_ & _ & H & _).
    exact (H single_hit_envelope [("hits", VList [sample_hit])] eq_refl eq_refl).
  - destruct (count_without_total []) as (H & _).
    exact (H VNone eq_refl).
Defined.

Lemma extra_copies_side_channels_witness :
  exists r,
    extra (ElasticCursor (VDict [("aggregations", VDict [("type", VInt 2)])]) [])
      [("_items", VList [])] = Ok r
    /\ dict_get r "_aggregations" = Some (VDict [("type", VInt 2)])
    /\ dict_get r "_facets" = None
    /\ dict_get r "_items" = Some (VList []).
Proof.
  destruct (extra_copies_side_channels
              [("aggregations", VDict [("type", VInt 2)])]
              [("_items", VList [])] []) as (r & Hr & Hf & Ha & Hk).
  { discriminate. }
  exists r. split; [exact Hr|]. split; [exact Ha|]. split; [exact Hf|].
  rewrite Hk by discriminate. reflexivity.
Defined.

Lemma field_mapping_rules_witness :
  _get_field_mapping (VDict [("type", VStr "text"); ("mapping", VDict [("type", VStr "binary")])])
  = Ok (VDict [("type", VStr "binary")])
  /\ _get_field_mapping (VDict [("type", VStr "keyword"); ("unique", VBool true)])
     = Ok (VDict [("type", VStr "keyword"); ("copy_to", VStr "all")])
  /\ _get_field_mapping (VDict [("unique", VBool true)]) = Raise KeyError.
Proof.
  split; [|split].
  - destruct (field_mapping_rules
                [("type", VStr "text"); ("mapping", VDict [("type", VStr "binary")])])
      as [H _].
    exact (H _ eq_refl).
  - destruct (field_mapping_rules [("type", VStr "keyword"); ("unique", VBool true)])
      as [_ H].
    destruct (H eq_refl) as (_ & _ & H3 & _). exact (H3 eq_refl).
  - destruct (field_mapping_rules [("unique", VBool true)]) as [_ H].
    destruct (H eq_refl) as (H1 & _). exact (H1 eq_refl).
Defined.

Lemma items_schema_keys : NoDup (map fst items_schema).
Proof.
  repeat (constructor; [simpl; intuition discriminate|]). constructor.
Defined.

Lemma get_mapping_keeps_mapped_fields_witness :
  exists m props,
    _get_mapping (VDict items_schema) = Ok m
    /\ m = VDict [("properties", VDict props)]
    /\ dict_get props "name"
       = Some (VDict [("type", VStr "text"); ("copy_to", VStr "all")])
    /\ dict_get props "headline" = None.
Proof.
  eexists.
  destruct (get_mapping_keeps_mapped_fields items_schema _ items_schema_keys eq_refl)
    as (props & Hm & Hf & Hn).
  exists props. split; [reflexivity|]. split; [exact Hm|]. split.
  - destruct (Hf "name" text_field eq_refl) as (fm & Hfm & Hp).
    injection Hfm as <-. exact Hp.
  - exact (Hn "headline" eq_refl).
Defined.

Lemma mapping_properties_invariant_witness :
  exists props',
    _get_mapping_properties sample_cfg
      {| rc_schema := Some items_schema; rc_elastic_prefix := None |} VNone
    = Ok (VDict [("properties", VDict props')])
    /\ dict_get props' "_id" = None
    /\ dict_get props' "_created" = Some (VDict [("type", VStr "date")])
    /\ dict_get props' "_updated" = Some (VDict [("type", VStr "date")]).
Proof.
  destruct (mapping_properties_invariant sample_cfg
              {| rc_schema := Some items_schema; rc_elastic_prefix := None |}
              items_schema _ eq_refl eq_refl)
    as (props & props' & _ & Hp & Hid & Hdates & _).
  exists props'. split; [exact Hp|]. split; [exact Hid|]. split.
  - apply Hdates; [now left | discriminate].
  - apply Hdates; [now right | discriminate].
Defined.

Lemma format_doc_frame_witness :
  exists doc,
    format_doc (E := quiet_externals) sample_cfg sample_hit
      ["_updated"; "_created"; "firstcreated"] = Ok (VDict doc)
    /\ dict_get doc "uri" = Some (VStr "foo")
    /\ dict_get doc "_id" = Some (VStr "a")
    /\ dict_get doc "_updated" = None.
Proof.
  assert (Hdates : ~ In (ID_FIELD sample_cfg) ["_updated"; "_created"; "firstcreated"])
    by (simpl; intuition discriminate).
  assert (Htype : ID_FIELD sample_cfg <> "_type") by discriminate.
  assert (Hhl : ID_FIELD sample_cfg <> "es_highlight") by discriminate.
  destruct (format_doc_frame (E := quiet_externals) sample_cfg
              [("_id", VStr "a"); ("_type", VStr "doc");
               ("_source", VDict [("uri", VStr "foo");
                                  ("firstcreated", VStr sample_iso)])]
              [("uri", VStr "foo"); ("firstcreated", VStr sample_iso)]
              ["_updated"; "_created"; "firstcreated"] _ eq_refl
              Hdates Htype Hhl eq_refl)
    as (doc & Hout & Hframe & Hid & Hnone).
  exists doc. split; [now rewrite <- Hout|]. split; [|split].
  - rewrite Hframe; [reflexivity| |discriminate|discriminate|discriminate].
    simpl. intuition discriminate.
  - exact Hid.
  - apply Hnone; [discriminate|discriminate|discriminate|reflexivity].
Defined.

Lemma get_dates_are_top_level_datetimes_witness :
  exists l,
    get_dates sample_cfg items_schema = Ok ("_updated" :: "_created" :: l)
    /\ In "firstcreated" l.
Proof.
  destruct (get_dates_are_top_level_datetimes sample_cfg items_schema _ eq_refl)
    as (l & Hl & _ & Hin).
  exists l. split; [exact (f_equal Ok Hl)|].
  apply (Hin "firstcreated"
           [("type", VStr "datetime"); ("ignore_malformed", VBool true)]);
    [|reflexivity].
  simpl. auto.
Defined.

Lemma source_override_top_level_keys_witness :
  exists query must filters,
    find_filters (E := paged_externals) sample_cfg "items" paged_request VNone
    = Ok (query, must, filters)
    /\ dict_get query "size" = Some (VInt 5)
    /\ dict_get query "sort" = Some (VList [VStr "uri"]).
Proof.
  do 3 eexists. split; [reflexivity|].
  destruct (source_override_top_level_keys (E := paged_externals) sample_cfg
              "items" paged_request VNone
              [("source", VStr paged_source)] paged_source_value
              (VStr paged_source) _ _ _
              eq_refl eq_refl eq_refl eq_refl eq_refl) as [H _].
  split.
  - exact (H [("filter", VList [uri_foo_term])] eq_refl eq_refl
             "size" (VInt 5) ltac:(discriminate) eq_refl).
  - exact (H [("filter", VList [uri_foo_term])] eq_refl eq_refl
             "sort" (VList [VStr "uri"]) ltac:(discriminate) eq_refl).
Defined.

Lemma find_paging_witness :
  exists query,
    find_query (E := quiet_externals) sample_cfg "archived_items" third_page VNone
    = Ok query
    /\ dict_get query "size" = Some (VInt 25)
    /\ dict_get query "from" = Some (VInt 50).
Proof.
  eexists. split; [reflexivity|].
  apply (find_paging (E := quiet_externals) sample_cfg "archived_items"
           third_page VNone).
  - intros source H. injection H as <-. reflexivity.
  - reflexivity.
Defined.

Lemma find_sort_precedence_witness :
  (exists query,
     find_query (E := quiet_externals) sample_cfg "items" plain_request VNone
     = Ok query
     /\ dict_get query "sort"
        = Some (VList [VDict [("firstcreated",
                               VDict [("order", VStr "desc");
                                      ("unmapped_type", VStr "long")])]]))
  /\ exists e,
       find (E := quiet_externals) sample_cfg "items" garbled_sort VNone = Raise e.
Proof.
  split.
  - eexists. split; [reflexivity|].
    destruct (find_sort_precedence (E := quiet_externals) sample_cfg "items"
                plain_request VNone _ eq_refl) as (_ & H & _).
    { intros source Hs. injection Hs as <-. reflexivity. }
    exact (H _ eq_refl (or_introl eq_refl)).
  - destruct (find_sort_precedence (E := quiet_externals) sample_cfg "items"
                garbled_sort VNone _ eq_refl) as (_ & _ & H & _).
    { intros source Hs. injection Hs as <-. reflexivity. }
    apply (H "[(name, 1)" ValueError eq_refl); [discriminate|reflexivity].
Defined.

Lemma find_where_clause_witness :
  find (E := quiet_externals) sample_cfg "items" garbled_where VNone
  = Raise (HTTPException 400).
Proof.
  destruct (find_where_clause (E := quiet_externals) sample_cfg "items"
              garbled_where VNone "name==" eq_refl ltac:(discriminate))
    as [_ H].
  exact (H _ eq_refl eq_refl eq_refl).
Defined.

Lemma find_by_id_engine_errors_witness :
  _find_by_id (E := quiet_externals) (R := lost_connection) sample_cfg "items"
    (VStr "a") VNone = Ok VNone.
Proof.
  destruct (find_by_id_engine_errors (E := quiet_externals) (R := lost_connection)
              sample_cfg "items" (VStr "a") VNone _ _ ConnectionError 0
              "ConnectionTimeout" eq_refl eq_refl (fun _ => eq_refl))
    as (_ & H & _).
  apply H; [discriminate|discriminate|reflexivity].
Defined.

Lemma find_one_absent_witness :
  _find_by_id (E := quiet_externals) (R := legacy_absent) sample_cfg "items"
    (VStr "a") VNone = Ok VNone
  /\ find_one (E := not_found_search) (R := quiet_reads) sample_cfg "items"
       [("uri", VStr "test")] = Ok VNone.
Proof.
  split.
  - destruct (find_one_absent (E := quiet_externals) (R := legacy_absent)
                sample_cfg "items" _ "ELASTICSEARCH" eq_refl) as [H _].
    exact (H (VStr "a") VNone [("exists", VBool false); ("found", VBool true)]
             eq_refl (fun _ => eq_refl) eq_refl).
  - destruct (find_one_absent (E := not_found_search) (R := quiet_reads)
                sample_cfg "items" _ "ELASTICSEARCH" eq_refl) as [_ H].
    exact (H [("uri", VStr "test")] "items" 404%Z "index_not_found_exception"
             eq_refl eq_refl eq_refl (fun _ _ => eq_refl)).
Defined.

Lemma find_list_of_ids_without_hits_witness :
  exists c,
    find_list_of_ids (E := quiet_externals) (R := multi_get) sample_cfg "items"
      (VList [VStr "a"]) = Ok c
    /\ docs c = [] /\ count c = Ok 0%Z.
Proof.
  destruct (find_list_of_ids_without_hits (E := quiet_externals) (R := multi_get)
              sample_cfg "items" (VList [VStr "a"]) _
              [("docs", VList [sample_hit])] _
              eq_refl eq_refl (fun _ _ => eq_refl) eq_refl)
    as (c & Hc & Hd & _ & Hn).
  { eexists. reflexivity. }
  exists c. split; [exact Hc|]. split; [exact Hd | exact Hn].
Defined.

Lemma insert_docs_calls_witness :
  exists calls kept ids,
    insert_docs (E := echo_externals) sample_cfg "items" [("index", VStr "items")]
      [library_doc; book_doc; loose_doc] = Ok (calls, kept, ids)
    /\ map doc_id calls = [VStr "foo"; VStr "childfoo"; VNone]
    /\ length ids = 3%nat.
Proof.
  do 3 eexists. split; [reflexivity|].
  destruct (insert_docs_calls (E := echo_externals) sample_cfg "items"
              [library_doc; book_doc; loose_doc] [("index", VStr "items")]
              _ _ _ eq_refl)
    as (_ & Hi & _ & _ & Hl).
  split; [exact Hi | exact Hl].
Defined.


Lemma join_field_string_with_parent_witness :
  update_call sample_cfg "items" (VStr "a") [("join_field", VStr "parent_doc")]
  = Raise AttributeError.
Proof.
  exact (proj1 (join_field_string_with_parent sample_cfg "items" (VStr "a")
                  [("join_field", VStr "parent_doc")] _ "parent_doc"
                  eq_refl eq_refl eq_refl)).
Defined.

Lemma resource_prefix_of_prefixed_name_witness :
  _get_index_prefix (sample_app prefixed_settings) "items_foo" = Ok "test_items_foo"
  /\ _resource_prefix (sample_app prefixed_settings) "test_items_foo" = Ok "FOO"
  /\ elastic (sample_app prefixed_settings) "test_items_foo"
     = elastic (sample_app prefixed_settings) "items_foo".
Proof.
  destruct (resource_prefix_of_prefixed_name (sample_app prefixed_settings)
              "items_foo" "test_items_foo" "test_" eq_refl eq_refl)
    as (Hp & He & _).
  split; [reflexivity|]. split; [|exact He].
  rewrite Hp. reflexivity.
Defined.

Lemma is_empty_under_index_prefix_witness :
  is_empty (R := quiet_reads) (sample_app prefixed_settings) "items" = Raise KeyError.
Proof.
  apply (is_empty_under_index_prefix (R := quiet_reads)
           (sample_app prefixed_settings) "items" "test_");
    [reflexivity|discriminate|discriminate|reflexivity].
Defined.

Lemma put_settings_sequence_witness :
  put_settings (refusing is_put_settings) (Raise AttributeError) "items"
    (VDict [("number_of_replicas", VInt 1)])
  = ([IndicesClose "items";
      IndicesPutSettings "items" (VDict [("number_of_replicas", VInt 1)])],
     Raise (EsError RequestError 400 "illegal_argument_exception"))
  /\ put_settings (refusing is_put_settings) (Raise AttributeError) "items" VNone
     = ([], Ok tt).
Proof.
  split.
  - destruct (put_settings_sequence (refusing is_put_settings)
                (Raise AttributeError) "items"
                (VDict [("number_of_replicas", VInt 1)]) ltac:(discriminate))
      as [_ H].
    destruct (H eq_refl eq_refl) as [H1 _]. exact (H1 _ eq_refl).
  - destruct (put_settings_sequence (refusing is_put_settings)
                (Raise AttributeError) "items" VNone ltac:(discriminate))
      as [H _].
    exact (H eq_refl).
Defined.

Lemma create_index_outcomes_witness :
  create_index (refusing is_create) (Raise AttributeError) "1b9d6bcd"
    (Some "items") (VDict [("mappings", VDict [])]) VNone
  = ([IndicesCreate [("index", VStr "items");
                     ("body", VDict [("mappings", VDict [])])]], Ok tt)
  /\ create_index (refusing is_create) (Raise AttributeError) "1b9d6bcd"
       (Some "items") VNone (VDict [("number_of_replicas", VInt 1)])
     = ([], Raise KeyError).
Proof.
  destruct (create_index_outcomes (refusing is_create) (Raise AttributeError)
              "1b9d6bcd" "items" (VDict [("mappings", VDict [])]) VNone)
    as (_ & _ & H & _).
  destruct (create_index_outcomes (refusing is_create) (Raise AttributeError)
              "1b9d6bcd" "items" VNone (VDict [("number_of_replicas", VInt 1)]))
    as (_ & H' & _).
  split.
  - exact (H _ RequestError 400%Z "illegal_argument_exception" eq_refl eq_refl eq_refl).
  - exact (H' eq_refl eq_refl).
Defined.

Lemma update_replace_kwargs_witness :
  exists call,
    replace_call sample_cfg "items" (VStr "childfoo") book_doc = Ok call
    /\ dict_get (kwargs call) "routing" = Some (VStr "foo")
    /\ dict_get (kwargs call) "refresh" = Some (VBool true)
    /\ dict_get (kwargs call) "index" = Some (VStr "items").
Proof.
  eexists. split; [reflexivity|].
  destruct (update_replace_kwargs sample_cfg "items" (VStr "childfoo") book_doc
              _ (or_intror eq_refl))
    as (index & p & Hi & Hp & Hindex & _ & Hrefresh & Hrouting & _).
  injection Hi as <-. injection Hp as <-.
  split; [exact Hrouting|]. split; [exact Hrefresh | exact Hindex].
Defined.
